(** * Shoreline extraction (CVAs): water detection and shoreline vectorisation

    A shallow embedding of the Earth Engine scripts of the repository

      - [shoreline_extraction_100.js]  (version 1.0.0, module [V100])
      - [Shoreline_Extraction_101.js]  (version 1.0.1, module [V101])
      - [shoreline.js]                 (version 1.1.0, module [V110])
      - the unnamed module             (version 2.0.0, module [V200])
      - [slope.js]                     (the slope module, module [Slope])

    A number is the rational it denotes.  The arithmetic of [ee.Number] and
    [ee.Array], which rounds to double precision, is an interface
    ([Arithmetic]) with an instance for IEEE binary64; the values of the
    pixels of a raster are combined exactly.  Earth Engine division returns
    0 for division by 0. *)

From Stdlib Require Import QArith Qminmax Qround Qabs ZArith List String Bool Lia Lqa
  DecimalString.
Import ListNotations.

Local Open Scope string_scope.
Local Open Scope list_scope.
Local Open Scope Q_scope.

(** * Part I: the embedding *)

(** ** Errors and outcomes *)

(** What a script can raise: a JavaScript [ReferenceError] for an identifier
    that is not defined, a JavaScript [TypeError], or an Earth Engine
    evaluation error, which carries a message and nothing else. *)
Inductive error : Type :=
| ReferenceError (name : string)
| TypeError (msg : string)
| EEException (msg : string).

Inductive outcome (A : Type) : Type :=
| Ok (a : A)
| Throw (e : error).

Arguments Ok {A} a.
Arguments Throw {A} e.

Definition bind {A B : Type} (m : outcome A) (k : A -> outcome B) : outcome B :=
  match m with
  | Ok a => k a
  | Throw e => Throw e
  end.

Notation "x <- m ;; k" := (bind m (fun x => k))
  (at level 61, m at next level, right associativity).

Fixpoint mapM {A B : Type} (f : A -> outcome B) (l : list A) : outcome (list B) :=
  match l with
  | [] => Ok []
  | a :: t => b <- f a ;; bs <- mapM f t ;; Ok (b :: bs)
  end.

(** ** Numbers

    The values of [ee.Number] and the elements of an [ee.Array] are IEEE
    double-precision numbers.  A number is modelled by the rational it
    denotes (infinities and NaN are left out); the operations, which round
    their result, are taken as an interface. *)

Class Arithmetic : Type := {
  (** The double that a decimal literal of the script denotes. *)
  double : Q -> Q;
  (** [a.add(b)], [a.subtract(b)], [a.multiply(b)] on two numbers. *)
  Number_add : Q -> Q -> Q;
  Number_subtract : Q -> Q -> Q;
  Number_multiply : Q -> Q -> Q;
  (** [a.divide(b)]: 0 for division by 0. *)
  Number_divide : Q -> Q -> Q;
  (** [a.pow(b)]. *)
  Number_pow : Q -> Q -> Q;
  (** [array.reduce(ee.Reducer.sum(), [0]).get([0])]. *)
  Reducer_sum : list Q -> Q
}.

(** Arithmetic without rounding. *)
Definition exactArithmetic : Arithmetic := {|
  double := fun q => q;
  Number_add := Qplus;
  Number_subtract := Qminus;
  Number_multiply := Qmult;
  Number_divide := Qdiv;
  Number_pow := fun a b => Qpower a (Qfloor b);
  Reducer_sum := fold_right Qplus 0
|}.

(** IEEE binary64 with rounding to nearest, ties to even.  The range of the
    exponent is not modelled: no overflow, no subnormal numbers. *)
Module Double.

Definition roundHalfEven (x : Q) : Z :=
  let f := Qfloor x in
  match Qcompare (x - inject_Z f) (1 # 2) with
  | Lt => f
  | Gt => (f + 1)%Z
  | Eq => if Z.even f then f else (f + 1)%Z
  end.

(** The exponent [e] of a number other than 0: [2^e <= |q| < 2^(e+1)]. *)
Definition exponent (q : Q) : Z :=
  let e := (Z.log2 (Z.abs (Qnum q)) - Z.log2 (Zpos (Qden q)))%Z in
  match Qcompare (Qabs q) (2 ^ e) with
  | Lt => (e - 1)%Z
  | _ => e
  end.

(** The double nearest to [q]: a significand of 53 bits. *)
Definition round (q : Q) : Q :=
  if Qeq_bool q 0 then 0
  else
    let scale := (52 - exponent q)%Z in
    let significand := roundHalfEven (Qabs q * 2 ^ scale) in
    Qred ((if Qle_bool 0 q then 1 else -1) * inject_Z significand * 2 ^ (- scale)).

Definition add (a b : Q) : Q := round (a + b).

Definition subtract (a b : Q) : Q := round (a - b).

Definition multiply (a b : Q) : Q := round (a * b).

Definition divide (a b : Q) : Q := if Qeq_bool b 0 then 0 else round (a / b).

(** Exponentiation with an integer exponent. *)
Definition pow (a b : Q) : Q := round (Qpower a (Qfloor b)).

(** The sum accumulated from the left. *)
Definition sum (values : list Q) : Q := fold_left add values 0.

Definition binary64 : Arithmetic := {|
  double := round;
  Number_add := add;
  Number_subtract := subtract;
  Number_multiply := multiply;
  Number_divide := divide;
  Number_pow := pow;
  Reducer_sum := sum
|}.

End Double.

(** ** The Earth Engine primitives the scripts call *)

Module EE.

(** Division of the values of two pixels: 0 for division by 0. *)
Definition divide (a b : Q) : Q := a / b.

(** [array.length().get([0])] of a one-dimensional array. *)
Definition Array_length (a : list Q) : Z := Z.of_nat (List.length a).

(** The exact sum of a list of numbers. *)
Definition Array_sum (a : list Q) : Q := fold_right Qplus 0 a.

Fixpoint zipWith (f : Q -> Q -> Q) (a b : list Q) : list Q :=
  match a, b with
  | x :: a', y :: b' => f x y :: zipWith f a' b'
  | _, _ => []
  end.

(** [a.multiply(b)]: element-wise; arrays of different shapes are refused. *)
Definition Array_multiply {A : Arithmetic} (a b : list Q) : outcome (list Q) :=
  if Nat.eqb (List.length a) (List.length b) then Ok (zipWith Number_multiply a b)
  else Throw (EEException "Array.multiply: incompatible shapes").

(** [a.slice(0, 0, i)]: the elements at positions [0 .. i-1]. *)
Definition Array_slice0 (a : list Q) (i : Z) : list Q := firstn (Z.to_nat i) a.

(** [a.get([pos])]: a negative position counts from the end. *)
Definition Array_get (a : list Q) (pos : Z) : outcome Q :=
  let len := Z.of_nat (List.length a) in
  if ((0 <=? pos) && (pos <? len))%Z then Ok (nth (Z.to_nat pos) a 0)
  else if ((- len <=? pos) && (pos <? 0))%Z then Ok (nth (Z.to_nat (len + pos)) a 0)
  else Throw (EEException "Array.get: position out of bounds").

(** [ee.List.sequence(start, end)] with the default step 1. *)
Definition List_sequence (first last : Z) : list Z :=
  map (fun k => (first + Z.of_nat k)%Z) (seq 0 (Z.to_nat (last - first + 1))).

(** [list.reduce(ee.Reducer.max())]: [None] is the null of an empty list. *)
Definition List_reduce_max (l : list Q) : option Q :=
  match l with
  | [] => None
  | x :: t => Some (fold_left Qmax t x)
  end.

Fixpoint indexOf_from (l : list Q) (x : Q) (pos : Z) : Z :=
  match l with
  | [] => (-1)%Z
  | y :: t => if Qeq_bool y x then pos else indexOf_from t x (pos + 1)
  end.

(** [list.indexOf(x)]: the first position holding [x], [-1] when there is
    none. *)
Definition List_indexOf (l : list Q) (x : option Q) : Z :=
  match x with
  | None => (-1)%Z
  | Some v => indexOf_from l v 0
  end.

End EE.

(** ** The histogram dictionary and Otsu's method *)

(** The dictionary the histogram reducer yields: key ['histogram'] holds the
    bucket counts, key ['bucketMeans'] the bucket means. *)
Record Histogram : Type := mkHistogram {
  histogram : list Q;
  bucketMeans : list Q
}.

Section Otsu.

Context {A : Arithmetic}.

(** The function mapped over [indices] in [otsu]: the between-class sum of
    squares of the split that puts buckets [0 .. i-1] in class a. *)
Definition bssAt (counts means : list Q) (total sum mean : Q) (i : Z) : outcome Q :=
  let aCounts := EE.Array_slice0 counts i in
  let aCount := Reducer_sum aCounts in
  let aMeans := EE.Array_slice0 means i in
  aProd <- EE.Array_multiply aMeans aCounts ;;
  let aMean := Number_divide (Reducer_sum aProd) aCount in
  let bCount := Number_subtract total aCount in
  let bMean := Number_divide (Number_subtract sum (Number_multiply aCount aMean)) bCount in
  Ok (Number_add
        (Number_multiply aCount (Number_pow (Number_subtract aMean mean) 2))
        (Number_multiply bCount (Number_pow (Number_subtract bMean mean) 2))).

(** [otsu(histDict)].  The same text is repeated in every classifier of every
    version of the script.  [None] is the null that [reduceRegion] yields for
    a band without valid pixels in the region. *)
Definition otsu (histDict : option Histogram) : outcome Q :=
  match histDict with
  | None => Throw (EEException "Dictionary.get: the dictionary is null")
  | Some d =>
      let counts := histogram d in
      let means := bucketMeans d in
      let size := EE.Array_length means in
      let total := Reducer_sum counts in
      prod <- EE.Array_multiply means counts ;;
      let sum := Reducer_sum prod in
      let mean := Number_divide sum total in
      let indices := EE.List_sequence 1 (size - 1) in
      bss <- mapM (bssAt counts means total sum mean) indices ;;
      let maxIndex := EE.List_indexOf bss (EE.List_reduce_max bss) in
      EE.Array_get means maxIndex
  end.

(** The value [bssAt] yields when the two arrays have one shape. *)
Definition bssValue (counts means : list Q) (total sum mean : Q) (i : Z) : Q :=
  let aCounts := EE.Array_slice0 counts i in
  let aCount := Reducer_sum aCounts in
  let aMeans := EE.Array_slice0 means i in
  let aMean :=
    Number_divide (Reducer_sum (EE.zipWith Number_multiply aMeans aCounts)) aCount in
  let bCount := Number_subtract total aCount in
  let bMean := Number_divide (Number_subtract sum (Number_multiply aCount aMean)) bCount in
  Number_add
    (Number_multiply aCount (Number_pow (Number_subtract aMean mean) 2))
    (Number_multiply bCount (Number_pow (Number_subtract bMean mean) 2)).

(** The sum of squares the code computes for split index [i], in the
    arithmetic of the platform. *)
Definition codeVariance (d : Histogram) (i : nat) : Q :=
  let counts := histogram d in
  let means := bucketMeans d in
  let total := Reducer_sum counts in
  let sum := Reducer_sum (EE.zipWith Number_multiply means counts) in
  bssValue counts means total sum (Number_divide sum total) (Z.of_nat i).

(** [i] is the first interior split index at which the sum of squares the
    code computes is maximal. *)
Definition firstBestComputedSplit (d : Histogram) (i : nat) : Prop :=
  (1 <= i <= List.length (bucketMeans d) - 1)%nat /\
  (forall j, (1 <= j <= List.length (bucketMeans d) - 1)%nat ->
             codeVariance d j <= codeVariance d i) /\
  (forall j, (1 <= j < i)%nat -> codeVariance d j < codeVariance d i).

End Otsu.

(** *** Section 4.1 of the specification, in its own words

    For a split index [i] the buckets [0 .. i-1] form the below-group and the
    buckets [i ..] the above-group; each group has a count and a weighted
    mean, and the between-class variance is
    [count_below * (mean_below - global_mean)^2
     + count_above * (mean_above - global_mean)^2]. *)

Definition groupCount (counts : list Q) : Q := EE.Array_sum counts.

Definition groupMean (counts means : list Q) : Q :=
  EE.Array_sum (EE.zipWith Qmult means counts) / groupCount counts.

Definition betweenClassVariance (d : Histogram) (i : nat) : Q :=
  let counts := histogram d in
  let means := bucketMeans d in
  let global_mean := groupMean counts means in
  let count_below := groupCount (firstn i counts) in
  let mean_below := groupMean (firstn i counts) (firstn i means) in
  let count_above := groupCount (skipn i counts) in
  let mean_above := groupMean (skipn i counts) (skipn i means) in
  count_below * (mean_below - global_mean) ^ 2
  + count_above * (mean_above - global_mean) ^ 2.

(** [i] is the first interior split index of maximal between-class variance. *)
Definition firstBestSplit (d : Histogram) (i : nat) : Prop :=
  (1 <= i <= List.length (bucketMeans d) - 1)%nat /\
  (forall j, (1 <= j <= List.length (bucketMeans d) - 1)%nat ->
             betweenClassVariance d j <= betweenClassVariance d i) /\
  (forall j, (1 <= j < i)%nat ->
             betweenClassVariance d j < betweenClassVariance d i).

(** ** Rasters

    A band gives every pixel a value or nothing (a masked pixel); an image is
    a family of named bands.  Selecting a band that an image lacks is an
    evaluation error in Earth Engine and is not modelled: the rasters carry
    every band the scripts select. *)

Definition Band (pixel : Type) : Type := pixel -> option Q.

Definition Image (pixel : Type) : Type := string -> Band pixel.

Definition Qlt_bool (a b : Q) : bool := negb (Qle_bool b a).

(** Comparisons yield the pixel value 1 or 0. *)
Definition truth (b : bool) : Q := if b then 1 else 0.

Module Img.

Section PerPixel.

Context {pixel : Type}.

Definition map1 (f : Q -> Q) (a : Band pixel) : Band pixel :=
  fun p => option_map f (a p).

(** A binary operation is masked wherever one of its inputs is. *)
Definition map2 (f : Q -> Q -> Q) (a b : Band pixel) : Band pixel :=
  fun p =>
    match a p, b p with
    | Some x, Some y => Some (f x y)
    | _, _ => None
    end.

Definition constant (c : Q) : Band pixel := fun _ => Some c.

Definition select (image : Image pixel) (bandName : string) : Band pixel :=
  image bandName.

(** [band.rename(name)]: a single-band image. *)
Definition rename (band : Band pixel) (name : string) : Image pixel :=
  fun n => if String.eqb n name then band else fun _ => None.

(** [a.lt(t)], [a.gt(t)], [a.gte(t)] with a number [t]. *)
Definition lt (a : Band pixel) (t : Q) : Band pixel :=
  map1 (fun v => truth (Qlt_bool v t)) a.

Definition gt (a : Band pixel) (t : Q) : Band pixel :=
  map1 (fun v => truth (Qlt_bool t v)) a.

Definition gte (a : Band pixel) (t : Q) : Band pixel :=
  map1 (fun v => truth (Qle_bool t v)) a.

Definition add (a b : Band pixel) : Band pixel := map2 Qplus a b.

Definition divide (a b : Band pixel) : Band pixel := map2 EE.divide a b.

Definition divideBy (a : Band pixel) (c : Q) : Band pixel :=
  map1 (fun v => EE.divide v c) a.

(** [a.updateMask(mask)]: a pixel stays valid where it was valid and the mask
    is valid and not zero. *)
Definition updateMask (a mask : Band pixel) : Band pixel :=
  fun p =>
    match a p, mask p with
    | Some v, Some m => if Qeq_bool m 0 then None else Some v
    | _, _ => None
    end.

(** [image.normalizedDifference([b1, b2])]: a negative value in either band
    masks the output pixel. *)
Definition normalizedDifference (image : Image pixel) (b1 b2 : string) : Band pixel :=
  fun p =>
    match image b1 p, image b2 p with
    | Some x, Some y =>
        if Qlt_bool x 0 || Qlt_bool y 0 then None
        else Some (EE.divide (x - y) (x + y))
    | _, _ => None
    end.

(** [image.expression(...)] over four and over five or six named bands. *)
Definition map4 (f : Q -> Q -> Q -> Q -> Q) (a b c d : Band pixel) : Band pixel :=
  fun p =>
    match a p, b p, c p, d p with
    | Some x, Some y, Some z, Some w => Some (f x y z w)
    | _, _, _, _ => None
    end.

Definition map5 (f : Q -> Q -> Q -> Q -> Q -> Q) (a b c d e : Band pixel) : Band pixel :=
  fun p =>
    match a p, b p, c p, d p, e p with
    | Some x, Some y, Some z, Some w, Some v => Some (f x y z w v)
    | _, _, _, _, _ => None
    end.

Definition map6 (f : Q -> Q -> Q -> Q -> Q -> Q -> Q) (a b c d e g : Band pixel)
  : Band pixel :=
  fun p =>
    match a p, b p, c p, d p, e p, g p with
    | Some x, Some y, Some z, Some w, Some v, Some u => Some (f x y z w v u)
    | _, _, _, _, _, _ => None
    end.

End PerPixel.

End Img.

(** A pixel of a mask is water when it is valid and holds 1. *)
Definition isWater {pixel : Type} (mask : outcome (Band pixel)) (p : pixel) : Prop :=
  exists m, mask = Ok m /\ exists v, m p = Some v /\ v == 1.

(** ** Vectors *)

Definition coord : Type := (Q * Q)%type.

Inductive PropVal : Type :=
| PNum (x : Q)
| PBool (b : bool).

(** A polygon feature as [reduceToVectors] yields it with
    [geometryType: 'polygon']: [coordinates()] lists the outer ring first. *)
Record PolygonFeature : Type := mkPolygonFeature {
  outerRing : list coord;
  holeRings : list (list coord);
  polygonProps : list (string * PropVal)
}.

(** A line feature: [ee.Feature(ee.Geometry.LineString(coords))] and the
    properties set on it. *)
Record LineFeature : Type := mkLineFeature {
  lineCoords : list coord;
  lineProps : list (string * PropVal)
}.

Fixpoint getProp (props : list (string * PropVal)) (name : string) : option PropVal :=
  match props with
  | [] => None
  | (n, v) :: t => if String.eqb n name then Some v else getProp t name
  end.

(** [feature.set(name, value)]. *)
Definition setProp (f : LineFeature) (name : string) (v : PropVal) : LineFeature :=
  mkLineFeature (lineCoords f) ((name, v) :: lineProps f).

(** [ee.Filter.eq(name, true)] on one feature. *)
Definition propIsTrue (props : list (string * PropVal)) (name : string) : bool :=
  match getProp props name with
  | Some (PBool true) => true
  | _ => false
  end.

(** [ee.Filter.gt(name, bound)] on one feature: false without the property. *)
Definition propGt (props : list (string * PropVal)) (name : string) (bound : Q) : bool :=
  match getProp props name with
  | Some (PNum x) => Qlt_bool bound x
  | _ => false
  end.

Inductive Kernel : Type :=
| circle (radius : Q).

(** ** The compute backend and the imagery catalog

    The region, neighbourhood, vector and catalog operations of Earth Engine
    are taken as an interface (Section 6 of the specification); per-pixel
    arithmetic is defined above.  The options [maxPixels] and [tileScale]
    of [reduceToVectors] are left out. *)

Inductive CollectionFilter : Type :=
| listContains (property value : string)
| propertyEq (property value : string)
| propertyLt (property : string) (bound : Q).

Class Backend : Type := {
  (** The arithmetic of [ee.Number] and [ee.Array]. *)
  numbers :: Arithmetic;
  pixel : Type;
  geometry : Type;
  date : Type;
  (** [a.pow(b)] on two pixel values. *)
  pow : Q -> Q -> Q;
  (** [band.reduceRegion({reducer: ee.Reducer.histogram({maxBuckets: 256,
      minBucketWidth: 0.001}), geometry, scale, maxPixels,
      bestEffort: true}).get(bandName)]. *)
  reduceRegion_histogram : Band pixel -> geometry -> Q -> Q -> option Histogram;
  (** [image.geometry()]. *)
  imageGeometry : Image pixel -> geometry;
  (** [band.clip(geometry)]. *)
  clip : Band pixel -> geometry -> Band pixel;
  (** [band.connectedPixelCount(maxSize, eightConnected)]. *)
  connectedPixelCount : Band pixel -> Q -> bool -> Band pixel;
  (** [band.focal_max({kernel, iterations})], [band.focal_min(...)]. *)
  focal_max : Band pixel -> Kernel -> Q -> Band pixel;
  focal_min : Band pixel -> Kernel -> Q -> Band pixel;
  (** [band.reduceToVectors({geometry, scale, geometryType: 'polygon',
      eightConnected, ...})]. *)
  reduceToVectors : Band pixel -> geometry -> Q -> bool -> list PolygonFeature;
  (** [g.buffer(distance)], [g.difference(h)], [g.area()], the outer ring of
      [g.bounds()], [ee.Geometry.Rectangle([x1, y1, x2, y2])]. *)
  buffer : geometry -> Q -> geometry;
  difference : geometry -> geometry -> geometry;
  area : geometry -> Q;
  bounds : geometry -> list coord;
  Rectangle : Q -> Q -> Q -> Q -> geometry;
  (** [ee.Geometry.LineString(coords).intersects(g, ee.ErrorMargin(m))]. *)
  intersects : list coord -> geometry -> Q -> bool;
  (** [feature.intersection(g)] and [collection.filterBounds(g)]. *)
  intersection : LineFeature -> geometry -> LineFeature;
  filterBounds : list LineFeature -> geometry -> list LineFeature;
  (** [ee.ImageCollection(id).filterBounds(g).filterDate(start, end)] with
      further [filter]s: the scenes left. *)
  imageCollection :
    string -> geometry -> date -> date -> list CollectionFilter -> list (Image pixel);
  (** [collection.mean()], [collection.median()]. *)
  collectionMean : list (Image pixel) -> Image pixel;
  collectionMedian : list (Image pixel) -> Image pixel
}.

(** [image.clip(geometry)] clips every band. *)
Definition clipImage {B : Backend} (image : Image pixel) (g : geometry) : Image pixel :=
  fun name => clip (image name) g.

(** [ee.Image.constant(c).pow(band)]. *)
Definition constantPow {B : Backend} (c : Q) (band : Band pixel) : Band pixel :=
  Img.map2 pow (Img.constant c) band.

(** ** The global [state] object and the user interface *)

(** What [displayResults] stores under [state.results[method]]: two deferred
    Earth Engine values. *)
Record Result {B : Backend} : Type := mkResult {
  water : outcome (Band pixel);
  shoreline : outcome (list LineFeature)
}.

Arguments mkResult {B} water shoreline.

Record State {B : Backend} : Type := mkState {
  aoi : geometry;
  results : string -> option Result;
  rawImage : option (Image pixel);
  dateRange : option date * option date;
  cloudCover : Q;
  compositeMethod : string;
  waterIndex : string;
  waterBodySizeThreshold : Q;
  smoothingKernelSize : Q;
  smoothingIterations : Q;
  coastalBuffer : Q;
  sarVotesRequired : Q;
  useCustomThreshold : bool;
  waterThreshold : Q;
  (** [undefined] until a method is selected. *)
  shorelineMethod : option string
}.

Arguments mkState {B}.

(** A label with its text and colour; a button with its text and the screen
    its handler opens. *)
Inductive Widget : Type :=
| Label (value : string) (color : string)
| Button (label : string) (opens : string).

(** The panels and the map the processing functions write to. *)
Record Console : Type := mkConsole {
  progressPanel : list Widget;
  statusPanel : list Widget;
  mapLayers : list string;
  resultsPanelShown : bool
}.

Definition ICONS_warning : string := "⚠️".

Definition ICONS_results : string := "📊".

(** [updateStatus(message, isError)]. *)
Definition updateStatus (message : string) (isError : bool) (ui : Console) : Console :=
  mkConsole (progressPanel ui)
            [Label message (if isError then "red" else "black")]
            (mapLayers ui) (resultsPanelShown ui).

Definition setProgress (widgets : list Widget) (ui : Console) : Console :=
  mkConsole widgets (statusPanel ui) (mapLayers ui) (resultsPanelShown ui).

Definition addProgress (w : Widget) (ui : Console) : Console :=
  setProgress (progressPanel ui ++ [w]) ui.

Definition setRawImage {B : Backend} (st : State) (image : Image pixel) : State :=
  mkState (aoi st) (results st) (Some image) (dateRange st) (cloudCover st)
          (compositeMethod st) (waterIndex st) (waterBodySizeThreshold st)
          (smoothingKernelSize st) (smoothingIterations st) (coastalBuffer st)
          (sarVotesRequired st) (useCustomThreshold st) (waterThreshold st)
          (shorelineMethod st).

Definition setResult {B : Backend} (st : State) (method : string) (r : Result) : State :=
  mkState (aoi st)
          (fun m => if String.eqb m method then Some r else results st m)
          (rawImage st) (dateRange st) (cloudCover st)
          (compositeMethod st) (waterIndex st) (waterBodySizeThreshold st)
          (smoothingKernelSize st) (smoothingIterations st) (coastalBuffer st)
          (sarVotesRequired st) (useCustomThreshold st) (waterThreshold st)
          (shorelineMethod st).

(** [displayResults(method, water, shoreline, progressPanel)]: the result is
    stored and published on the map; the widgets of the results panel are
    left out. *)
Definition displayResults {B : Backend} (method : string)
    (water : outcome (Band pixel)) (shoreline : outcome (list LineFeature))
    (st : State) (ui : Console) : State * Console :=
  let st' := setResult st method (mkResult water shoreline) in
  let rawLayer :=
    match rawImage st with
    | Some _ =>
        if String.eqb method "sentinel1" then [(method ++ " Raw SAR (VV)")%string]
        else if String.eqb method "sentinel2" then [(method ++ " True Color")%string]
        else if String.eqb method "landsat" then [(method ++ " True Color")%string]
        else []
    | None => []
    end in
  let layers :=
    rawLayer ++ [(method ++ " Water")%string] ++ [(method ++ " Shoreline")%string] in
  let ui' :=
    mkConsole [Label (ICONS_results ++ " Processing complete!")%string "#2E7D32"]
              (statusPanel ui) layers true in
  (st', updateStatus ("Completed processing " ++ method ++ " imagery")%string false ui').

(** The handlers of the three check boxes of the results panel: each sets
    the visibility of the layer at a fixed position of [map.layers()], when
    the map has that many layers.  The value is the layer addressed. *)
Definition checkedLayer (position : nat) (layers : list string) : option string :=
  if (position <? List.length layers)%nat then nth_error layers position else None.

Definition imageryCheck (layers : list string) : option string := checkedLayer 0 layers.

Definition waterCheck (layers : list string) : option string := checkedLayer 1 layers.

Definition shorelineCheck (layers : list string) : option string := checkedLayer 2 layers.

(** [e.message]. *)
Definition message (e : error) : string :=
  match e with
  | ReferenceError name => (name ++ " is not defined")%string
  | TypeError msg => msg
  | EEException msg => msg
  end.

(** ** Water indices ([calculateWaterIndex], the same text in every version) *)

Section WaterIndex.

Context {pixel : Type}.

Definition AWEInsh_expr (GREEN SWIR1 NIR SWIR2 : Q) : Q :=
  4 * (GREEN - SWIR1) - ((1 # 4) * NIR + (11 # 4) * SWIR2).

Definition AWEIsh_expr (BLUE GREEN NIR SWIR1 SWIR2 : Q) : Q :=
  BLUE + (5 # 2) * GREEN - (3 # 2) * (NIR + SWIR1) - (1 # 4) * SWIR2.

Definition SMBWI_expr (B2 B3 B4 B8 B11 B12 : Q) : Q :=
  EE.divide (B2 + B3 + B4) (B8 + B11 + B12).

Definition WRI_expr (GREEN RED NIR SWIR1 : Q) : Q :=
  EE.divide (GREEN + RED) (NIR + SWIR1).

Definition calculateWaterIndex (image : Image pixel) (indexName : string) : Band pixel :=
  if String.eqb indexName "Band8" then Img.select image "B8"
  else if String.eqb indexName "NDWI" then Img.normalizedDifference image "B3" "B8"
  else if String.eqb indexName "MNDWI" then Img.normalizedDifference image "B3" "B11"
  else if String.eqb indexName "AWEInsh" then
    Img.map4 AWEInsh_expr (Img.select image "B3") (Img.select image "B11")
             (Img.select image "B8") (Img.select image "B12")
  else if String.eqb indexName "AWEIsh" then
    Img.map5 AWEIsh_expr (Img.select image "B2") (Img.select image "B3")
             (Img.select image "B8") (Img.select image "B11") (Img.select image "B12")
  else if String.eqb indexName "SMBWI" then
    Img.map6 SMBWI_expr (Img.select image "B2") (Img.select image "B3")
             (Img.select image "B4") (Img.select image "B8")
             (Img.select image "B11") (Img.select image "B12")
  else if String.eqb indexName "WRI" then
    Img.map4 WRI_expr (Img.select image "B3") (Img.select image "B4")
             (Img.select image "B8") (Img.select image "B11")
  else if String.eqb indexName "NDWI2" then Img.normalizedDifference image "B8" "B11"
  else Img.normalizedDifference image "B3" "B11".

End WaterIndex.

(** The value of [var collection] in [processSentinel1], the same text in
    every version: the Sentinel-1 scenes over the expanded area of interest
    in the date range, with both polarisations, in mode IW. *)
Definition sentinel1Scenes {B : Backend} (st : State) (startDate endDate : date)
  : list (Image pixel) :=
  let expandedAOI := buffer (aoi st) 500 in
  imageCollection "COPERNICUS/S1_GRD" expandedAOI startDate endDate
    [listContains "transmitterReceiverPolarisation" "VV";
     listContains "transmitterReceiverPolarisation" "VH";
     propertyEq "instrumentMode" "IW"].

(** The values of [var collection] in [processSentinel2] and in
    [processLandsat]. *)
Definition sentinel2Scenes {B : Backend} (st : State) (startDate endDate : date)
  : list (Image pixel) :=
  let expandedAOI := buffer (aoi st) 500 in
  imageCollection "COPERNICUS/S2" expandedAOI startDate endDate
    [propertyLt "CLOUDY_PIXEL_PERCENTAGE" (cloudCover st)].

Definition landsatScenes {B : Backend} (st : State) (startDate endDate : date)
  : list (Image pixel) :=
  let expandedAOI := buffer (aoi st) 500 in
  imageCollection "LANDSAT/LC08/C02/T1_L2" expandedAOI startDate endDate
    [propertyLt "CLOUD_COVER" (cloudCover st)].

(** The function every version maps over the polygons: the outer ring
    becomes a line, tagged with the outcome of the intersection test (the
    versions differ in the boundary and in the error margin). *)
Definition toShoreline {B : Backend} (margin : Q) (boundary : geometry)
    (feat : PolygonFeature) : LineFeature :=
  let coords := outerRing feat in
  let coastal := intersects coords boundary margin in
  setProp (mkLineFeature coords []) "isCoastal" (PBool coastal).

(** ** JavaScript [switch]

    A [switch] over string labels whose arms assign to one variable (or
    return a value, which is an assignment followed by a [break]).  Control
    enters at the first [case] whose label equals the scrutinee, or at
    [default] when there is none, and runs arm after arm until a [break] or
    the end of the statement. *)

Inductive SwitchArm (A : Type) : Type :=
| Case (label : string) (assign : A) (breaks : bool)
| Default (assign : A) (breaks : bool).

Arguments Case {A} label assign breaks.
Arguments Default {A} assign breaks.

(** The arms run in sequence; [current] is the value of the variable. *)
Fixpoint runArms {A : Type} (arms : list (SwitchArm A)) (current : option A)
  : option A :=
  match arms with
  | [] => current
  | Case _ v b :: t => if b then Some v else runArms t (Some v)
  | Default v b :: t => if b then Some v else runArms t (Some v)
  end.

(** The arms from the first matching [case] on. *)
Fixpoint fromCase {A : Type} (x : string) (arms : list (SwitchArm A))
  : option (list (SwitchArm A)) :=
  match arms with
  | [] => None
  | Case l v b :: t => if String.eqb l x then Some arms else fromCase x t
  | Default _ _ :: t => fromCase x t
  end.

(** The arms from [default] on. *)
Fixpoint fromDefault {A : Type} (arms : list (SwitchArm A)) : list (SwitchArm A) :=
  match arms with
  | [] => []
  | Case _ _ _ :: t => fromDefault t
  | Default _ _ :: _ => arms
  end.

(** The value of the variable after the statement; [None] is [undefined]. *)
Definition switch {A : Type} (x : string) (arms : list (SwitchArm A)) : option A :=
  match fromCase x arms with
  | Some entered => runArms entered None
  | None => runArms (fromDefault arms) None
  end.

(** [Math.min(100, state.cloudCover + 10)], the handler of the button
    'Increase Cloud Cover Limit' (the same text in versions 1.1.0 and
    2.0.0). *)
Definition increaseCloudCoverLimit {B : Backend} (st : State) : State :=
  mkState (aoi st) (results st) (rawImage st) (dateRange st)
          (Qmin 100 (cloudCover st + 10))
          (compositeMethod st) (waterIndex st) (waterBodySizeThreshold st)
          (smoothingKernelSize st) (smoothingIterations st) (coastalBuffer st)
          (sarVotesRequired st) (useCustomThreshold st) (waterThreshold st)
          (shorelineMethod st).

(** ** Version 1.1.0 ([shoreline.js]) *)

Module V110.

Section Pipeline.

Context {B : Backend}.

(** Every [case] of the [switch] lacks a [break], so control falls through to
    the [default] assignment and [baseScale] is 10 for every method. *)
Definition getAdaptiveScale (g : geometry) (method : string) : Q :=
  let area_km2 := EE.divide (area g) (1000 * 1000) in
  let baseScale := 10 in
  truth (Qlt_bool 1000 area_km2) * 30
  + (truth (Qlt_bool 100 area_km2) * 20 + baseScale).

Definition getOtsuThreshold (st : State) (img : Image pixel) (bandName : string)
  : outcome Q :=
  let hist := reduceRegion_histogram (Img.select img bandName) (aoi st) 10 (10 ^ 13) in
  otsu hist.

(** The value of [var ratio] in [detectWaterFromSAR]. *)
Definition ratio (image : Image pixel) : Image pixel :=
  let vvDb := Img.select image "VV" in
  let vhDb := Img.select image "VH" in
  let vvLinear := constantPow 10 (Img.divideBy vvDb 10) in
  let vhLinear := constantPow 10 (Img.divideBy vhDb 10) in
  Img.rename (Img.divide vvLinear vhLinear) "ratio".

Definition detectWaterFromSAR (st : State) (image : Image pixel)
  : outcome (Band pixel) :=
  let vvDb := Img.select image "VV" in
  vvThreshold <- getOtsuThreshold st image "VV" ;;
  let vvWater := Img.lt vvDb vvThreshold in
  let vhDb := Img.select image "VH" in
  vhThreshold <- getOtsuThreshold st image "VH" ;;
  let vhWater := Img.lt vhDb vhThreshold in
  ratioThreshold <- getOtsuThreshold st (ratio image) "ratio" ;;
  let ratioWater := Img.gt (Img.select (ratio image) "ratio") ratioThreshold in
  let waterMask :=
    Img.gte (Img.add (Img.add vvWater vhWater) ratioWater) (sarVotesRequired st) in
  Ok (Img.updateMask waterMask waterMask).

Definition detectWaterFromOptical (st : State) (image : Image pixel)
    (indexName : string) : outcome (Band pixel) :=
  let waterIndex := calculateWaterIndex image indexName in
  if useCustomThreshold st then
    Ok (Img.gt waterIndex (waterThreshold st))
  else
    let hist := reduceRegion_histogram waterIndex (aoi st) 10 (10 ^ 13) in
    threshold <- otsu hist ;;
    if String.eqb indexName "Band8" then Ok (Img.lt waterIndex threshold)
    else Ok (Img.gt waterIndex threshold).

Definition detectWaterFromLandsat (st : State) (image : Image pixel)
  : outcome (Band pixel) :=
  let awei :=
    Img.map4 AWEInsh_expr (Img.select image "SR_B3") (Img.select image "SR_B6")
             (Img.select image "SR_B5") (Img.select image "SR_B7") in
  let hist := reduceRegion_histogram awei (imageGeometry image) 15 (10 ^ 13) in
  threshold <- otsu hist ;;
  Ok (Img.gt awei threshold).

(** The value of [var cleaned] in [vectorizeWaterMask]: [focal_max(r)] and
    [focal_min(r)] take the default circular kernel and one iteration. *)
Definition cleaned (st : State) (waterMask : Band pixel) : Band pixel :=
  let kept :=
    Img.updateMask waterMask
      (Img.gte (connectedPixelCount waterMask (waterBodySizeThreshold st) true)
               (waterBodySizeThreshold st)) in
  focal_min (focal_max kept (circle (smoothingKernelSize st)) 1)
            (circle (smoothingKernelSize st)) 1.

(** The value of [var aoiBoundary]. *)
Definition aoiBoundary (st : State) (g : geometry) : geometry :=
  difference (buffer g (coastalBuffer st * 1000))
             (buffer g (- coastalBuffer st * 1000)).

(** The value of [var tiles]: rectangles of 0.2 degrees over the bounds.
    The literal [0.2] is the double next to it, and the corners are computed
    with [ee.Number] arithmetic. *)
Definition tiles (g : geometry) : list geometry :=
  let tileSize := double (2 # 10) in
  let coords := bounds g in
  let xmin := fst (nth 0 coords (0, 0)) in
  let ymin := snd (nth 0 coords (0, 0)) in
  let xmax := fst (nth 2 coords (0, 0)) in
  let ymax := snd (nth 2 coords (0, 0)) in
  let xTiles := Qceiling (Number_divide (Number_subtract xmax xmin) tileSize) in
  let yTiles := Qceiling (Number_divide (Number_subtract ymax ymin) tileSize) in
  flat_map
    (fun x =>
       map (fun y =>
              Rectangle
                (Number_add xmin (Number_multiply (inject_Z x) tileSize))
                (Number_add ymin (Number_multiply (inject_Z y) tileSize))
                (Number_add xmin (Number_multiply (Number_add (inject_Z x) 1) tileSize))
                (Number_add ymin (Number_multiply (Number_add (inject_Z y) 1) tileSize)))
           (EE.List_sequence 0 (yTiles - 1)))
    (EE.List_sequence 0 (xTiles - 1)).

(** [vectorizeWaterMask(waterMask, geometry)], from the value of
    [var vectors] on.  The body sits in a [try] block; the Earth Engine calls
    only build deferred values, so the [catch] branch is not modelled. *)
Definition vectors (st : State) (waterMask : Band pixel) (g : geometry)
  : list PolygonFeature :=
  let scale := getAdaptiveScale g "sentinel2" in
  flat_map (fun tile => reduceToVectors (cleaned st waterMask) tile scale false)
           (tiles g).

(** The collection [vectors.filter(ee.Filter.gt('area', 1e4)).map(...)], to
    which the last filter is applied. *)
Definition taggedLines (st : State) (waterMask : Band pixel) (g : geometry)
  : list LineFeature :=
  map (toShoreline 2 (aoiBoundary st g))
      (filter (fun feat => propGt (polygonProps feat) "area" 10000)
              (vectors st waterMask g)).

Definition vectorizeWaterMask (st : State) (waterMask : Band pixel) (g : geometry)
  : list LineFeature :=
  filter (fun f => propIsTrue (lineProps f) "isCoastal") (taggedLines st waterMask g).

Definition numberToString (n : nat) : string :=
  NilZero.string_of_uint (Nat.to_uint n).

(** [processSentinel1(startDate, endDate, progressPanel)]. *)
Definition processSentinel1 (startDate endDate : date) (st : State) (ui : Console)
  : State * Console :=
  let expandedAOI := buffer (aoi st) 500 in
  let collection := sentinel1Scenes st startDate endDate in
  let count := List.length collection in
  if Nat.eqb count 0 then
    let ui1 :=
      setProgress
        [Label (ICONS_warning ++ " No Sentinel-1 images found for the selected period.")%string
               "red";
         Button "Change Dates" "showDateCloudSettings('sentinel1')"] ui in
    (st, updateStatus "No images found for the selected period" true ui1)
  else
    let ui1 :=
      setProgress
        [Label ("Found " ++ numberToString count ++ " Sentinel-1 scenes")%string "";
         Label "Creating composite..." ""] ui in
    let ui2 :=
      updateStatus ("Processing " ++ numberToString count ++ " Sentinel-1 scenes")%string
                   false ui1 in
    let composite :=
      if String.eqb (compositeMethod st) "Mean" then collectionMean collection
      else collectionMedian collection in
    let image := clipImage composite expandedAOI in
    let st1 := setRawImage st image in
    let ui3 := addProgress (Label "Detecting water bodies..." "") ui2 in
    let waterMask := detectWaterFromSAR st1 image in
    let ui4 := addProgress (Label "Vectorizing shoreline..." "") ui3 in
    let shoreline := w <- waterMask ;; Ok (vectorizeWaterMask st1 w expandedAOI) in
    let clippedShoreline :=
      s <- shoreline ;;
      Ok (filterBounds (map (fun f => intersection f (aoi st1)) s) (aoi st1)) in
    displayResults "sentinel1" (w <- waterMask ;; Ok (clip w (aoi st1)))
                   clippedShoreline st1 ui4.

(** [processSentinel2(startDate, endDate, progressPanel)]. *)
Definition processSentinel2 (startDate endDate : date) (st : State) (ui : Console)
  : State * Console :=
  let expandedAOI := buffer (aoi st) 500 in
  let collection := sentinel2Scenes st startDate endDate in
  let count := List.length collection in
  if Nat.eqb count 0 then
    let ui1 :=
      setProgress
        [Label (ICONS_warning
                ++ " No Sentinel-2 images found within cloud cover limit.")%string "red";
         Button "Increase Cloud Cover Limit" "showDateCloudSettings('sentinel2')";
         Button "Change Dates" "showDateCloudSettings('sentinel2')"] ui in
    (st, updateStatus "No images found within cloud cover limit" true ui1)
  else
    let ui1 :=
      setProgress
        [Label ("Found " ++ numberToString count ++ " Sentinel-2 scenes")%string "";
         Label "Creating composite..." ""] ui in
    let ui2 :=
      updateStatus ("Processing " ++ numberToString count ++ " Sentinel-2 scenes")%string
                   false ui1 in
    let composite :=
      if String.eqb (compositeMethod st) "Mean" then collectionMean collection
      else collectionMedian collection in
    let image := clipImage composite expandedAOI in
    let st1 := setRawImage st image in
    let ui3 :=
      addProgress (Label ("Calculating " ++ waterIndex st1 ++ "...")%string "") ui2 in
    let waterMask := detectWaterFromOptical st1 image (waterIndex st1) in
    let ui4 := addProgress (Label "Vectorizing shoreline..." "") ui3 in
    let shoreline := w <- waterMask ;; Ok (vectorizeWaterMask st1 w expandedAOI) in
    let clippedShoreline :=
      s <- shoreline ;;
      Ok (filterBounds (map (fun f => intersection f (aoi st1)) s) (aoi st1)) in
    displayResults "sentinel2" (w <- waterMask ;; Ok (clip w (aoi st1)))
                   clippedShoreline st1 ui4.

(** [processLandsat(startDate, endDate, progressPanel)]. *)
Definition processLandsat (startDate endDate : date) (st : State) (ui : Console)
  : State * Console :=
  let expandedAOI := buffer (aoi st) 500 in
  let collection := landsatScenes st startDate endDate in
  let count := List.length collection in
  if Nat.eqb count 0 then
    let ui1 :=
      setProgress
        [Label (ICONS_warning
                ++ " No Landsat images found within cloud cover limit.")%string "red";
         Button "Increase Cloud Cover Limit" "showDateCloudSettings('landsat')";
         Button "Change Dates" "showDateCloudSettings('landsat')"] ui in
    (st, updateStatus "No images found within cloud cover limit" true ui1)
  else
    let ui1 :=
      setProgress
        [Label ("Found " ++ numberToString count ++ " Landsat scenes")%string "";
         Label "Creating composite..." ""] ui in
    let ui2 :=
      updateStatus ("Processing " ++ numberToString count ++ " Landsat scenes")%string
                   false ui1 in
    let image := clipImage (collectionMedian collection) expandedAOI in
    let st1 := setRawImage st image in
    let ui3 := addProgress (Label "Detecting water bodies..." "") ui2 in
    let waterMask := detectWaterFromLandsat st1 image in
    let ui4 := addProgress (Label "Vectorizing shoreline..." "") ui3 in
    let shoreline := w <- waterMask ;; Ok (vectorizeWaterMask st1 w expandedAOI) in
    let clippedShoreline :=
      s <- shoreline ;;
      Ok (filterBounds (map (fun f => intersection f (aoi st1)) s) (aoi st1)) in
    displayResults "landsat" (w <- waterMask ;; Ok (clip w (aoi st1)))
                   clippedShoreline st1 ui4.

(** A call [displayResults(method, water, shoreline)] that leaves out the
    fourth argument: [progressPanel] is [undefined], so the statement
    [progressPanel.clear()] raises a [TypeError], after the result has been
    stored and the layers of the map have been removed.  The value is the
    state and the console at the time of the exception. *)
Definition displayResultsWithoutPanel (method : string)
    (water : outcome (Band pixel)) (shoreline : outcome (list LineFeature))
    (st : State) (ui : Console) : State * Console * error :=
  let st' := setResult st method (mkResult water shoreline) in
  let ui' := mkConsole (progressPanel ui) (statusPanel ui) [] (resultsPanelShown ui) in
  (st', ui', TypeError "Cannot read properties of undefined (reading 'clear')").

(** [processLocalImage(imagePath)] around its call of [displayResults]; the
    deferred water mask and clipped shoreline are computed before the call.
    The value of the function is the last component. *)
Definition processLocalImage (imagePath : string)
    (waterMask : outcome (Band pixel)) (clippedShoreline : outcome (list LineFeature))
    (st : State) (ui : Console) : State * Console * bool :=
  let ui1 := updateStatus ("Processing local image: " ++ imagePath)%string false ui in
  let '(st', ui', e) :=
    displayResultsWithoutPanel "local" (w <- waterMask ;; Ok (clip w (aoi st)))
                               clippedShoreline st ui1 in
  (st', updateStatus ("Error processing local image: " ++ message e)%string true ui',
   false).

End Pipeline.

(** The [switch] of [getAdaptiveScale], which assigns [baseScale]: no arm
    ends in a [break]. *)
Definition baseScale (method : string) : option Q :=
  switch method
    [Case "sentinel2" 10 false; Case "sentinel1" 10 false;
     Case "landsat" 15 false; Default 10 false].

End V110.

(** ** Version 2.0.0 (the module that imports [slope.js]) *)

Module V200.

(** What an identifier of the module's top-level scope is bound to: a
    function from a histogram to a threshold, or anything else. *)
Inductive Binding : Type :=
| ThresholdFunction (f : option Histogram -> outcome Q)
| OtherBinding.

(** The top-level [var] and [function] declarations of the module, in source
    order.  The three [otsu] functions and [getOtsuThreshold] are declared
    inside [detectWaterFromSAR] and [detectWaterFromOptical] and are local to
    them; [slope.js] is reached through the object [slopeAnalysis] only. *)
Definition moduleScope : list (string * Binding) :=
  map (fun name => (name, OtherBinding))
    ["slopeAnalysis"; "STYLES"; "ICONS"; "state"; "resetState"; "mainPanel";
     "resultsPanel"; "map"; "sidebarPanel"; "helpPanel"; "statusPanel";
     "updateStatus"; "createInfoTooltip"; "createSectionHeader"; "validateDate";
     "getAdaptiveScale"; "detectWaterFromSAR"; "calculateWaterIndex";
     "detectWaterFromOptical"; "detectWaterFromLandsat"; "vectorizeDirectly";
     "vectorizeWaterMask"; "displayResults"; "progressiveShorelineVisualization";
     "processCoastalTile"; "processSentinel2WithProgress";
     "processSentinel1WithProgress"; "processLandsatWithProgress";
     "initializeDrawing"; "showWelcome"; "showDrawAOI"; "showMethodSelection";
     "showAdvancedSettings"; "showDateCloudSettings"; "showSentinel2Options";
     "processImagery"; "processSentinel1"; "processSentinel2"; "processLandsat"].

(** The globals of JavaScript and of the Code Editor that the module refers
    to; neither defines [otsuThreshold]. *)
Definition hostScope : list (string * Binding) :=
  map (fun name => (name, OtherBinding))
    ["ee"; "ui"; "Map"; "Export"; "Chart"; "print"; "require"; "exports";
     "console"; "Math"; "Date"; "isNaN"].

Fixpoint lookupBinding (scope : list (string * Binding)) (name : string)
  : option Binding :=
  match scope with
  | [] => None
  | (n, b) :: t => if String.eqb n name then Some b else lookupBinding t name
  end.

(** The call [name(hist)] from inside a top-level function whose own
    parameters and variables do not bind [name]. *)
Definition callGlobal (name : string) (hist : option Histogram) : outcome Q :=
  match lookupBinding (moduleScope ++ hostScope) name with
  | None => Throw (ReferenceError name)
  | Some (ThresholdFunction f) => f hist
  | Some OtherBinding => Throw (TypeError (name ++ " is not a threshold function")%string)
  end.

Section Pipeline.

Context {B : Backend}.

(** The same text as in version 1.1.0. *)
Definition detectWaterFromSAR (st : State) (image : Image pixel)
  : outcome (Band pixel) :=
  V110.detectWaterFromSAR st image.

Definition detectWaterFromOptical (st : State) (image : Image pixel)
    (indexName : string) : outcome (Band pixel) :=
  let waterIndex := calculateWaterIndex image indexName in
  if useCustomThreshold st then
    if String.eqb indexName "Band8" then Ok (Img.lt waterIndex (waterThreshold st))
    else Ok (Img.gt waterIndex (waterThreshold st))
  else
    let hist := reduceRegion_histogram waterIndex (aoi st) 10 (10 ^ 13) in
    threshold <- otsu hist ;;
    if String.eqb indexName "Band8" then Ok (Img.lt waterIndex threshold)
    else Ok (Img.gt waterIndex threshold).

(** The function's own names are [image], [awei], [hist] and [threshold]. *)
Definition detectWaterFromLandsat (st : State) (image : Image pixel)
  : outcome (Band pixel) :=
  let awei :=
    Img.map4 AWEInsh_expr (Img.select image "SR_B3") (Img.select image "SR_B6")
             (Img.select image "SR_B5") (Img.select image "SR_B7") in
  let hist := reduceRegion_histogram awei (imageGeometry image) 15 (10 ^ 13) in
  threshold <- callGlobal "otsuThreshold" hist ;;
  Ok (Img.gt awei threshold).

(** The value of [var cleaned] in [vectorizeWaterMask]. *)
Definition cleaned (st : State) (waterMask : Band pixel) : Band pixel :=
  let counted := connectedPixelCount waterMask (waterBodySizeThreshold st) true in
  let kept := Img.updateMask waterMask (Img.gte counted (waterBodySizeThreshold st)) in
  let kernel := circle (smoothingKernelSize st) in
  focal_min (focal_max kept kernel (smoothingIterations st))
            kernel (smoothingIterations st).

(** The value of [var aoiBoundary]. *)
Definition aoiBoundary (st : State) (g : geometry) : geometry :=
  difference (buffer g (coastalBuffer st)) (buffer g (- coastalBuffer st)).

(** The value of [var polygons]. *)
Definition polygons (st : State) (waterMask : Band pixel) (g : geometry)
  : list PolygonFeature :=
  reduceToVectors (cleaned st waterMask) g 5 true.

(** The collection [polygons.map(...)], to which the filter is applied. *)
Definition taggedLines (st : State) (waterMask : Band pixel) (g : geometry)
  : list LineFeature :=
  map (toShoreline (1 # 2) (aoiBoundary st g)) (polygons st waterMask g).

(** [vectorizeWaterMask(waterMask, geometry)] for a mask that is not null. *)
Definition vectorizeWaterMask (st : State) (waterMask : Band pixel) (g : geometry)
  : list LineFeature :=
  filter (fun f => propIsTrue (lineProps f) "isCoastal") (taggedLines st waterMask g).

(** The function mapped in [processCoastalTile]: [ee.Algorithms.If] yields
    the line feature for more than 2 coordinates and null otherwise. *)
Definition coastalTileFeature (boundary : geometry) (feat : PolygonFeature)
  : option LineFeature :=
  let coords := outerRing feat in
  let coordsSize := Z.of_nat (List.length coords) in
  if (2 <? coordsSize)%Z then Some (toShoreline 1 boundary feat)
  else None.

(** [collection.map(f)] with the default [dropNulls]: a null result is
    refused. *)
Fixpoint mapNoNulls {A C : Type} (f : A -> option C) (l : list A) : outcome (list C) :=
  match l with
  | [] => Ok []
  | a :: t =>
      match f a with
      | None => Throw (EEException "Collection.map: the mapped function returned null")
      | Some c => cs <- mapNoNulls f t ;; Ok (c :: cs)
      end
  end.

(** [processCoastalTile(polygons, aoiBoundary)]; no function of the module
    calls it.  A line feature always has a geometry, so of the two filters
    only the one on [isCoastal] removes features. *)
Definition processCoastalTile (polys : list PolygonFeature) (boundary : geometry)
  : outcome (list LineFeature) :=
  mapped <- mapNoNulls (coastalTileFeature boundary) polys ;;
  Ok (filter (fun f => propIsTrue (lineProps f) "isCoastal") mapped).

(** [getAdaptiveScale(geometry, method)]: every arm of the [switch]
    returns. *)
Definition getAdaptiveScale (g : geometry) (method : string) : option Q :=
  switch method
    [Case "sentinel2" 10 true; Case "sentinel1" 10 true;
     Case "landsat" 15 true; Default 10 true].

End Pipeline.

(** *** [progressiveShorelineVisualization(shoreline, method)]

    No function of the module calls it.  The evaluations of the feature
    count and of the batches are taken to succeed: the [error] branches of
    the callbacks are not modelled.  [method] only names the layer. *)

(** The features of the shoreline layer ([None] before the layer is added to
    the map), the text of the loading label, and whether the last batch has
    been handled. *)
Record Visualization : Type := mkVisualization {
  shorelineLayer : option (list LineFeature);
  loadingLabel : string;
  complete : bool
}.

(** [var batchSize = 100; if (count > 1000) batchSize = 200;
    if (count > 5000) batchSize = 500;]. *)
Definition batchSizeFor (count : nat) : nat :=
  let batchSize := 100%nat in
  let batchSize := if (1000 <? count)%nat then 200%nat else batchSize in
  if (5000 <? count)%nat then 500%nat else batchSize.

(** [Math.ceil(count / batchSize)]. *)
Definition totalBatchesFor (count batchSize : nat) : nat :=
  Z.to_nat (Qceiling (inject_Z (Z.of_nat count) / inject_Z (Z.of_nat batchSize))).

(** [collection.toList(count, offset)]. *)
Definition toList (collection : list LineFeature) (count offset : nat)
  : list LineFeature :=
  firstn count (skipn offset collection).

Definition batchLabel (batchNumber totalBatches : nat) : string :=
  ("Loading shoreline features (" ++ V110.numberToString batchNumber ++ "/"
   ++ V110.numberToString totalBatches ++ ")")%string.

(** [loadBatch(startIndex, endIndex, batchNumber)] together with the calls it
    schedules through [ui.util.setTimeout], of which the first [timers]
    have fired.  At every call [startIndex <= endIndex], so the indices are
    natural numbers. *)
Fixpoint loadBatch (timers : nat) (shoreline : list LineFeature)
    (count batchSize totalBatches : nat) (startIndex endIndex batchNumber : nat)
    (view : Visualization) : Visualization :=
  let batchFeatures := toList shoreline (endIndex - startIndex) startIndex in
  let layer :=
    match batchFeatures with
    | [] => shorelineLayer view
    | _ =>
        if (batchNumber =? 1)%nat then Some batchFeatures
        else
          match shorelineLayer view with
          | Some currentFeatures => Some (currentFeatures ++ batchFeatures)
          | None => None
          end
    end in
  if (startIndex + batchSize <? count)%nat then
    let waiting := mkVisualization layer (batchLabel batchNumber totalBatches) false in
    match timers with
    | O => waiting
    | S timers' =>
        loadBatch timers' shoreline count batchSize totalBatches
                  (startIndex + batchSize)
                  (Nat.min (startIndex + 2 * batchSize) count)
                  (batchNumber + 1) waiting
    end
  else mkVisualization layer "Shoreline visualization complete" true.

Definition progressiveShorelineVisualization (timers : nat)
    (shoreline : list LineFeature) (method : string) : Visualization :=
  let count := List.length shoreline in
  if (count =? 0)%nat then mkVisualization None "No shoreline features detected" true
  else
    let batchSize := batchSizeFor count in
    let totalBatches := totalBatchesFor count batchSize in
    loadBatch timers shoreline count batchSize totalBatches
              0 (Nat.min batchSize count) 1
              (mkVisualization (Some []) (batchLabel 0 totalBatches) false).

End V200.

(** ** Version 1.0.0 ([shoreline_extraction_100.js]) *)

Module V100.

Section Pipeline.

Context {B : Backend}.

Definition getOtsuThreshold (st : State) (img : Image pixel) (bandName : string)
  : outcome Q :=
  let histogram := reduceRegion_histogram (Img.select img bandName) (aoi st) 30 (10 ^ 9) in
  otsu histogram.

Definition detectWaterFromSAR (st : State) (image : Image pixel)
  : outcome (Band pixel) :=
  let vvDb := Img.select image "VV" in
  vvThreshold <- getOtsuThreshold st image "VV" ;;
  let vvWater := Img.lt vvDb vvThreshold in
  let vhDb := Img.select image "VH" in
  vhThreshold <- getOtsuThreshold st image "VH" ;;
  let vhWater := Img.lt vhDb vhThreshold in
  let ratio := V110.ratio image in
  ratioThreshold <- getOtsuThreshold st ratio "ratio" ;;
  let ratioWater := Img.gt (Img.select ratio "ratio") ratioThreshold in
  let waterMask := Img.gt (Img.add (Img.add vvWater vhWater) ratioWater) 1 in
  Ok (Img.updateMask waterMask waterMask).

(** [vectorizeWaterMask(waterMask, geometry)]: the settings are literals,
    and a line is a feature without properties. *)
Definition vectorizeWaterMask (waterMask : Band pixel) (g : geometry)
  : list LineFeature :=
  let connected := connectedPixelCount waterMask 100 true in
  let cleaned := Img.updateMask waterMask (Img.gte connected 100) in
  let kernel := circle 1 in
  let cleaned := focal_min (focal_max cleaned kernel 1) kernel 1 in
  let polygons := reduceToVectors cleaned g 30 true in
  map (fun feature => mkLineFeature (outerRing feature) []) polygons.

End Pipeline.

End V100.

(** ** Version 1.0.1 ([Shoreline_Extraction_101.js]) *)

Module V101.

Section Pipeline.

Context {B : Backend}.

(** The same text as in version 1.1.0. *)
Definition detectWaterFromSAR (st : State) (image : Image pixel)
  : outcome (Band pixel) :=
  V110.detectWaterFromSAR st image.

(** The same text as in version 1.1.0. *)
Definition detectWaterFromOptical (st : State) (image : Image pixel)
    (indexName : string) : outcome (Band pixel) :=
  V110.detectWaterFromOptical st image indexName.

(** [getAdaptiveScale(geometry, method)]: every arm of the [switch] returns;
    a method that is [undefined] takes the [default] arm. *)
Definition getAdaptiveScale (g : geometry) (method : option string) : Q :=
  match method with
  | Some name =>
      if String.eqb name "sentinel2" then 10
      else if String.eqb name "sentinel1" then 10
      else if String.eqb name "landsat" then 15
      else 10
  | None => 10
  end.

Definition vectorizeWaterMask (st : State) (waterMask : Band pixel) (g : geometry)
  : list LineFeature :=
  let counted := connectedPixelCount waterMask (waterBodySizeThreshold st) true in
  let cleaned := Img.updateMask waterMask (Img.gte counted (waterBodySizeThreshold st)) in
  let methodScale := getAdaptiveScale g (shorelineMethod st) in
  let polygons := reduceToVectors cleaned g methodScale true in
  filter (fun f => propIsTrue (lineProps f) "isCoastal")
    (map (toShoreline (1 # 2) g) polygons).

(** [displayResults(method, water, shoreline, loadingLabel)]; the loading
    label is the one widget of the progress panel, the export widgets are
    left out. *)
Definition displayResults (method : string)
    (water : outcome (Band pixel)) (shoreline : outcome (list LineFeature))
    (st : State) (ui : Console) : State * Console :=
  let st' := setResult st method (mkResult water shoreline) in
  let rawLayer :=
    match rawImage st with
    | Some _ =>
        if String.eqb method "sentinel1" then [(method ++ " Raw SAR (VV)")%string]
        else if String.eqb method "sentinel2" then [(method ++ " True Color")%string]
        else if String.eqb method "landsat" then [(method ++ " True Color")%string]
        else []
    | None => []
    end in
  let layers :=
    rawLayer ++ [(method ++ " Water")%string] ++ [(method ++ " Shoreline")%string] in
  (st',
   mkConsole
     [Label ("Processing complete! Showing " ++ method ++ " results.")%string ""]
     (statusPanel ui) layers (resultsPanelShown ui)).

(** [processSentinel1(startDate, endDate, loadingLabel)]. *)
Definition processSentinel1 (startDate endDate : date) (st : State) (ui : Console)
  : State * Console :=
  let expandedAOI := buffer (aoi st) 500 in
  let collection := sentinel1Scenes st startDate endDate in
  let count := List.length collection in
  if Nat.eqb count 0 then
    (st, setProgress [Label "No Sentinel-1 images found." ""] ui)
  else
    let composite :=
      if String.eqb (compositeMethod st) "Mean" then collectionMean collection
      else collectionMedian collection in
    let image := clipImage composite expandedAOI in
    let st1 := setRawImage st image in
    let waterMask := detectWaterFromSAR st1 image in
    let shoreline := w <- waterMask ;; Ok (vectorizeWaterMask st1 w expandedAOI) in
    let clippedShoreline :=
      s <- shoreline ;;
      Ok (filterBounds (map (fun f => intersection f (aoi st1)) s) (aoi st1)) in
    displayResults "sentinel1" (w <- waterMask ;; Ok (clip w (aoi st1)))
                   clippedShoreline st1 ui.

End Pipeline.

End V101.

(** ** The slope module ([slope.js]) *)

Module Slope.

(** A JavaScript number is a rational or [NaN], which is what arithmetic on
    [undefined] yields; [None] stands for [NaN]. *)
Definition JsNumber : Type := option Q.

(** [a < b] with a literal [b]: false for [NaN]. *)
Definition lessThan (a : JsNumber) (b : Q) : bool :=
  match a with
  | Some x => Qlt_bool x b
  | None => false
  end.

Record Vulnerability : Type := mkVulnerability {
  rating : string;
  color : string;
  description : string
}.

Definition getSlopeVulnerabilityCategory (slopeDegrees : JsNumber) : Vulnerability :=
  if lessThan slopeDegrees (1 # 2) then
    mkVulnerability "Very High" "#d32f2f"
      "Very low slope areas (<0.5°) are highly vulnerable to flooding and erosion."
  else if lessThan slopeDegrees 1 then
    mkVulnerability "High" "#f57c00"
      "Low slope (0.5-1°) - high vulnerability to sea level rise impacts."
  else if lessThan slopeDegrees 2 then
    mkVulnerability "Moderate" "#fbc02d"
      "Moderate slope (1-2°) - medium vulnerability to coastal hazards."
  else if lessThan slopeDegrees 5 then
    mkVulnerability "Low" "#689f38"
      "Steep slope (2-5°) provides natural protection from flooding."
  else
    mkVulnerability "Very Low" "#2e7d32"
      "Very steep slope (>5°) offers excellent protection from coastal hazards.".

(** An entry of [demSources]; the descriptions are left out. *)
Record DEM : Type := mkDEM {
  label : string;
  value : string;
  collection : string;
  band : string;
  resolution : Q
}.

Definition demSources : list DEM :=
  [mkDEM "SRTM (Shuttle Radar Topography Mission)" "SRTM" "USGS/SRTMGL1_003"
         "elevation" 30;
   mkDEM "ALOS World 3D (AW3D30)" "ALOS" "JAXA/ALOS/AW3D30/V2_2" "DSM" 30;
   mkDEM "NASADEM" "NASADEM" "NASA/NASADEM_HGT/001" "elevation" 30;
   mkDEM "Copernicus GLO-30" "COPERNICUS" "COPERNICUS/DEM/GLO30" "elevation" 30;
   mkDEM "MERIT DEM" "MERIT" "MERIT/Hydro/v1_0_1" "dem" 90].

(** The deferred image
    [ee.Terrain.slope(ee.Image(collection).select(band).clip(coastalZone))],
    named by what it is computed from; a coastal zone is the shoreline
    buffered by a distance. *)
Record SlopeImage : Type := mkSlopeImage {
  source : DEM;
  zone : Q
}.

(** The object [state] of [createSlopeAnalysisUI]. *)
Record State : Type := mkState {
  selectedDEM : option DEM;
  bufferDistance : Q;
  slopeCalculated : bool;
  slopeImage : option SlopeImage;
  coastalZone : option Q;
  currentStep : nat
}.

Definition initialState : State := mkState None 1000 false None None 1.

(** What the functions write to: the content panel, the messages passed to
    the [updateStatus] of the caller, and the layers added to the map. *)
Record Screen : Type := mkScreen {
  contentPanel : list Widget;
  statusLog : list (string * bool);
  layers : list string
}.

Definition ICONS_back : string := "⬅️".

(** [showResultsPage()] up to the call of [stats.evaluate], whose callback
    runs later.  The third component is the exception raised, if any; the
    state and the screen are those at that time. *)
Definition showResultsPage (st : State) (ui : Screen)
  : State * Screen * option error :=
  let st1 :=
    mkState (selectedDEM st) (bufferDistance st) (slopeCalculated st)
            (slopeImage st) (coastalZone st) 3 in
  let ui1 :=
    mkScreen [Label (ICONS_results ++ " Slope Analysis Results")%string "";
              Label "Calculating statistics..." "#2196F3"]
             (statusLog ui) (layers ui) in
  match slopeImage st1 with
  | None =>
      (st1, ui1,
       Some (TypeError "Cannot read properties of null (reading 'reduceRegion')"))
  | Some _ => (st1, ui1, None)
  end.

(** The function that the handler of 'Calculate Slope' passes to
    [calculateCoastalSlope] as [updateStatus]. *)
Definition statusCallback (message : string) (isError : bool)
    (st : State) (ui : Screen) : State * Screen * option error :=
  let ui1 :=
    mkScreen (contentPanel ui) (statusLog ui ++ [(message, isError)]) (layers ui) in
  if negb isError then showResultsPage st ui1
  else
    (st,
     mkScreen (contentPanel ui1
               ++ [Button (ICONS_back ++ " Back to Settings")%string
                          "showAnalysisSettingsPage"])
              (statusLog ui1) (layers ui1),
     None).

(** [calculateCoastalSlope(shoreline, state, map, panel, updateStatus, STYLES,
    ICONS)] with that function for [updateStatus].  The first call of
    [updateStatus] stands before the [try]; the statements inside the [try]
    build deferred values. *)
Definition calculateCoastalSlope (st : State) (ui : Screen)
  : State * Screen * option error :=
  match selectedDEM st with
  | None =>
      (st, ui, Some (TypeError "Cannot read properties of null (reading 'label')"))
  | Some demSource =>
      let '(st1, ui1, raised) :=
        statusCallback
          ("Calculating coastal slope using " ++ label demSource ++ "...")%string
          false st ui in
      match raised with
      | Some e => (st1, ui1, Some e)
      | None =>
          let st2 :=
            mkState (selectedDEM st1) (bufferDistance st1) true
                    (Some (mkSlopeImage demSource (bufferDistance st1)))
                    (Some (bufferDistance st1)) (currentStep st1) in
          let ui2 :=
            mkScreen (contentPanel ui1) (statusLog ui1)
                     (layers ui1
                      ++ [("Coastal Slope (" ++ label demSource ++ ")")%string]) in
          let '(st3, ui3, caught) :=
            statusCallback "Coastal slope analysis complete" false st2 ui2 in
          match caught with
          | None => (st3, ui3, None)
          | Some e =>
              let '(st4, ui4, raised') :=
                statusCallback
                  ("Error in coastal slope calculation: " ++ message e)%string
                  true st3 ui3 in
              (st4,
               mkScreen (contentPanel ui4
                         ++ [Label (ICONS_warning ++ " Error: " ++ message e)%string
                                   "red"])
                        (statusLog ui4) (layers ui4),
               raised')
          end
      end
  end.

(** The handler of the button 'Calculate Slope'. *)
Definition onCalculateSlope (st : State) (ui : Screen)
  : State * Screen * option error :=
  calculateCoastalSlope st
    (mkScreen
       [Label "Calculating coastal slope..." "";
        Label "This may take a moment depending on the size of the shoreline." "#666"]
       (statusLog ui) (layers ui)).

(** The handler of the selector of the first page, for an entry of
    [demSources]. *)
Definition onSelectDEM (dem : DEM) (st : State) : State :=
  mkState (Some dem) (bufferDistance st) (slopeCalculated st) (slopeImage st)
          (coastalZone st) (currentStep st).

End Slope.

(** ** A reference backend: rasters of a single row

    Pixels are the columns of one row, geometries are unions of closed
    intervals of that row, and the catalog is a fixed list of scenes.  The
    properties below hold for every backend; this one evaluates them on
    concrete rasters. *)

Module Ref.

Definition Region : Type := list (Q * Q).

Definition inside (g : Region) (x : Q) : bool :=
  existsb (fun iv => Qle_bool (fst iv) x && Qle_bool x (snd iv)) g.

(** The columns whose centre lies in the region. *)
Definition pixelsOf (g : Region) : list Z :=
  flat_map (fun iv => EE.List_sequence (Qceiling (fst iv)) (Qfloor (snd iv))) g.

Definition validValues (band : Band Z) (cols : list Z) : list Q :=
  flat_map (fun p => match band p with Some v => [v] | None => [] end) cols.

(** A histogram with one bucket for each distinct value, in ascending order;
    a bucket is a pair of its mean and its count. *)
Fixpoint insertValue (v : Q) (h : list (Q * Q)) : list (Q * Q) :=
  match h with
  | [] => [(v, 1)]
  | (m, c) :: t =>
      if Qeq_bool v m then (m, c + 1) :: t
      else if Qlt_bool v m then (v, 1) :: (m, c) :: t
      else (m, c) :: insertValue v t
  end.

Definition histogramOf (band : Band Z) (g : Region) (scale maxPixels : Q)
  : option Histogram :=
  match validValues band (pixelsOf g) with
  | [] => None
  | values =>
      let h := fold_right insertValue [] values in
      Some (mkHistogram (map (fun b => Qred (snd b)) h) (map fst h))
  end.

Definition footprint : Region := [(0, 7)].

Definition clipBand (band : Band Z) (g : Region) : Band Z :=
  fun p => if inside g (inject_Z p) then band p else None.

(** The length of the run of pixels equal to [v] next to [p] in direction
    [step], up to [fuel] pixels. *)
Fixpoint run (band : Band Z) (v : Q) (p step : Z) (fuel : nat) : nat :=
  match fuel with
  | O => O
  | S fuel' =>
      match band (p + step)%Z with
      | Some w => if Qeq_bool w v then S (run band v (p + step)%Z step fuel') else O
      | None => O
      end
  end.

Definition countConnected (band : Band Z) (maxSize : Q) (eightConnected : bool)
  : Band Z :=
  fun p =>
    match band p with
    | None => None
    | Some v =>
        let cap := Z.to_nat (Qfloor maxSize) in
        let size := (1 + run band v p (-1) cap + run band v p 1 cap)%nat in
        Some (inject_Z (Z.of_nat (Nat.min cap size)))
    end.

(** One pass of a focal filter: the valid values within the radius are
    combined; a pixel without a valid neighbour stays masked. *)
Definition focalPass (pick : Q -> Q -> Q) (radius : Q) (band : Band Z) : Band Z :=
  fun p =>
    match validValues band (EE.List_sequence (p - Qfloor radius) (p + Qfloor radius)) with
    | [] => None
    | v :: t => Some (fold_left pick t v)
    end.

Definition focal (pick : Q -> Q -> Q) (band : Band Z) (kernel : Kernel)
    (iterations : Q) : Band Z :=
  match kernel with
  | circle radius => Nat.iter (Z.to_nat (Qfloor iterations)) (focalPass pick radius) band
  end.

(** The maximal runs of equal valid pixels among the given columns. *)
Fixpoint runs (band : Band Z) (cols : list Z) (current : option (Z * Z * Q))
  : list (Z * Z * Q) :=
  match cols with
  | [] => match current with Some r => [r] | None => [] end
  | c :: t =>
      match band c, current with
      | Some v, Some (a, b, w) =>
          if Qeq_bool v w && (c =? b + 1)%Z then runs band t (Some (a, c, w))
          else (a, b, w) :: runs band t (Some (c, c, v))
      | Some v, None => runs band t (Some (c, c, v))
      | None, Some r => r :: runs band t None
      | None, None => runs band t None
      end
  end.

Definition cellRing (a b : Z) : list coord :=
  [(inject_Z a, 0); (inject_Z (b + 1), 0); (inject_Z (b + 1), 1);
   (inject_Z a, 1); (inject_Z a, 0)].

Definition vectorize (band : Band Z) (g : Region) (scale : Q) (eightConnected : bool)
  : list PolygonFeature :=
  map (fun r : Z * Z * Q =>
         let '(a, b, v) := r in
         mkPolygonFeature (cellRing a b) []
           [("label", PNum v); ("count", PNum (inject_Z (b - a + 1)))])
      (runs band (pixelsOf g) None).

Definition bufferRegion (g : Region) (d : Q) : Region :=
  filter (fun iv => Qle_bool (fst iv) (snd iv))
         (map (fun iv => (fst iv - d, snd iv + d)) g).

Definition subtractInterval (iv cut : Q * Q) : Region :=
  if Qlt_bool (snd cut) (fst iv) || Qlt_bool (snd iv) (fst cut) then [iv]
  else (if Qlt_bool (fst iv) (fst cut) then [(fst iv, fst cut)] else [])
       ++ (if Qlt_bool (snd cut) (snd iv) then [(snd cut, snd iv)] else []).

Definition differenceRegion (g h : Region) : Region :=
  fold_left (fun acc cut => flat_map (fun iv => subtractInterval iv cut) acc) h g.

Definition areaRegion (g : Region) : Q :=
  EE.Array_sum (map (fun iv => snd iv - fst iv) g).

Definition boundsRegion (g : Region) : list coord :=
  match g with
  | [] => []
  | iv :: t =>
      let lo := fold_left Qmin (map fst t) (fst iv) in
      let hi := fold_left Qmax (map snd t) (snd iv) in
      [(lo, 0); (hi, 0); (hi, 1); (lo, 1); (lo, 0)]
  end.

(** A line meets a region when the span of its vertices comes within the
    margin of one of the intervals. *)
Definition lineIntersects (coords : list coord) (g : Region) (margin : Q) : bool :=
  match coords with
  | [] => false
  | c :: t =>
      let lo := fold_left Qmin (map fst t) (fst c) in
      let hi := fold_left Qmax (map fst t) (fst c) in
      existsb (fun iv => Qle_bool (fst iv - margin) hi && Qle_bool lo (snd iv + margin)) g
  end.

Definition clipLine (f : LineFeature) (g : Region) : LineFeature :=
  mkLineFeature (filter (fun c => inside g (fst c)) (lineCoords f)) (lineProps f).

Record Scene : Type := mkScene {
  collectionId : string;
  acquired : Z;
  sceneImage : Image Z
}.

(** A band given by the values of the columns 0, 1, 2, ... *)
Definition row (values : list Q) : Band Z :=
  fun p => if (p <? 0)%Z then None else nth_error values (Z.to_nat p).

(** A radar scene of eight pixels: open water in the columns 0 to 2. *)
Definition sarImage : Image Z :=
  fun name =>
    if String.eqb name "VV" then row [-20; -20; -20; -10; 0; 0; 0; 0]
    else if String.eqb name "VH" then row [-40; -40; -40; -20; 0; 0; 0; 0]
    else fun _ => None.

Definition catalog : list Scene :=
  [mkScene "COPERNICUS/S1_GRD" 10 sarImage].

Definition scenesOf (id : string) (g : Region) (startDate endDate : Z)
    (filters : list CollectionFilter) : list (Image Z) :=
  map sceneImage
      (filter (fun s => String.eqb (collectionId s) id
                        && (startDate <=? acquired s)%Z && (acquired s <? endDate)%Z)
              catalog).

Definition meanOf (values : list Q) : option Q :=
  match values with
  | [] => None
  | _ => Some (Qred (EE.Array_sum values / inject_Z (Z.of_nat (List.length values))))
  end.

(** The per-pixel mean of the valid values; it stands for the median too,
    with which it agrees on the single scene of the catalog. *)
Definition composite (images : list (Image Z)) : Image Z :=
  fun name p =>
    meanOf (flat_map (fun img => match img name p with Some v => [v] | None => [] end)
                     images).

(** Exponentiation, exact for an integer exponent. *)
Definition powFloor (a b : Q) : Q := Qred (Qpower a (Qfloor b)).

#[export] Instance backend : Backend := {|
  numbers := Double.binary64;
  pixel := Z;
  geometry := Region;
  date := Z;
  pow := powFloor;
  reduceRegion_histogram := histogramOf;
  imageGeometry := fun _ => footprint;
  clip := clipBand;
  connectedPixelCount := countConnected;
  focal_max := focal Qmax;
  focal_min := focal Qmin;
  reduceToVectors := vectorize;
  buffer := bufferRegion;
  difference := differenceRegion;
  area := areaRegion;
  bounds := boundsRegion;
  Rectangle := fun x1 y1 x2 y2 => [(x1, x2)];
  intersects := lineIntersects;
  intersection := clipLine;
  filterBounds := fun l g => filter (fun f => lineIntersects (lineCoords f) g 0) l;
  imageCollection := scenesOf;
  collectionMean := composite;
  collectionMedian := composite
|}.

(** A run configuration with the defaults of [resetState], after the method
    'sentinel1' has been selected. *)
Definition defaultState (region : Region) : State :=
  mkState region (fun _ => None) None (None, None) 5 "Median" "MNDWI"
          10 2 2 1 2 false 0 (Some "sentinel1").

Definition emptyConsole : Console := mkConsole [] [Label "Ready" ""] [] false.

End Ref.

(** ** Concrete inputs *)

(** Three buckets whose best split separates the last bucket from the first
    two. *)
Definition skewedHistogram : Histogram := mkHistogram [1; 1; 5] [0; 5; 10].

(** *** Section 4.2 of the specification, in its own words: the three
    indicators of the radar classifier *)

(** [linear = 10^(db/10)]. *)
Definition linear {B : Backend} (db : Q) : Q := pow 10 (db / 10).

(** The primary band below its threshold, the secondary band below its
    threshold, the linear-scale ratio above its threshold. *)
Definition sarIndicators {B : Backend} (tvv tvh tratio vv vh : Q) : list bool :=
  [Qlt_bool vv tvv; Qlt_bool vh tvh; Qlt_bool tratio (linear vv / linear vh)].

(** How many indicators agree. *)
Definition agreeing (indicators : list bool) : nat :=
  List.length (filter (fun b : bool => b) indicators).

(** [state.sarVotesRequired = votes]. *)
Definition withVotes {B : Backend} (st : State) (votes : Q) : State :=
  mkState (aoi st) (results st) (rawImage st) (dateRange st) (cloudCover st)
          (compositeMethod st) (waterIndex st) (waterBodySizeThreshold st)
          (smoothingKernelSize st) (smoothingIterations st) (coastalBuffer st)
          votes (useCustomThreshold st) (waterThreshold st) (shorelineMethod st).

(** A near-infrared band of two pixels: dark water in column 0, bright land
    in column 1. *)
Definition nirImage : Image Z :=
  fun name => if String.eqb name "B8" then Ref.row [1 # 10; 3 # 10] else fun _ => None.

(** [state.useCustomThreshold = true; state.waterThreshold = 0.2]. *)
Definition customThresholdState : @State Ref.backend :=
  @mkState Ref.backend Ref.footprint (fun _ => None) None (None, None) 5
           "Median" "Band8" 10 2 2 1 2 true (2 # 10) (Some "sentinel2").

(** *** Section 4.3 of the specification, in its own words *)

(** Step 1: a pixel is discarded when its connected (8-connected) run of
    equal pixels, counted up to [minPixels], is below [minPixels]. *)
Definition removeSmall {B : Backend} (minPixels : Q) (mask : Band pixel) : Band pixel :=
  Img.updateMask mask (Img.gte (connectedPixelCount mask minPixels true) minPixels).

(** A closing is a max-filter followed by a min-filter, an opening a
    min-filter followed by a max-filter, with a circular kernel. *)
Definition closing {B : Backend} (radius iterations : Q) (mask : Band pixel)
  : Band pixel :=
  focal_min (focal_max mask (circle radius) iterations) (circle radius) iterations.

Definition opening {B : Backend} (radius iterations : Q) (mask : Band pixel)
  : Band pixel :=
  focal_max (focal_min mask (circle radius) iterations) (circle radius) iterations.

(** Step 1, then step 2: closing then opening. *)
Definition cleanupAsSpecified {B : Backend} (st : State) (mask : Band pixel)
  : Band pixel :=
  opening (smoothingKernelSize st) (smoothingIterations st)
    (closing (smoothingKernelSize st) (smoothingIterations st)
       (removeSmall (waterBodySizeThreshold st) mask)).

(** A pond of five water pixels between two stretches of five land
    pixels. *)
Definition pondMask : Band Z :=
  Ref.row [0; 0; 0; 0; 0; 1; 1; 1; 1; 1; 0; 0; 0; 0; 0].

Definition pondRegion : Ref.Region := [(0, 14)].

(** Settings within the range of the sliders:
    [waterBodySizeThreshold = 5], [smoothingKernelSize = 3],
    [smoothingIterations = 1]. *)
Definition pondCleanupState : @State Ref.backend :=
  @mkState Ref.backend pondRegion (fun _ => None) None (None, None) 5
           "Median" "MNDWI" 5 3 1 1 2 false 0 (Some "sentinel2").

(** *** Section 4.4 of the specification, in its own words *)

(** The coastal corridor: the boundary buffered outward by [distance] minus
    the boundary buffered inward by [distance]. *)
Definition coastalCorridor {B : Backend} (g : geometry) (distance : Q) : geometry :=
  difference (buffer g distance) (buffer g (- distance)).

(** *** Section 4.5 of the specification, in its own words *)

(** The progress labels that announce classification ('Detecting water
    bodies...', 'Calculating ' + index + '...') and vectorization. *)
Definition announcesStep (w : Widget) : bool :=
  match w with
  | Label value _ =>
      prefix "Detecting water bodies" value
      || prefix "Calculating " value
      || prefix "Vectorizing shoreline" value
  | Button _ _ => false
  end.

(** The run failed for want of imagery: nothing was stored in [state] (no
    raw image, no result), nothing was published on the map or in the
    results panel, and no classification or vectorization step was
    announced. *)
Definition failedNoImagery {B : Backend} (before : State) (ui : Console)
    (out : State * Console) : Prop :=
  fst out = before /\
  mapLayers (snd out) = mapLayers ui /\
  resultsPanelShown (snd out) = resultsPanelShown ui /\
  existsb announcesStep (progressPanel (snd out)) = false.

(** Section 4.1 asks that a scene without a valid threshold be a per-scene
    failure: the run stores no result for the method and the status line
    reports an error. *)
Definition perSceneFailure {B : Backend} (method : string) (before : State)
    (out : State * Console) : Prop :=
  results (fst out) method = results before method /\
  exists text, statusPanel (snd out) = [Label text "red"].

(** ** Further notions and inputs of the properties *)

(** A green band and a short-wave infrared band of two pixels: water in
    column 0, land in column 1. *)
Definition greenSwirImage : Image Z :=
  fun name =>
    if String.eqb name "B3" then Ref.row [6 # 10; 1 # 10]
    else if String.eqb name "B11" then Ref.row [2 # 10; 3 # 10]
    else fun _ => None.

(** [state.useCustomThreshold = true; state.waterThreshold = 1], the upper
    end of the threshold slider. *)
Definition sliderMaxState : @State Ref.backend :=
  @mkState Ref.backend Ref.footprint (fun _ => None) None (None, None) 5
           "Median" "MNDWI" 10 2 2 1 2 true 1 (Some "sentinel2").

(** The settings that version 1.0.0 writes as literals:
    [waterBodySizeThreshold = 100], [smoothingKernelSize = 1],
    [smoothingIterations = 1]. *)
Definition literalSettingsState : @State Ref.backend :=
  @mkState Ref.backend Ref.footprint (fun _ => None) None (None, None) 5
           "Median" "MNDWI" 100 1 1 1 2 false 0 (Some "sentinel2").

(** The fields of [state] that hold the settings of a run. *)
Definition settings {B : Backend} (st : State) :=
  (aoi st, dateRange st, cloudCover st, compositeMethod st, waterIndex st,
   waterBodySizeThreshold st, smoothingKernelSize st, smoothingIterations st,
   coastalBuffer st, sarVotesRequired st, useCustomThreshold st, waterThreshold st,
   shorelineMethod st).

(** A shoreline of 250 features. *)
Definition longShoreline : list LineFeature :=
  map (fun k => mkLineFeature [(inject_Z (Z.of_nat k), 0)] []) (seq 0 250).

(** The ratings of [getSlopeVulnerabilityCategory] in the order of their
    names, from 'Very Low' (0) to 'Very High' (4). *)
Definition severity (v : Slope.Vulnerability) : nat :=
  if String.eqb (Slope.rating v) "Very High" then 4
  else if String.eqb (Slope.rating v) "High" then 3
  else if String.eqb (Slope.rating v) "Moderate" then 2
  else if String.eqb (Slope.rating v) "Low" then 1
  else 0.

(** One sample in each of three buckets, at the doubles next to 0.1, 0.4 and
    0.7. *)
Definition tenths : list Q := map Double.round [1 # 10; 4 # 10; 7 # 10].

(** A region from 0.2 to 0.8, three tile sizes wide. *)
Definition threeTilesRegion : Ref.Region :=
  [(Double.round (2 # 10), Double.round (8 # 10))].

(** The map and the panel when the slope module opens: the shoreline is the
    one layer. *)
Definition slopeScreen : Slope.Screen := Slope.mkScreen [] [] ["Shoreline"].

(** A Landsat scene of four pixels: water in the columns 0 and 1. *)
Definition landsatImage : Image Z :=
  fun name =>
    if String.eqb name "SR_B3" then Ref.row [8; 8; 4; 4]
    else if String.eqb name "SR_B5" then Ref.row [2; 2; 12; 12]
    else if String.eqb name "SR_B6" then Ref.row [1; 1; 10; 10]
    else if String.eqb name "SR_B7" then Ref.row [1; 1; 8; 8]
    else fun _ => None.

(** [state.waterThreshold = threshold]. *)
Definition withThreshold {B : Backend} (st : State) (threshold : Q) : State :=
  mkState (aoi st) (results st) (rawImage st) (dateRange st) (cloudCover st)
          (compositeMethod st) (waterIndex st) (waterBodySizeThreshold st)
          (smoothingKernelSize st) (smoothingIterations st) (coastalBuffer st)
          (sarVotesRequired st) (useCustomThreshold st) threshold (shorelineMethod st).

(** * Part II: properties *)

(** Counts [1; 1; 5] over the means [0; 5; 10]: the variances of the splits 1
    and 2 are 3025/42 and 1125/14, and the result is the mean of bucket 1,
    with and without rounding. *)
Example otsu_three_buckets :
  betweenClassVariance skewedHistogram 1 == 3025 # 42 /\
  betweenClassVariance skewedHistogram 2 == 1125 # 14 /\
  otsu (A := Double.binary64) (Some skewedHistogram) = Ok 5 /\
  otsu (A := exactArithmetic) (Some skewedHistogram) = Ok 5.
Proof. repeat split; vm_compute; reflexivity. Qed.

(** ** Facts about the primitives *)

Lemma mapM_pure {A B : Type} (f : A -> outcome B) (g : A -> B) (l : list A) :
  (forall a, In a l -> f a = Ok (g a)) -> mapM f l = Ok (map g l).
Proof.
  induction l as [|a t IH]; intros Hf; simpl.
  - reflexivity.
  - rewrite (Hf a (or_introl eq_refl)). simpl.
    rewrite IH by (intros b Hb; apply Hf; right; exact Hb).
    reflexivity.
Qed.

Lemma zipWith_firstn (f : Q -> Q -> Q) (n : nat) (a b : list Q) :
  EE.zipWith f (firstn n a) (firstn n b) = firstn n (EE.zipWith f a b).
Proof.
  revert a b; induction n as [|n IH]; intros a b.
  - reflexivity.
  - destruct a as [|x a]; [reflexivity|].
    destruct b as [|y b]; [reflexivity|].
    simpl. rewrite IH. reflexivity.
Qed.

Lemma zipWith_skipn (f : Q -> Q -> Q) (n : nat) (a b : list Q) :
  List.length a = List.length b ->
  EE.zipWith f (skipn n a) (skipn n b) = skipn n (EE.zipWith f a b).
Proof.
  revert a b; induction n as [|n IH]; intros a b Hlen.
  - reflexivity.
  - destruct a as [|x a]; destruct b as [|y b]; try discriminate; [reflexivity|].
    simpl. apply IH. simpl in Hlen. lia.
Qed.

Lemma zipWith_length (f : Q -> Q -> Q) (a b : list Q) :
  List.length a = List.length b -> List.length (EE.zipWith f a b) = List.length a.
Proof.
  revert b; induction a as [|x a IH]; intros [|y b] Hlen; simpl in *;
    try discriminate; [reflexivity|].
  f_equal. apply IH. lia.
Qed.

Lemma Array_sum_app (a b : list Q) :
  EE.Array_sum (a ++ b) == EE.Array_sum a + EE.Array_sum b.
Proof.
  induction a as [|x a IH]; simpl.
  - ring.
  - fold (EE.Array_sum (a ++ b)). fold (EE.Array_sum a). rewrite IH. ring.
Qed.

Lemma Array_sum_split (n : nat) (a : list Q) :
  EE.Array_sum a == EE.Array_sum (firstn n a) + EE.Array_sum (skipn n a).
Proof.
  rewrite <- Array_sum_app, firstn_skipn. reflexivity.
Qed.

Lemma Array_sum_nonneg (a : list Q) :
  Forall (fun c => 0 <= c) a -> 0 <= EE.Array_sum a.
Proof.
  induction 1 as [|x a Hx _ IH]; simpl.
  - apply Qle_refl.
  - fold (EE.Array_sum a).
    setoid_replace 0 with (0 + 0) by ring. apply Qplus_le_compat; assumption.
Qed.

(** A group of non-negative counts that sums to 0 weighs nothing. *)
Lemma weighted_sum_zero (counts means : list Q) :
  Forall (fun c => 0 <= c) counts ->
  EE.Array_sum counts == 0 ->
  EE.Array_sum (EE.zipWith Qmult means counts) == 0.
Proof.
  intros Hpos; revert means.
  induction Hpos as [|c counts Hc Hrest IH]; intros means Hsum.
  - destruct means; reflexivity.
  - destruct means as [|m means]; [reflexivity|].
    simpl in *. fold (EE.Array_sum counts) in Hsum.
    fold (EE.Array_sum (EE.zipWith Qmult means counts)).
    pose proof (Array_sum_nonneg counts Hrest) as Hs.
    assert (Hc0 : c == 0).
    { apply Qle_antisym; [|exact Hc].
      rewrite <- Hsum.
      setoid_replace c with (c + 0) at 1 by ring.
      apply Qplus_le_compat; [apply Qle_refl | exact Hs]. }
    assert (Hs0 : EE.Array_sum counts == 0).
    { rewrite Hc0 in Hsum. rewrite <- Hsum. ring. }
    rewrite (IH means Hs0), Hc0. ring.
Qed.

Lemma bssAt_ok {A : Arithmetic} (counts means : list Q) (total sum mean : Q) (i : Z) :
  List.length counts = List.length means ->
  bssAt counts means total sum mean i = Ok (bssValue counts means total sum mean i).
Proof.
  intros Hlen. unfold bssAt, bssValue, EE.Array_multiply, EE.Array_slice0.
  rewrite !length_firstn, Hlen, Nat.eqb_refl. reflexivity.
Qed.

Lemma Forall_firstn_nonneg (n : nat) (a : list Q) :
  Forall (fun c => 0 <= c) a -> Forall (fun c => 0 <= c) (firstn n a).
Proof.
  intros H; revert n; induction H as [|x a Hx _ IH]; intros [|n]; simpl;
    constructor; auto.
Qed.

Lemma times_quotient (c s : Q) : (c == 0 -> s == 0) -> c * (s / c) == s.
Proof.
  intros Hz. destruct (Qeq_dec c 0) as [Hc|Hc].
  - rewrite (Hz Hc), Hc. unfold Qdiv. ring.
  - field. exact Hc.
Qed.

(** Without rounding, the code's sum of squares is the specification's
    between-class variance as soon as no count is negative. *)
Lemma codeVariance_refines (d : Histogram) (i : nat) :
  List.length (histogram d) = List.length (bucketMeans d) ->
  Forall (fun c => 0 <= c) (histogram d) ->
  codeVariance (A := exactArithmetic) d i == betweenClassVariance d i.
Proof.
  intros Hlen Hpos.
  unfold codeVariance, bssValue, betweenClassVariance, groupMean, groupCount,
    EE.Array_slice0.
  cbn [exactArithmetic Reducer_sum Number_divide Number_subtract Number_multiply
       Number_add Number_pow].
  change (Qfloor 2) with 2%Z.
  change (fold_right Qplus 0) with EE.Array_sum.
  rewrite Nat2Z.id.
  set (counts := histogram d) in *. set (means := bucketMeans d) in *.
  set (total := EE.Array_sum counts).
  set (sum := EE.Array_sum (EE.zipWith Qmult means counts)).
  set (aC := EE.Array_sum (firstn i counts)).
  set (aS := EE.Array_sum (EE.zipWith Qmult (firstn i means) (firstn i counts))).
  assert (HbC : total - aC == EE.Array_sum (skipn i counts)).
  { unfold total, aC. rewrite (Array_sum_split i counts) at 1. ring. }
  assert (HaS : aC * (aS / aC) == aS).
  { apply times_quotient. intros Hz. unfold aS.
    apply weighted_sum_zero; [|exact Hz].
    apply Forall_firstn_nonneg; exact Hpos. }
  assert (HbS : sum - aC * (aS / aC)
                == EE.Array_sum (EE.zipWith Qmult (skipn i means) (skipn i counts))).
  { rewrite HaS. unfold sum, aS.
    rewrite zipWith_firstn, zipWith_skipn by (symmetry; exact Hlen).
    rewrite (Array_sum_split i (EE.zipWith Qmult means counts)) at 1. ring. }
  rewrite HbS, HbC. reflexivity.
Qed.

Lemma Qmax_cases (x y : Q) : Qmax x y = x \/ Qmax x y = y.
Proof.
  unfold Qmax, GenericMinMax.gmax. destruct (x ?= y); auto.
Qed.

Lemma fold_max_in (t : list Q) (x : Q) : In (fold_left Qmax t x) (x :: t).
Proof.
  revert x; induction t as [|y t IH]; intros x; simpl.
  - left; reflexivity.
  - destruct (IH (Qmax x y)) as [H|H].
    + rewrite <- H. destruct (Qmax_cases x y) as [E|E]; rewrite E; auto.
    + right; right; exact H.
Qed.

Lemma fold_max_ge_init (t : list Q) (x : Q) : x <= fold_left Qmax t x.
Proof.
  revert x; induction t as [|y t IH]; intros x; simpl.
  - apply Qle_refl.
  - eapply Qle_trans; [apply Q.le_max_l | apply IH].
Qed.

Lemma fold_max_ge (t : list Q) (x y : Q) :
  In y (x :: t) -> y <= fold_left Qmax t x.
Proof.
  revert x; induction t as [|z t IH]; intros x Hin.
  - destruct Hin as [->|[]]. apply Qle_refl.
  - simpl. destruct Hin as [->|[->|Hin]].
    + eapply Qle_trans; [apply (Q.le_max_l y z) | apply fold_max_ge_init].
    + eapply Qle_trans; [apply (Q.le_max_r x y) | apply fold_max_ge_init].
    + apply IH. right; exact Hin.
Qed.

(** [indexOf] finds the first position whose element equals the value. *)
Lemma indexOf_from_first (l : list Q) (v : Q) (pos : Z) :
  (exists y, In y l /\ y == v) ->
  exists k : nat,
    (k < List.length l)%nat /\
    EE.indexOf_from l v pos = (pos + Z.of_nat k)%Z /\
    nth k l 0 == v /\
    (forall j, (j < k)%nat -> ~ nth j l 0 == v).
Proof.
  revert pos; induction l as [|x l IH]; intros pos [y [Hin Hy]].
  - destruct Hin.
  - simpl. destruct (Qeq_bool x v) eqn:E.
    + exists 0%nat. repeat split.
      * simpl; lia.
      * lia.
      * apply Qeq_bool_eq; exact E.
      * intros j Hj; lia.
    + assert (Hx : ~ x == v).
      { intros H. apply Qeq_eq_bool in H. congruence. }
      destruct Hin as [->|Hin]; [contradiction|].
      destruct (IH (pos + 1)%Z (ex_intro _ y (conj Hin Hy)))
        as [k [Hk [Hidx [Hnth Hfirst]]]].
      exists (S k). repeat split.
      * simpl; lia.
      * rewrite Hidx; lia.
      * exact Hnth.
      * intros [|j] Hj; simpl; [exact Hx | apply Hfirst; lia].
Qed.

(** ** Otsu's method on a histogram of at least two buckets *)

Lemma List_sequence_interior (n : nat) :
  EE.List_sequence 1 (Z.of_nat n - 1) = map (fun k => Z.of_nat (S k)) (seq 0 (n - 1)).
Proof.
  unfold EE.List_sequence.
  replace (Z.to_nat (Z.of_nat n - 1 - 1 + 1)) with (n - 1)%nat by lia.
  apply map_ext. intros k. lia.
Qed.

Lemma nth_map_seq (f : nat -> Q) (n j : nat) :
  (j < n)%nat -> nth j (map f (seq 0 n)) 0 = f j.
Proof.
  intros Hj.
  rewrite (nth_indep _ 0 (f 0%nat)) by (rewrite length_map, length_seq; exact Hj).
  rewrite map_nth, seq_nth by exact Hj. reflexivity.
Qed.

(** On a well-shaped histogram [otsu] evaluates to the bucket mean found at
    the list position of the first maximum of [bss]; position [k] of [bss]
    holds the sum of squares of split index [k + 1]. *)
Lemma otsu_position {A : Arithmetic} (d : Histogram) :
  List.length (histogram d) = List.length (bucketMeans d) ->
  (2 <= List.length (bucketMeans d))%nat ->
  exists k : nat,
    (k < List.length (bucketMeans d) - 1)%nat /\
    (forall j, (j < List.length (bucketMeans d) - 1)%nat ->
               codeVariance d (S j) <= codeVariance d (S k)) /\
    (forall j, (j < k)%nat -> codeVariance d (S j) < codeVariance d (S k)) /\
    otsu (Some d) = Ok (nth k (bucketMeans d) 0).
Proof.
  intros Hlen Hsize.
  assert (Hrun : otsu (Some d)
                 = let bss := map (fun j => codeVariance d (S j))
                                  (seq 0 (List.length (bucketMeans d) - 1)) in
                   EE.Array_get (bucketMeans d)
                     (EE.List_indexOf bss (EE.List_reduce_max bss))).
  { unfold otsu, EE.Array_multiply, EE.Array_length.
    rewrite <- Hlen, Nat.eqb_refl. simpl bind. rewrite Hlen.
    rewrite List_sequence_interior.
    rewrite (mapM_pure _ (bssValue (histogram d) (bucketMeans d)
               (Reducer_sum (histogram d))
               (Reducer_sum (EE.zipWith Number_multiply (bucketMeans d) (histogram d)))
               (Number_divide
                  (Reducer_sum (EE.zipWith Number_multiply (bucketMeans d) (histogram d)))
                  (Reducer_sum (histogram d)))))
      by (intros a _; apply bssAt_ok; exact Hlen).
    simpl bind. rewrite map_map. reflexivity. }
  set (n := List.length (bucketMeans d)) in *.
  set (bss := map (fun j => codeVariance d (S j)) (seq 0 (n - 1))) in *.
  assert (Hbss : forall j, (j < n - 1)%nat -> nth j bss 0 = codeVariance d (S j)).
  { intros j Hj. unfold bss. apply (nth_map_seq (fun j => codeVariance d (S j))). exact Hj. }
  assert (Hbsslen : List.length bss = (n - 1)%nat).
  { unfold bss. rewrite length_map, length_seq. reflexivity. }
  cbv zeta in Hrun.
  destruct bss as [|x t] eqn:Ebss; [simpl in Hbsslen; lia|].
  unfold EE.List_reduce_max, EE.List_indexOf in Hrun.
  set (m := fold_left Qmax t x) in *.
  destruct (indexOf_from_first (x :: t) m 0) as [k [Hk [Hidx [Hnth Hfirst]]]].
  { exists m. split; [apply fold_max_in | reflexivity]. }
  rewrite Hbsslen in Hk.
  assert (Hmax : forall j, (j < n - 1)%nat -> codeVariance d (S j) <= m).
  { intros j Hj. rewrite <- (Hbss j Hj). apply fold_max_ge.
    apply nth_In. rewrite Hbsslen. exact Hj. }
  exists k. split; [exact Hk|]. split; [|split].
  - intros j Hj. rewrite <- (Hbss k Hk), Hnth. apply Hmax. exact Hj.
  - intros j Hj. rewrite <- (Hbss k Hk), Hnth.
    assert (Hjn : (j < n - 1)%nat) by lia.
    destruct (proj1 (Qle_lteq _ _) (Hmax j Hjn)) as [Hlt|Heq]; [exact Hlt|].
    exfalso. apply (Hfirst j Hj). rewrite (Hbss j Hjn). exact Heq.
  - rewrite Hrun, Hidx. unfold EE.Array_get. fold n.
    replace ((0 <=? 0 + Z.of_nat k)%Z && (0 + Z.of_nat k <? Z.of_nat n)%Z) with true
      by (symmetry; apply andb_true_intro; split;
          [apply Z.leb_le | apply Z.ltb_lt]; lia).
    replace (Z.to_nat (0 + Z.of_nat k)) with k by lia. reflexivity.
Qed.

(** Closed comparisons of rationals are settled by evaluation. *)
Ltac qcompare :=
  vm_compute; first [reflexivity | discriminate | (intro; discriminate)].

(** C1, as amended: on a histogram with at least 2 buckets, no negative
    count and a positive total count, [otsu] computes, in the arithmetic of
    the platform (double precision, every operation rounded), the
    between-class sum of squares of every interior split index, selects the
    first split index at which the computed value is maximal, and returns the
    bucket mean found one position below that split index, which is the mean
    of the last bucket of the below-group.  Without rounding the computed
    value is the between-class variance. *)
Theorem otsu_returns_mean_below_first_best_split {A : Arithmetic} (d : Histogram) :
  List.length (histogram d) = List.length (bucketMeans d) ->
  (2 <= List.length (bucketMeans d))%nat ->
  Forall (fun c => 0 <= c) (histogram d) ->
  0 < EE.Array_sum (histogram d) ->
  (exists i : nat,
     firstBestComputedSplit d i /\
     otsu (Some d) = Ok (nth (i - 1) (bucketMeans d) 0)) /\
  (forall j : nat,
     codeVariance (A := exactArithmetic) d j == betweenClassVariance d j).
Proof.
  intros Hlen Hsize Hpos _. split.
  - destruct (otsu_position d Hlen Hsize) as [k [Hk [Hmax [Hfirst Hrun]]]].
    exists (S k). split.
    + unfold firstBestComputedSplit. split; [lia|]. split.
      * intros j Hj. destruct j as [|j]; [lia|]. apply Hmax. lia.
      * intros j Hj. destruct j as [|j]; [lia|]. apply Hfirst. lia.
    + rewrite Hrun. replace (S k - 1)%nat with k by lia. reflexivity.
  - intros j. apply codeVariance_refines; assumption.
Qed.

(** On [skewedHistogram], in double precision, the first best split index is
    2 and [otsu] yields the mean of bucket 1. *)
Lemma otsu_mean_below_split_witness :
  (exists i : nat,
     firstBestComputedSplit (A := Double.binary64) skewedHistogram i /\
     otsu (A := Double.binary64) (Some skewedHistogram)
     = Ok (nth (i - 1) (bucketMeans skewedHistogram) 0)) /\
  (forall j : nat,
     codeVariance (A := exactArithmetic) skewedHistogram j
     == betweenClassVariance skewedHistogram j).
Proof.
  apply (otsu_returns_mean_below_first_best_split (A := Double.binary64)
           skewedHistogram).
  - reflexivity.
  - simpl; lia.
  - repeat constructor; qcompare.
  - qcompare.
Defined.

(** C1 as stated fails: on [skewedHistogram] no first best split index [i],
    be it by the between-class variance or by the value computed in double
    precision, has its own bucket mean returned. *)
Lemma otsu_not_mean_at_split :
  ~ (exists i : nat,
       (firstBestSplit skewedHistogram i
        \/ firstBestComputedSplit (A := Double.binary64) skewedHistogram i) /\
       exists v, otsu (A := Double.binary64) (Some skewedHistogram) = Ok v /\
                 v == nth i (bucketMeans skewedHistogram) 0).
Proof.
  intros [i [Hbest [v [Hrun Hv]]]].
  assert (Hv5 : v = 5).
  { assert (E : otsu (A := Double.binary64) (Some skewedHistogram) = Ok 5)
      by (vm_compute; reflexivity).
    rewrite E in Hrun. injection Hrun as <-. reflexivity. }
  subst v.
  assert (Hi : i = 1%nat \/ i = 2%nat).
  { destruct Hbest as [[Hrange _] | [Hrange _]]; simpl in Hrange; lia. }
  destruct Hi as [-> | ->].
  - destruct Hbest as [[_ [Hmax _]] | [_ [Hmax _]]];
      specialize (Hmax 2%nat); revert Hmax; vm_compute; intros H;
      (apply H; [lia | reflexivity]).
  - revert Hv. vm_compute. discriminate.
Qed.

(** ** A region without a histogram *)

Lemma otsu_null_histogram {A : Arithmetic} :
  otsu None = Throw (EEException "Dictionary.get: the dictionary is null").
Proof. reflexivity. Qed.

(** A run whose composite has no histogram over the area of interest. *)
Lemma processSentinel1_null_histogram {B : Backend} (startDate endDate : date)
    (st : State) (ui : Console) :
  let collection := sentinel1Scenes st startDate endDate in
  let composite :=
    if String.eqb (compositeMethod st) "Mean" then collectionMean collection
    else collectionMedian collection in
  let image := clipImage composite (buffer (aoi st) 500) in
  collection <> [] ->
  reduceRegion_histogram (Img.select image "VV") (aoi st) 10 (10 ^ 13) = None ->
  let out := V110.processSentinel1 startDate endDate st ui in
  results (fst out) "sentinel1"
  = Some (mkResult
            (Throw (EEException "Dictionary.get: the dictionary is null"))
            (Throw (EEException "Dictionary.get: the dictionary is null"))) /\
  statusPanel (snd out)
  = [Label "Completed processing sentinel1 imagery" "black"].
Proof.
  intros collection composite image Hscenes Hnull.
  cbn zeta. unfold V110.processSentinel1. fold collection.
  destruct (Nat.eqb (List.length collection) 0) eqn:Ecount.
  - apply Nat.eqb_eq in Ecount. apply length_zero_iff_nil in Ecount. contradiction.
  - fold composite. fold image.
    unfold V110.detectWaterFromSAR, V110.getOtsuThreshold.
    change (aoi (setRawImage st image)) with (aoi st). rewrite Hnull.
    unfold displayResults. cbn. split; reflexivity.
Qed.

(** C4, as amended: when the backend yields no histogram for the region
    (the null of a band without a valid pixel there), the threshold
    estimator fails with an Earth Engine evaluation error that carries a
    message only; the radar, optical (automatic threshold) and Landsat
    classifiers of version 1.1.0 and the radar classifier of version 1.0.0
    end with that same error; and [processSentinel1] of version 1.1.0, when
    scenes were found, stores the failed water mask and shoreline as the
    result of the method and reports completion in black. *)
Theorem null_histogram_fails_with_evaluation_error :
  (forall A : Arithmetic,
      otsu (A := A) None
      = Throw (EEException "Dictionary.get: the dictionary is null")) /\
  (forall (B : Backend) (st : State) (image : Image pixel),
      reduceRegion_histogram (Img.select image "VV") (aoi st) 10 (10 ^ 13) = None ->
      V110.detectWaterFromSAR st image = Throw
        (EEException "Dictionary.get: the dictionary is null")) /\
  (forall (B : Backend) (st : State) (image : Image pixel) (indexName : string),
      useCustomThreshold st = false ->
      reduceRegion_histogram (calculateWaterIndex image indexName) (aoi st)
        10 (10 ^ 13) = None ->
      V110.detectWaterFromOptical st image indexName = Throw
        (EEException "Dictionary.get: the dictionary is null")) /\
  (forall (B : Backend) (st : State) (image : Image pixel),
      reduceRegion_histogram
        (Img.map4 AWEInsh_expr (Img.select image "SR_B3")
           (Img.select image "SR_B6") (Img.select image "SR_B5")
           (Img.select image "SR_B7"))
        (imageGeometry image) 15 (10 ^ 13) = None ->
      V110.detectWaterFromLandsat st image = Throw
        (EEException "Dictionary.get: the dictionary is null")) /\
  (forall (B : Backend) (st : State) (image : Image pixel),
      reduceRegion_histogram (Img.select image "VV") (aoi st) 30 (10 ^ 9) = None ->
      V100.detectWaterFromSAR st image = Throw
        (EEException "Dictionary.get: the dictionary is null")) /\
  (forall (B : Backend) (startDate endDate : date) (st : State) (ui : Console),
      let collection := sentinel1Scenes st startDate endDate in
      let composite :=
        if String.eqb (compositeMethod st) "Mean" then collectionMean collection
        else collectionMedian collection in
      let image := clipImage composite (buffer (aoi st) 500) in
      collection <> [] ->
      reduceRegion_histogram (Img.select image "VV") (aoi st) 10 (10 ^ 13) = None ->
      let out := V110.processSentinel1 startDate endDate st ui in
      results (fst out) "sentinel1"
      = Some (mkResult
                (Throw (EEException "Dictionary.get: the dictionary is null"))
                (Throw (EEException "Dictionary.get: the dictionary is null"))) /\
      statusPanel (snd out)
      = [Label "Completed processing sentinel1 imagery" "black"]).
Proof.
  split; [|split; [|split; [|split; [|split]]]].
  - intros A. reflexivity.
  - intros B st image Hnull.
    unfold V110.detectWaterFromSAR, V110.getOtsuThreshold. rewrite Hnull. reflexivity.
  - intros B st image indexName Hauto Hnull.
    unfold V110.detectWaterFromOptical. rewrite Hauto, Hnull. reflexivity.
  - intros B st image Hnull.
    unfold V110.detectWaterFromLandsat. rewrite Hnull. reflexivity.
  - intros B st image Hnull.
    unfold V100.detectWaterFromSAR, V100.getOtsuThreshold. rewrite Hnull. reflexivity.
  - intros B startDate endDate st ui. apply processSentinel1_null_histogram.
Qed.

(** The area of interest [(20, 30)] lies beyond the last column of the
    reference scene, which its buffer of 500 reaches: the composite has no
    valid pixel in the area, the reference backend yields no histogram, the
    classifiers end with the estimator's error and the run reports
    completion. *)
Lemma null_histogram_witness :
  V110.detectWaterFromSAR (B := Ref.backend) (Ref.defaultState [(20, 30)]) Ref.sarImage
  = Throw (EEException "Dictionary.get: the dictionary is null") /\
  V110.detectWaterFromOptical (B := Ref.backend) (Ref.defaultState [(20, 30)])
    Ref.sarImage "MNDWI"
  = Throw (EEException "Dictionary.get: the dictionary is null") /\
  V110.detectWaterFromLandsat (B := Ref.backend) (Ref.defaultState [(20, 30)])
    Ref.sarImage
  = Throw (EEException "Dictionary.get: the dictionary is null") /\
  V100.detectWaterFromSAR (B := Ref.backend) (Ref.defaultState [(20, 30)]) Ref.sarImage
  = Throw (EEException "Dictionary.get: the dictionary is null") /\
  results (fst (V110.processSentinel1 (B := Ref.backend) 0%Z 20%Z
                  (Ref.defaultState [(20, 30)]) Ref.emptyConsole)) "sentinel1"
  = Some (mkResult (Throw (EEException "Dictionary.get: the dictionary is null"))
                   (Throw (EEException "Dictionary.get: the dictionary is null"))) /\
  statusPanel (snd (V110.processSentinel1 (B := Ref.backend) 0%Z 20%Z
                      (Ref.defaultState [(20, 30)]) Ref.emptyConsole))
  = [Label "Completed processing sentinel1 imagery" "black"].
Proof.
  destruct null_histogram_fails_with_evaluation_error
    as [_ [Hsar [Hoptical [Hlandsat [Hsar100 Hrun]]]]].
  split; [|split; [|split; [|split]]].
  - apply (Hsar Ref.backend). vm_compute. reflexivity.
  - apply (Hoptical Ref.backend); vm_compute; reflexivity.
  - apply (Hlandsat Ref.backend). vm_compute. reflexivity.
  - apply (Hsar100 Ref.backend). vm_compute. reflexivity.
  - apply (Hrun Ref.backend 0%Z 20%Z (Ref.defaultState [(20, 30)]) Ref.emptyConsole).
    + vm_compute. discriminate.
    + vm_compute. reflexivity.
Defined.

(** C4 as stated fails: over the area of interest [(20, 30)] the composite of
    the reference scene has no histogram, the radar classifier ends with the
    estimator's error, and the run is no per-scene failure: a result is
    stored for the method and the status line is not an error. *)
Lemma null_histogram_is_no_per_scene_failure :
  @reduceRegion_histogram Ref.backend
    (Img.select (clipImage (B := Ref.backend) (Ref.composite [Ref.sarImage])
                           (Ref.bufferRegion [(20, 30)] 500)) "VV")
    [(20, 30)] 10 (10 ^ 13) = None /\
  V110.detectWaterFromSAR (B := Ref.backend) (Ref.defaultState [(20, 30)])
    (clipImage (B := Ref.backend) (Ref.composite [Ref.sarImage])
               (Ref.bufferRegion [(20, 30)] 500))
  = Throw (EEException "Dictionary.get: the dictionary is null") /\
  ~ perSceneFailure (B := Ref.backend) "sentinel1" (Ref.defaultState [(20, 30)])
      (V110.processSentinel1 (B := Ref.backend) 0%Z 20%Z
         (Ref.defaultState [(20, 30)]) Ref.emptyConsole).
Proof.
  split; [vm_compute; reflexivity|]. split; [vm_compute; reflexivity|].
  intros [Hstored _].
  destruct (processSentinel1_null_histogram (B := Ref.backend) 0%Z 20%Z
              (Ref.defaultState [(20, 30)]) Ref.emptyConsole) as [Hresult _].
  - vm_compute. discriminate.
  - vm_compute. reflexivity.
  - rewrite Hresult in Hstored. discriminate Hstored.
Qed.

(** ** The radar classifier *)

Lemma Qlt_bool_iff (a b : Q) : Qlt_bool a b = true <-> a < b.
Proof.
  unfold Qlt_bool. rewrite negb_true_iff. split.
  - intros H. apply Qnot_le_lt. intros Hle.
    apply Qle_bool_iff in Hle. congruence.
  - intros H. destruct (Qle_bool b a) eqn:E; [|reflexivity].
    apply Qle_bool_iff in E. exfalso. exact (Qlt_not_le _ _ H E).
Qed.

Lemma votes_count (b1 b2 b3 : bool) :
  truth b1 + truth b2 + truth b3 == inject_Z (Z.of_nat (agreeing [b1; b2; b3])).
Proof. destruct b1, b2, b3; vm_compute; reflexivity. Qed.

(** The value of a pixel of the radar water mask, given the three
    thresholds. *)
Lemma sar_mask_pixel {B : Backend} (st : State) (image : Image pixel)
    (tvv tvh tratio : Q) :
  V110.getOtsuThreshold st image "VV" = Ok tvv ->
  V110.getOtsuThreshold st image "VH" = Ok tvh ->
  V110.getOtsuThreshold st (V110.ratio image) "ratio" = Ok tratio ->
  exists mask,
    V110.detectWaterFromSAR st image = Ok mask /\
    forall p,
      mask p =
      match image "VV" p, image "VH" p with
      | Some vv, Some vh =>
          if Qle_bool (sarVotesRequired st)
               (inject_Z (Z.of_nat (agreeing (sarIndicators tvv tvh tratio vv vh))))
          then Some 1 else None
      | _, _ => None
      end.
Proof.
  intros Hvv Hvh Hr. unfold V110.detectWaterFromSAR.
  rewrite Hvv, Hvh, Hr. simpl bind. eexists. split; [reflexivity|].
  intros p.
  cbv [Img.updateMask Img.gte Img.add Img.lt Img.gt Img.map1 Img.map2
       Img.select V110.ratio Img.rename constantPow Img.divide Img.divideBy
       Img.constant option_map].
  change (String.eqb "ratio" "ratio") with true. cbv beta iota.
  destruct (image "VV" p) as [vv|]; destruct (image "VH" p) as [vh|];
    try reflexivity.
  set (votes := truth (Qlt_bool vv tvv) + truth (Qlt_bool vh tvh)
                + truth (Qlt_bool tratio
                           (EE.divide (pow 10 (EE.divide vv 10))
                                      (pow 10 (EE.divide vh 10))))).
  assert (Hvotes : votes
                   == inject_Z (Z.of_nat (agreeing (sarIndicators tvv tvh tratio vv vh)))).
  { unfold votes, sarIndicators, linear, EE.divide. apply votes_count. }
  assert (Hsame : Qle_bool (sarVotesRequired st) votes
                  = Qle_bool (sarVotesRequired st)
                      (inject_Z (Z.of_nat (agreeing (sarIndicators tvv tvh tratio vv vh))))).
  { destruct (Qle_bool (sarVotesRequired st) votes) eqn:E1;
      destruct (Qle_bool (sarVotesRequired st)
                  (inject_Z (Z.of_nat (agreeing (sarIndicators tvv tvh tratio vv vh)))))
        eqn:E2; try reflexivity; exfalso.
    - apply Qle_bool_iff in E1. rewrite Hvotes in E1.
      apply Qle_bool_iff in E1. congruence.
    - apply Qle_bool_iff in E2. rewrite <- Hvotes in E2.
      apply Qle_bool_iff in E2. congruence. }
  rewrite <- Hsame.
  destruct (Qle_bool (sarVotesRequired st) votes); reflexivity.
Qed.

(** C2: with the Otsu thresholds of the primary band, of the secondary band
    and of the linear-scale ratio, the radar classifier of version 1.1.0
    (and of 1.0.1 and 2.0.0, which repeat its text) returns a mask in which a
    pixel is water exactly when it is valid in both bands and at least
    [state.sarVotesRequired] of the three indicators agree; every other
    pixel is masked. *)
Theorem sar_water_iff_enough_votes {B : Backend} (st : State) (image : Image pixel)
    (tvv tvh tratio : Q) :
  V110.getOtsuThreshold st image "VV" = Ok tvv ->
  V110.getOtsuThreshold st image "VH" = Ok tvh ->
  V110.getOtsuThreshold st (V110.ratio image) "ratio" = Ok tratio ->
  exists mask,
    V110.detectWaterFromSAR st image = Ok mask /\
    forall p,
      (mask p = Some 1 \/ mask p = None) /\
      (mask p = Some 1 <->
       exists vv vh,
         image "VV" p = Some vv /\ image "VH" p = Some vh /\
         sarVotesRequired st
         <= inject_Z (Z.of_nat (agreeing (sarIndicators tvv tvh tratio vv vh)))).
Proof.
  intros Hvv Hvh Hr.
  destruct (sar_mask_pixel st image tvv tvh tratio Hvv Hvh Hr) as [mask [Hrun Hpix]].
  exists mask. split; [exact Hrun|]. intros p. rewrite (Hpix p).
  destruct (image "VV" p) as [vv|]; destruct (image "VH" p) as [vh|].
  - destruct (Qle_bool (sarVotesRequired st)
                (inject_Z (Z.of_nat (agreeing (sarIndicators tvv tvh tratio vv vh)))))
      eqn:E.
    + split; [left; reflexivity|]. split; [|reflexivity].
      intros _. exists vv, vh. repeat split. apply Qle_bool_iff. exact E.
    + split; [right; reflexivity|]. split; [discriminate|].
      intros [vv' [vh' [Hv [Hh Hle]]]].
      injection Hv as <-. injection Hh as <-.
      apply Qle_bool_iff in Hle. congruence.
  - split; [right; reflexivity|]. split; [discriminate|].
    intros [vv' [vh' [_ [Hh _]]]]. discriminate Hh.
  - split; [right; reflexivity|]. split; [discriminate|].
    intros [vv' [vh' [Hv _]]]. discriminate Hv.
  - split; [right; reflexivity|]. split; [discriminate|].
    intros [vv' [vh' [Hv _]]]. discriminate Hv.
Qed.

(** Version 1.0.0 has no vote setting: [.gt(1)] asks for two of the three
    indicators. *)
Lemma sar_majority_v100 {B : Backend} (st : State) (image : Image pixel)
    (tvv tvh tratio : Q) :
  V100.getOtsuThreshold st image "VV" = Ok tvv ->
  V100.getOtsuThreshold st image "VH" = Ok tvh ->
  V100.getOtsuThreshold st (V110.ratio image) "ratio" = Ok tratio ->
  exists mask,
    V100.detectWaterFromSAR st image = Ok mask /\
    forall p,
      mask p =
      match image "VV" p, image "VH" p with
      | Some vv, Some vh =>
          if (2 <=? agreeing (sarIndicators tvv tvh tratio vv vh))%nat
          then Some 1 else None
      | _, _ => None
      end.
Proof.
  intros Hvv Hvh Hr. unfold V100.detectWaterFromSAR.
  rewrite Hvv, Hvh. simpl bind. rewrite Hr. simpl bind.
  eexists. split; [reflexivity|]. intros p.
  cbv [Img.updateMask Img.gt Img.add Img.lt Img.map1 Img.map2
       Img.select V110.ratio Img.rename constantPow Img.divide Img.divideBy
       Img.constant option_map].
  change (String.eqb "ratio" "ratio") with true. cbv beta iota.
  destruct (image "VV" p) as [vv|]; destruct (image "VH" p) as [vh|];
    try reflexivity.
  unfold sarIndicators, agreeing, linear, EE.divide.
  destruct (Qlt_bool vv tvv); destruct (Qlt_bool vh tvh);
    destruct (Qlt_bool tratio (pow 10 (vv / 10) / pow 10 (vh / 10))); reflexivity.
Qed.

(** On the reference raster the thresholds are -10, -20 and 10, and the
    classifier returns a mask. *)
Lemma sar_votes_witness :
  exists mask : Band Z,
    V110.detectWaterFromSAR (B := Ref.backend)
      (Ref.defaultState Ref.footprint) Ref.sarImage = Ok mask /\
    forall p,
      (mask p = Some 1 \/ mask p = None) /\
      (mask p = Some 1 <->
       exists vv vh,
         Ref.sarImage "VV" p = Some vv /\ Ref.sarImage "VH" p = Some vh /\
         sarVotesRequired (Ref.defaultState Ref.footprint)
         <= inject_Z (Z.of_nat (agreeing
                                  (sarIndicators (B := Ref.backend)
                                     (-10) (-20) (100 # 10) vv vh)))).
Proof.
  apply (sar_water_iff_enough_votes (B := Ref.backend)
           (Ref.defaultState Ref.footprint) Ref.sarImage (-10) (-20) (100 # 10));
    vm_compute; reflexivity.
Defined.

Lemma getOtsuThreshold_withVotes {B : Backend} (st : State) (votes : Q)
    (img : Image pixel) (bandName : string) :
  V110.getOtsuThreshold (withVotes st votes) img bandName
  = V110.getOtsuThreshold st img bandName.
Proof. reflexivity. Qed.

(** The vote threshold is monotone: a pixel that is water under the larger
    threshold is water under the smaller one. *)
Lemma sar_votes_monotone {B : Backend} (st : State) (image : Image pixel)
    (low high : Q) (p : pixel) :
  low <= high ->
  isWater (V110.detectWaterFromSAR (withVotes st high) image) p ->
  isWater (V110.detectWaterFromSAR (withVotes st low) image) p.
Proof.
  intros Hle [mHigh [HrunHigh [v [Hp Hv]]]].
  destruct (V110.getOtsuThreshold st image "VV") as [tvv|e] eqn:Evv;
    [|unfold V110.detectWaterFromSAR in HrunHigh;
      rewrite getOtsuThreshold_withVotes, Evv in HrunHigh; discriminate].
  destruct (V110.getOtsuThreshold st image "VH") as [tvh|e] eqn:Evh;
    [|unfold V110.detectWaterFromSAR in HrunHigh;
      rewrite !getOtsuThreshold_withVotes, Evv, Evh in HrunHigh; discriminate].
  destruct (V110.getOtsuThreshold st (V110.ratio image) "ratio") as [tr|e] eqn:Er;
    [|unfold V110.detectWaterFromSAR in HrunHigh;
      rewrite !getOtsuThreshold_withVotes, Evv, Evh, Er in HrunHigh; discriminate].
  destruct (sar_mask_pixel (withVotes st high) image tvv tvh tr Evv Evh Er)
    as [mH [HrunH HpixH]].
  destruct (sar_mask_pixel (withVotes st low) image tvv tvh tr Evv Evh Er)
    as [mL [HrunL HpixL]].
  rewrite HrunH in HrunHigh. injection HrunHigh as <-.
  exists mL. split; [exact HrunL|].
  rewrite (HpixH p) in Hp. rewrite (HpixL p).
  destruct (image "VV" p) as [vv|]; [|discriminate].
  destruct (image "VH" p) as [vh|]; [|discriminate].
  simpl sarVotesRequired in *.
  destruct (Qle_bool high
              (inject_Z (Z.of_nat (agreeing (sarIndicators tvv tvh tr vv vh)))))
    eqn:EH; [|discriminate].
  apply Qle_bool_iff in EH.
  assert (EL : Qle_bool low
                 (inject_Z (Z.of_nat (agreeing (sarIndicators tvv tvh tr vv vh))))
               = true).
  { apply Qle_bool_iff. eapply Qle_trans; [exact Hle | exact EH]. }
  rewrite EL. exists 1. split; reflexivity.
Qed.

(** C9: for one input raster, every pixel the radar classifier marks as water
    with [sarVotesRequired = 3] it also marks as water with
    [sarVotesRequired = 1]. *)
Theorem sar_one_vote_superset_of_three {B : Backend} (st : State)
    (image : Image pixel) (p : pixel) :
  isWater (V110.detectWaterFromSAR (withVotes st 3) image) p ->
  isWater (V110.detectWaterFromSAR (withVotes st 1) image) p.
Proof.
  apply sar_votes_monotone. qcompare.
Qed.

(** Column 0 of the reference raster collects all three votes. *)
Lemma sar_three_votes_at_column_0 :
  isWater (V110.detectWaterFromSAR (B := Ref.backend)
             (withVotes (Ref.defaultState Ref.footprint) 3) Ref.sarImage) 0%Z.
Proof.
  destruct (sar_mask_pixel (B := Ref.backend)
              (withVotes (Ref.defaultState Ref.footprint) 3) Ref.sarImage
              (-10) (-20) (100 # 10)) as [m [Hrun Hpix]];
    try (vm_compute; reflexivity).
  exists m. split; [exact Hrun|].
  exists 1. split; [|reflexivity].
  rewrite (Hpix 0%Z). vm_compute. reflexivity.
Defined.

Lemma sar_superset_witness :
  isWater (V110.detectWaterFromSAR (B := Ref.backend)
             (withVotes (Ref.defaultState Ref.footprint) 3) Ref.sarImage) 0%Z /\
  isWater (V110.detectWaterFromSAR (B := Ref.backend)
             (withVotes (Ref.defaultState Ref.footprint) 1) Ref.sarImage) 0%Z.
Proof.
  split.
  - exact sar_three_votes_at_column_0.
  - apply (sar_one_vote_superset_of_three (B := Ref.backend)
             (Ref.defaultState Ref.footprint) Ref.sarImage 0%Z).
    exact sar_three_votes_at_column_0.
Defined.

(** ** The optical classifier *)

(** The sign rule of the automatic path, in both versions: below the
    threshold is water for ['Band8'], above it for every other index. *)
Lemma optical_automatic_sign_rule {B : Backend} (st : State) (image : Image pixel)
    (indexName : string) (threshold : Q) :
  useCustomThreshold st = false ->
  otsu (reduceRegion_histogram (calculateWaterIndex image indexName) (aoi st)
          10 (10 ^ 13))
  = Ok threshold ->
  let waterIndex := calculateWaterIndex image indexName in
  let ruled :=
    if String.eqb indexName "Band8" then Img.lt waterIndex threshold
    else Img.gt waterIndex threshold in
  V110.detectWaterFromOptical st image indexName = Ok ruled /\
  V200.detectWaterFromOptical st image indexName = Ok ruled.
Proof.
  intros Hauto Hthr. unfold V110.detectWaterFromOptical, V200.detectWaterFromOptical.
  rewrite Hauto, Hthr. simpl bind.
  destruct (String.eqb indexName "Band8"); split; reflexivity.
Qed.

(** With a custom threshold, version 2.0.0 applies the same sign rule. *)
Lemma optical_custom_sign_rule_v200 {B : Backend} (st : State) (image : Image pixel)
    (indexName : string) :
  useCustomThreshold st = true ->
  let waterIndex := calculateWaterIndex image indexName in
  V200.detectWaterFromOptical st image indexName
  = Ok (if String.eqb indexName "Band8" then Img.lt waterIndex (waterThreshold st)
        else Img.gt waterIndex (waterThreshold st)).
Proof.
  intros Hcustom. unfold V200.detectWaterFromOptical. rewrite Hcustom.
  destruct (String.eqb indexName "Band8"); reflexivity.
Qed.

(** With a custom threshold, versions 1.0.1 and 1.1.0 take above the
    threshold as water for every index, ['Band8'] included. *)
Lemma optical_custom_always_above_v110 {B : Backend} (st : State)
    (image : Image pixel) (indexName : string) :
  useCustomThreshold st = true ->
  V110.detectWaterFromOptical st image indexName
  = Ok (Img.gt (calculateWaterIndex image indexName) (waterThreshold st)) /\
  V101.detectWaterFromOptical st image indexName
  = Ok (Img.gt (calculateWaterIndex image indexName) (waterThreshold st)).
Proof.
  intros Hcustom. unfold V101.detectWaterFromOptical, V110.detectWaterFromOptical.
  rewrite Hcustom. split; reflexivity.
Qed.

(** C3 fails in version 1.1.0: with the custom threshold 0.2 and the index
    ['Band8'], the pixel of value 0.1 lies below the threshold and is not
    classified as water, and the pixel of value 0.3 is; version 2.0.0
    classifies the two pixels the other way round, as the sign rule asks. *)
Theorem optical_custom_threshold_band8_v110 :
  (exists mask : Band Z,
      V110.detectWaterFromOptical customThresholdState nirImage "Band8" = Ok mask /\
      mask 0%Z = Some 0 /\ mask 1%Z = Some 1) /\
  (exists mask : Band Z,
      V200.detectWaterFromOptical customThresholdState nirImage "Band8" = Ok mask /\
      mask 0%Z = Some 1 /\ mask 1%Z = Some 0).
Proof.
  split.
  - eexists. split; [reflexivity|]. split; vm_compute; reflexivity.
  - eexists. split; [reflexivity|]. split; vm_compute; reflexivity.
Qed.

(** ** Mask cleanup *)

Lemma truth_is_zero (b : bool) : Qeq_bool (truth b) 0 = negb b.
Proof. destruct b; reflexivity. Qed.

(** What survives the removal of small objects. *)
Lemma removeSmall_keeps {B : Backend} (minPixels : Q) (mask : Band pixel)
    (p : pixel) (v : Q) :
  removeSmall minPixels mask p = Some v <->
  mask p = Some v /\
  exists c, connectedPixelCount mask minPixels true p = Some c /\ minPixels <= c.
Proof.
  unfold removeSmall, Img.updateMask, Img.gte, Img.map1, option_map.
  destruct (mask p) as [w|];
    destruct (connectedPixelCount mask minPixels true p) as [c|].
  - rewrite truth_is_zero. destruct (Qle_bool minPixels c) eqn:E; simpl.
    + split.
      * intros H. split; [exact H|]. exists c. split; [reflexivity|].
        apply Qle_bool_iff; exact E.
      * intros [H _]; exact H.
    + split; [discriminate|].
      intros [_ [c' [Hc Hle]]]. injection Hc as <-.
      apply Qle_bool_iff in Hle. congruence.
  - split; [discriminate|]. intros [_ [c' [Hc _]]]. discriminate Hc.
  - split; [discriminate|]. intros [H _]. discriminate H.
  - split; [discriminate|]. intros [H _]. discriminate H.
Qed.

(** C5, as amended: cleanup first removes the pixels whose 8-connected run
    count is below [waterBodySizeThreshold] and only afterwards smooths, and
    the smoothing is a closing only: a max-filter followed by a min-filter
    with a circular kernel of radius [smoothingKernelSize], each repeated
    [smoothingIterations] times in version 2.0.0 and applied once in version
    1.1.0.  No opening follows. *)
Theorem cleanup_removes_small_then_closes {B : Backend} (st : State)
    (mask : Band pixel) :
  V200.cleaned st mask
  = closing (smoothingKernelSize st) (smoothingIterations st)
      (removeSmall (waterBodySizeThreshold st) mask) /\
  V110.cleaned st mask
  = closing (smoothingKernelSize st) 1
      (removeSmall (waterBodySizeThreshold st) mask) /\
  forall p v,
    removeSmall (waterBodySizeThreshold st) mask p = Some v <->
    mask p = Some v /\
    exists c,
      connectedPixelCount mask (waterBodySizeThreshold st) true p = Some c /\
      waterBodySizeThreshold st <= c.
Proof.
  split; [reflexivity|]. split; [reflexivity|].
  intros p v. apply removeSmall_keeps.
Qed.

(** C5 as stated fails: with a size threshold of 5 pixels, a kernel of
    radius 3 and one iteration, versions 2.0.0 and 1.1.0 keep a pond of five
    pixels (the closing leaves it as it is), whereas a closing followed by
    an opening erases it. *)
Lemma cleanup_applies_no_opening :
  V200.cleaned pondCleanupState pondMask 7%Z = Some 1 /\
  V110.cleaned pondCleanupState pondMask 7%Z = Some 1 /\
  cleanupAsSpecified pondCleanupState pondMask 7%Z = Some 0 /\
  V200.cleaned pondCleanupState pondMask
  <> cleanupAsSpecified pondCleanupState pondMask /\
  V110.cleaned pondCleanupState pondMask
  <> cleanupAsSpecified pondCleanupState pondMask.
Proof.
  assert (H200 : V200.cleaned pondCleanupState pondMask 7%Z = Some 1)
    by (vm_compute; reflexivity).
  assert (H110 : V110.cleaned pondCleanupState pondMask 7%Z = Some 1)
    by (vm_compute; reflexivity).
  assert (Hspec : cleanupAsSpecified pondCleanupState pondMask 7%Z = Some 0)
    by (vm_compute; reflexivity).
  split; [exact H200|]. split; [exact H110|]. split; [exact Hspec|]. split.
  - intros Heq. rewrite Heq, Hspec in H200. discriminate H200.
  - intros Heq. rewrite Heq, Hspec in H110. discriminate H110.
Qed.

(** ** The coastal filter *)

(** The tag of a line feature is the outcome of its intersection test. *)
Lemma toShoreline_tag {B : Backend} (margin : Q) (boundary : geometry)
    (feat : PolygonFeature) :
  propIsTrue (lineProps (toShoreline margin boundary feat)) "isCoastal"
  = intersects (lineCoords (toShoreline margin boundary feat)) boundary margin.
Proof.
  unfold toShoreline, setProp, propIsTrue. simpl.
  destruct (intersects (outerRing feat) boundary margin); reflexivity.
Qed.

Lemma filter_tagged {B : Backend} (margin : Q) (boundary : geometry)
    (polys : list PolygonFeature) :
  filter (fun f => propIsTrue (lineProps f) "isCoastal")
         (map (toShoreline margin boundary) polys)
  = filter (fun f => intersects (lineCoords f) boundary margin)
           (map (toShoreline margin boundary) polys).
Proof.
  apply filter_ext_in. intros f Hf.
  apply in_map_iff in Hf. destruct Hf as [feat [<- _]].
  apply toShoreline_tag.
Qed.

Lemma opp_times_1000 (q : Q) : - q * 1000 = - (q * 1000).
Proof.
  destruct q as [n d]. unfold Qopp, Qmult. simpl Qnum. simpl Qden.
  f_equal. lia.
Qed.

(** The lines that a vectoriser returns are the rings of its polygons that
    pass the intersection test, in order. *)
Lemma coastal_lines_of_polygons {B : Backend} (margin : Q) (boundary : geometry)
    (polys : list PolygonFeature) :
  map lineCoords
      (filter (fun f => propIsTrue (lineProps f) "isCoastal")
              (map (toShoreline margin boundary) polys))
  = filter (fun coords => intersects coords boundary margin) (map outerRing polys).
Proof.
  induction polys as [|feat polys IH]; [reflexivity|].
  cbn [map filter]. rewrite toShoreline_tag.
  change (lineCoords (toShoreline margin boundary feat)) with (outerRing feat).
  destruct (intersects (outerRing feat) boundary margin); cbn [map]; rewrite IH;
    reflexivity.
Qed.

(** Version 2.0.0 returns the rings that intersect the corridor of
    [coastalBuffer] metres; version 1.1.0 builds the corridor of
    [coastalBuffer] kilometres. *)
Lemma vectorizer_corridors {B : Backend} (st : State) (waterMask : Band pixel)
    (g : geometry) :
  map lineCoords (V200.vectorizeWaterMask st waterMask g)
  = filter (fun coords => intersects coords (coastalCorridor g (coastalBuffer st))
                            (1 # 2))
           (map outerRing (reduceToVectors (V200.cleaned st waterMask) g 5 true)) /\
  V110.aoiBoundary st g = coastalCorridor g (coastalBuffer st * 1000).
Proof.
  split.
  - unfold V200.vectorizeWaterMask, V200.taggedLines, V200.polygons.
    apply coastal_lines_of_polygons.
  - unfold V110.aoiBoundary, coastalCorridor. rewrite opp_times_1000. reflexivity.
Qed.


(** ** Rings of fewer than three vertices *)






(** ** The orchestrator without scenes *)

(** With scenes, the run stores a result for the method and publishes map
    layers. *)
Lemma processSentinel1_publishes {B : Backend} (startDate endDate : date)
    (st : State) (ui : Console) :
  sentinel1Scenes st startDate endDate <> [] ->
  let out := V110.processSentinel1 startDate endDate st ui in
  results (fst out) "sentinel1" <> None /\
  rawImage (fst out) <> None /\
  In "sentinel1 Water" (mapLayers (snd out)).
Proof.
  intros Hscenes. unfold V110.processSentinel1.
  destruct (sentinel1Scenes st startDate endDate) as [|scene rest]; [congruence|].
  simpl. repeat split; try discriminate.
  right. left. reflexivity.
Qed.

(** C7: when the catalog has no qualifying scene, each processing function of
    version 1.1.0 (and [processSentinel1] of version 1.0.1) ends in the
    failed state [failedNoImagery]: [state] is as it was, so no raw image
    and no result is stored, no map layer is added, the results panel is not
    shown, the failure is reported, and no step of classification or
    vectorization is announced. *)
Theorem no_scenes_no_results {B : Backend} (startDate endDate : date)
    (st : State) (ui : Console) :
  (sentinel1Scenes st startDate endDate = [] ->
   failedNoImagery st ui (V110.processSentinel1 startDate endDate st ui) /\
   statusPanel (snd (V110.processSentinel1 startDate endDate st ui))
   = [Label "No images found for the selected period" "red"]) /\
  (sentinel2Scenes st startDate endDate = [] ->
   failedNoImagery st ui (V110.processSentinel2 startDate endDate st ui) /\
   statusPanel (snd (V110.processSentinel2 startDate endDate st ui))
   = [Label "No images found within cloud cover limit" "red"]) /\
  (landsatScenes st startDate endDate = [] ->
   failedNoImagery st ui (V110.processLandsat startDate endDate st ui) /\
   statusPanel (snd (V110.processLandsat startDate endDate st ui))
   = [Label "No images found within cloud cover limit" "red"]) /\
  (sentinel1Scenes st startDate endDate = [] ->
   failedNoImagery st ui (V101.processSentinel1 startDate endDate st ui) /\
   progressPanel (snd (V101.processSentinel1 startDate endDate st ui))
   = [Label "No Sentinel-1 images found." ""]).
Proof.
  unfold failedNoImagery.
  split; [|split; [|split]]; intros Hnone.
  - unfold V110.processSentinel1. rewrite Hnone. repeat split.
  - unfold V110.processSentinel2. rewrite Hnone. repeat split.
  - unfold V110.processLandsat. rewrite Hnone. repeat split.
  - unfold V101.processSentinel1. rewrite Hnone. repeat split.
Qed.

(** No scene of the reference catalog falls between day 20 and day 30. *)
Lemma no_scenes_witness :
  failedNoImagery (Ref.defaultState Ref.footprint) Ref.emptyConsole
    (V110.processSentinel1 (B := Ref.backend) 20%Z 30%Z
       (Ref.defaultState Ref.footprint) Ref.emptyConsole) /\
  failedNoImagery (Ref.defaultState Ref.footprint) Ref.emptyConsole
    (V110.processSentinel2 (B := Ref.backend) 20%Z 30%Z
       (Ref.defaultState Ref.footprint) Ref.emptyConsole) /\
  failedNoImagery (Ref.defaultState Ref.footprint) Ref.emptyConsole
    (V110.processLandsat (B := Ref.backend) 20%Z 30%Z
       (Ref.defaultState Ref.footprint) Ref.emptyConsole) /\
  failedNoImagery (Ref.defaultState Ref.footprint) Ref.emptyConsole
    (V101.processSentinel1 (B := Ref.backend) 20%Z 30%Z
       (Ref.defaultState Ref.footprint) Ref.emptyConsole).
Proof.
  destruct (no_scenes_no_results (B := Ref.backend) 20%Z 30%Z
              (Ref.defaultState Ref.footprint) Ref.emptyConsole)
    as [H1 [H2 [H3 H4]]].
  split; [|split; [|split]].
  - apply H1. reflexivity.
  - apply H2. reflexivity.
  - apply H3. reflexivity.
  - apply H4. reflexivity.
Defined.

(** ** The Landsat classifier of version 2.0.0 *)

Lemma otsuThreshold_unbound :
  V200.lookupBinding (V200.moduleScope ++ V200.hostScope) "otsuThreshold" = None.
Proof. reflexivity. Qed.

(** C10: in version 2.0.0 the Landsat classifier raises a [ReferenceError]
    for [otsuThreshold] on every image and under every configuration; it
    never returns a water mask. *)
Theorem landsat_v200_always_fails {B : Backend} (st : State) (image : Image pixel) :
  V200.detectWaterFromLandsat st image = Throw (ReferenceError "otsuThreshold") /\
  forall mask, V200.detectWaterFromLandsat st image <> Ok mask.
Proof.
  assert (H : V200.detectWaterFromLandsat st image
              = Throw (ReferenceError "otsuThreshold")).
  { unfold V200.detectWaterFromLandsat, V200.callGlobal.
    rewrite otsuThreshold_unbound. reflexivity. }
  split; [exact H|]. intros mask Hmask. rewrite H in Hmask. discriminate Hmask.
Qed.

(** * Part III: further properties of the code *)

(** ** Otsu's method *)

(** X1: on a histogram whose two arrays have one length of at least 2,
    whatever the counts and whatever the rounding of the arithmetic, [otsu]
    ends without an error and returns the mean of one of the buckets
    [0 .. n-2], at a position where the sum of squares that the code
    computes is maximal: the position of the last bucket is never
    selected. *)
Theorem otsu_returns_a_mean_before_the_last {A : Arithmetic} (d : Histogram) :
  List.length (histogram d) = List.length (bucketMeans d) ->
  (2 <= List.length (bucketMeans d))%nat ->
  exists k : nat,
    (k < List.length (bucketMeans d) - 1)%nat /\
    otsu (Some d) = Ok (nth k (bucketMeans d) 0) /\
    forall j, (j < List.length (bucketMeans d) - 1)%nat ->
              codeVariance d (S j) <= codeVariance d (S k).
Proof.
  intros Hlen Hsize.
  destruct (otsu_position d Hlen Hsize) as [k [Hk [Hmax [_ Hrun]]]].
  exists k. split; [exact Hk|]. split; [exact Hrun|exact Hmax].
Qed.

Lemma otsu_returns_a_mean_before_the_last_witness :
  exists k : nat,
    (k < List.length (bucketMeans skewedHistogram) - 1)%nat /\
    otsu (A := Double.binary64) (Some skewedHistogram)
    = Ok (nth k (bucketMeans skewedHistogram) 0) /\
    forall j, (j < List.length (bucketMeans skewedHistogram) - 1)%nat ->
              codeVariance (A := Double.binary64) skewedHistogram (S j)
              <= codeVariance (A := Double.binary64) skewedHistogram (S k).
Proof.
  apply (otsu_returns_a_mean_before_the_last (A := Double.binary64) skewedHistogram).
  - reflexivity.
  - simpl; lia.
Defined.

(** X2: a histogram of two buckets has a single split, so [otsu] returns the
    mean of the first bucket whatever the two counts and the two means
    are. *)
Theorem otsu_two_buckets {A : Arithmetic} (c0 c1 m0 m1 : Q) :
  otsu (Some (mkHistogram [c0; c1] [m0; m1])) = Ok m0.
Proof.
  destruct (otsu_position (mkHistogram [c0; c1] [m0; m1]))
    as [k [Hk [_ [_ Hrun]]]]; [reflexivity | simpl; lia |].
  simpl in Hk. assert (k = 0%nat) by lia. subst k. exact Hrun.
Qed.

(** X3: through rounding, the threshold depends on the unit of the counts
    and on the unit of the values.  Over the means 0.1, 0.4 and 0.7 with one
    sample each, the sum of squares computed in double precision is larger
    for split 2 than for split 1, and [otsu] returns 0.4.  With three
    samples each it is larger for split 1, and [otsu] returns 0.1.  Over the
    means 1, 4 and 7 with one sample each the two computed values are equal,
    and [otsu] returns 1. *)
Theorem otsu_threshold_depends_on_rounding :
  codeVariance (A := Double.binary64) (mkHistogram [1; 1; 1] tenths) 1
  < codeVariance (A := Double.binary64) (mkHistogram [1; 1; 1] tenths) 2 /\
  otsu (A := Double.binary64) (Some (mkHistogram [1; 1; 1] tenths))
  = Ok (Double.round (4 # 10)) /\
  codeVariance (A := Double.binary64) (mkHistogram [3; 3; 3] tenths) 2
  < codeVariance (A := Double.binary64) (mkHistogram [3; 3; 3] tenths) 1 /\
  otsu (A := Double.binary64) (Some (mkHistogram [3; 3; 3] tenths))
  = Ok (Double.round (1 # 10)) /\
  codeVariance (A := Double.binary64) (mkHistogram [1; 1; 1] [1; 4; 7]) 1
  == codeVariance (A := Double.binary64) (mkHistogram [1; 1; 1] [1; 4; 7]) 2 /\
  otsu (A := Double.binary64) (Some (mkHistogram [1; 1; 1] [1; 4; 7])) = Ok 1.
Proof.
  split; [vm_compute; reflexivity|].
  split; [vm_compute; reflexivity|].
  split; [vm_compute; reflexivity|].
  split; [vm_compute; reflexivity|].
  split; vm_compute; reflexivity.
Qed.

(** ** The radar classifier outside the settings of the slider *)

Lemma agreeing_at_most_three {B : Backend} (tvv tvh tratio vv vh : Q) :
  (agreeing (sarIndicators tvv tvh tratio vv vh) <= 3)%nat.
Proof.
  unfold sarIndicators, agreeing.
  destruct (Qlt_bool vv tvv); destruct (Qlt_bool vh tvh);
    destruct (Qlt_bool tratio (linear vv / linear vh)); simpl; lia.
Qed.

(** X4: the vote count of a pixel lies between 0 and 3, so with
    [state.sarVotesRequired] above 3 the radar classifier of version 1.1.0
    masks every pixel, and with [state.sarVotesRequired] at or below 0 it
    marks as water every pixel that is valid in both bands, whatever the
    thresholds are. *)
Theorem sar_votes_outside_zero_to_three {B : Backend} (st : State)
    (image : Image pixel) (tvv tvh tratio : Q) :
  V110.getOtsuThreshold st image "VV" = Ok tvv ->
  V110.getOtsuThreshold st image "VH" = Ok tvh ->
  V110.getOtsuThreshold st (V110.ratio image) "ratio" = Ok tratio ->
  exists mask,
    V110.detectWaterFromSAR st image = Ok mask /\
    (3 < sarVotesRequired st -> forall p, mask p = None) /\
    (sarVotesRequired st <= 0 ->
     forall p, mask p = Some 1 <->
               exists vv vh, image "VV" p = Some vv /\ image "VH" p = Some vh).
Proof.
  intros Hvv Hvh Hr.
  destruct (sar_mask_pixel st image tvv tvh tratio Hvv Hvh Hr) as [mask [Hrun Hpix]].
  exists mask. split; [exact Hrun|]. split.
  - intros Hhigh p. rewrite (Hpix p).
    destruct (image "VV" p) as [vv|]; [|reflexivity].
    destruct (image "VH" p) as [vh|]; [|reflexivity].
    destruct (Qle_bool (sarVotesRequired st)
                (inject_Z (Z.of_nat (agreeing (sarIndicators tvv tvh tratio vv vh)))))
      eqn:E; [|reflexivity].
    exfalso. apply Qle_bool_iff in E.
    pose proof (agreeing_at_most_three tvv tvh tratio vv vh) as Hthree.
    assert (Hle : inject_Z (Z.of_nat (agreeing (sarIndicators tvv tvh tratio vv vh)))
                  <= 3).
    { change 3 with (inject_Z 3). rewrite <- Zle_Qle. lia. }
    apply (Qlt_irrefl 3).
    eapply Qlt_le_trans; [exact Hhigh|]. eapply Qle_trans; [exact E|exact Hle].
  - intros Hlow p. rewrite (Hpix p).
    destruct (image "VV" p) as [vv|].
    + destruct (image "VH" p) as [vh|].
      * assert (E : Qle_bool (sarVotesRequired st)
                      (inject_Z (Z.of_nat
                                   (agreeing (sarIndicators tvv tvh tratio vv vh))))
                    = true).
        { apply Qle_bool_iff. eapply Qle_trans; [exact Hlow|].
          change 0 with (inject_Z 0). rewrite <- Zle_Qle. lia. }
        rewrite E. split; [|reflexivity]. intros _. exists vv, vh. split; reflexivity.
      * split; [discriminate|]. intros [vv' [vh' [_ Hh]]]. discriminate Hh.
    + split; [discriminate|]. intros [vv' [vh' [Hv _]]]. discriminate Hv.
Qed.

Lemma sar_votes_outside_zero_to_three_witness :
  exists mask : Band Z,
    V110.detectWaterFromSAR (B := Ref.backend)
      (withVotes (Ref.defaultState Ref.footprint) 4) Ref.sarImage = Ok mask /\
    (3 < sarVotesRequired (withVotes (Ref.defaultState Ref.footprint) 4) ->
     forall p, mask p = None) /\
    (sarVotesRequired (withVotes (Ref.defaultState Ref.footprint) 4) <= 0 ->
     forall p, mask p = Some 1 <->
               exists vv vh, Ref.sarImage "VV" p = Some vv
                             /\ Ref.sarImage "VH" p = Some vh).
Proof.
  apply (sar_votes_outside_zero_to_three (B := Ref.backend)
           (withVotes (Ref.defaultState Ref.footprint) 4) Ref.sarImage
           (-10) (-20) (100 # 10));
    vm_compute; reflexivity.
Defined.

(** X5: version 1.0.0 has no vote setting: its radar classifier marks a pixel
    as water exactly when the pixel is valid in both bands and at least 2
    of the three indicators agree, and masks every other pixel. *)
Theorem sar_v100_water_iff_two_votes {B : Backend} (st : State)
    (image : Image pixel) (tvv tvh tratio : Q) :
  V100.getOtsuThreshold st image "VV" = Ok tvv ->
  V100.getOtsuThreshold st image "VH" = Ok tvh ->
  V100.getOtsuThreshold st (V110.ratio image) "ratio" = Ok tratio ->
  exists mask,
    V100.detectWaterFromSAR st image = Ok mask /\
    forall p,
      (mask p = Some 1 \/ mask p = None) /\
      (mask p = Some 1 <->
       exists vv vh,
         image "VV" p = Some vv /\ image "VH" p = Some vh /\
         (2 <= agreeing (sarIndicators tvv tvh tratio vv vh))%nat).
Proof.
  intros Hvv Hvh Hr.
  destruct (sar_majority_v100 st image tvv tvh tratio Hvv Hvh Hr) as [mask [Hrun Hpix]].
  exists mask. split; [exact Hrun|]. intros p. rewrite (Hpix p).
  destruct (image "VV" p) as [vv|]; destruct (image "VH" p) as [vh|].
  - destruct (2 <=? agreeing (sarIndicators tvv tvh tratio vv vh))%nat eqn:E.
    + split; [left; reflexivity|]. split; [|reflexivity].
      intros _. exists vv, vh. repeat split. apply Nat.leb_le. exact E.
    + split; [right; reflexivity|]. split; [discriminate|].
      intros [vv' [vh' [Hv [Hh Hle]]]].
      injection Hv as <-. injection Hh as <-.
      apply Nat.leb_le in Hle. congruence.
  - split; [right; reflexivity|]. split; [discriminate|].
    intros [vv' [vh' [_ [Hh _]]]]. discriminate Hh.
  - split; [right; reflexivity|]. split; [discriminate|].
    intros [vv' [vh' [Hv _]]]. discriminate Hv.
  - split; [right; reflexivity|]. split; [discriminate|].
    intros [vv' [vh' [Hv _]]]. discriminate Hv.
Qed.

Lemma sar_v100_water_iff_two_votes_witness :
  exists mask : Band Z,
    V100.detectWaterFromSAR (B := Ref.backend)
      (Ref.defaultState Ref.footprint) Ref.sarImage = Ok mask /\
    forall p,
      (mask p = Some 1 \/ mask p = None) /\
      (mask p = Some 1 <->
       exists vv vh,
         Ref.sarImage "VV" p = Some vv /\ Ref.sarImage "VH" p = Some vh /\
         (2 <= agreeing (sarIndicators (B := Ref.backend)
                           (-10) (-20) (100 # 10) vv vh))%nat).
Proof.
  apply (sar_v100_water_iff_two_votes (B := Ref.backend)
           (Ref.defaultState Ref.footprint) Ref.sarImage (-10) (-20) (100 # 10));
    vm_compute; reflexivity.
Defined.

(** ** The optical classifier *)

Lemma truth_zero_or_one (b : bool) : truth b = 0 \/ truth b = 1.
Proof. destruct b; [right|left]; reflexivity. Qed.

Lemma comparison_pixel {pixel : Type} (index : Band pixel) (t : Q) (p : pixel) :
  match index p with
  | None => Img.lt index t p = None /\ Img.gt index t p = None
  | Some _ =>
      (Img.lt index t p = Some 0 \/ Img.lt index t p = Some 1) /\
      (Img.gt index t p = Some 0 \/ Img.gt index t p = Some 1)
  end.
Proof.
  unfold Img.lt, Img.gt, Img.map1. destruct (index p) as [v|]; simpl.
  - split.
    + destruct (truth_zero_or_one (Qlt_bool v t)) as [E|E]; rewrite E; auto.
    + destruct (truth_zero_or_one (Qlt_bool t v)) as [E|E]; rewrite E; auto.
  - split; reflexivity.
Qed.

(** X7: a mask of the optical classifier (versions 1.1.0 and 2.0.0, custom
    or automatic threshold) is valid exactly where the water index is valid
    and holds 0 or 1 there: unlike the radar classifier, which masks every
    pixel that is not water, it keeps the land pixels as 0. *)
Theorem optical_mask_keeps_land_pixels {B : Backend} (st : State)
    (image : Image pixel) (indexName : string) (mask : Band pixel) :
  V110.detectWaterFromOptical st image indexName = Ok mask \/
  V200.detectWaterFromOptical st image indexName = Ok mask ->
  forall p,
    match calculateWaterIndex image indexName p with
    | None => mask p = None
    | Some _ => mask p = Some 0 \/ mask p = Some 1
    end.
Proof.
  intros Hrun p.
  pose proof (fun t => comparison_pixel (calculateWaterIndex image indexName) t p)
    as Hpix.
  unfold V110.detectWaterFromOptical, V200.detectWaterFromOptical in Hrun.
  destruct (useCustomThreshold st).
  - specialize (Hpix (waterThreshold st)).
    destruct (String.eqb indexName "Band8");
      destruct Hrun as [Hrun|Hrun]; injection Hrun as <-;
      destruct (calculateWaterIndex image indexName p); tauto.
  - destruct (otsu (reduceRegion_histogram (calculateWaterIndex image indexName)
                      (aoi st) 10 (10 ^ 13))) as [t|e];
      [|destruct Hrun as [Hrun|Hrun]; discriminate Hrun].
    specialize (Hpix t). cbn [bind] in Hrun.
    destruct (String.eqb indexName "Band8");
      destruct Hrun as [Hrun|Hrun]; injection Hrun as <-;
      destruct (calculateWaterIndex image indexName p); tauto.
Qed.

Lemma optical_mask_keeps_land_pixels_witness :
  V110.detectWaterFromOptical customThresholdState nirImage "Band8"
  = Ok (Img.gt (calculateWaterIndex nirImage "Band8") (2 # 10)) /\
  forall p : Z,
    match calculateWaterIndex nirImage "Band8" p with
    | None => Img.gt (calculateWaterIndex nirImage "Band8") (2 # 10) p = None
    | Some _ =>
        Img.gt (calculateWaterIndex nirImage "Band8") (2 # 10) p = Some 0 \/
        Img.gt (calculateWaterIndex nirImage "Band8") (2 # 10) p = Some 1
    end.
Proof.
  split; [reflexivity|].
  apply (optical_mask_keeps_land_pixels (B := Ref.backend)
           customThresholdState nirImage "Band8").
  left. reflexivity.
Defined.

Lemma eqb_not_in (x : string) (names : list string) (name : string) :
  ~ In x names -> In name names -> String.eqb x name = false.
Proof.
  intros Hout Hin. apply String.eqb_neq. intros E. subst x. exact (Hout Hin).
Qed.

(** X8: an index name that is none of the eight the [switch] of
    [calculateWaterIndex] lists falls to its [default] arm, so the optical
    classifier treats it as 'MNDWI', in both versions and both threshold
    modes. *)
Theorem optical_unknown_index_is_mndwi {B : Backend} (st : State)
    (image : Image pixel) (indexName : string) :
  ~ In indexName
       ["Band8"; "NDWI"; "MNDWI"; "AWEInsh"; "AWEIsh"; "SMBWI"; "WRI"; "NDWI2"] ->
  calculateWaterIndex image indexName = Img.normalizedDifference image "B3" "B11" /\
  V110.detectWaterFromOptical st image indexName
  = V110.detectWaterFromOptical st image "MNDWI" /\
  V200.detectWaterFromOptical st image indexName
  = V200.detectWaterFromOptical st image "MNDWI".
Proof.
  intros Hout.
  assert (Hindex : calculateWaterIndex image indexName
                   = Img.normalizedDifference image "B3" "B11").
  { unfold calculateWaterIndex.
    rewrite !(eqb_not_in indexName _ _ Hout) by (simpl; tauto). reflexivity. }
  assert (Hband8 : String.eqb indexName "Band8" = false)
    by (apply (eqb_not_in indexName _ _ Hout); simpl; tauto).
  split; [exact Hindex|].
  unfold V110.detectWaterFromOptical, V200.detectWaterFromOptical.
  rewrite Hindex, Hband8. split; reflexivity.
Qed.

Lemma optical_unknown_index_is_mndwi_witness :
  calculateWaterIndex nirImage "NDVI" = Img.normalizedDifference nirImage "B3" "B11" /\
  V110.detectWaterFromOptical customThresholdState nirImage "NDVI"
  = V110.detectWaterFromOptical customThresholdState nirImage "MNDWI" /\
  V200.detectWaterFromOptical customThresholdState nirImage "NDVI"
  = V200.detectWaterFromOptical customThresholdState nirImage "MNDWI".
Proof.
  apply (optical_unknown_index_is_mndwi (B := Ref.backend)
           customThresholdState nirImage "NDVI").
  simpl. intros H. repeat (destruct H as [H|H]; [discriminate H|]). exact H.
Defined.

Lemma Qlt_bool_false (a b : Q) : Qlt_bool a b = false -> b <= a.
Proof.
  unfold Qlt_bool. rewrite negb_false_iff. apply Qle_bool_iff.
Qed.

Lemma normalizedDifference_bounded {pixel : Type} (image : Image pixel)
    (b1 b2 : string) (p : pixel) (v : Q) :
  Img.normalizedDifference image b1 b2 p = Some v -> -1 <= v /\ v <= 1.
Proof.
  unfold Img.normalizedDifference, EE.divide.
  destruct (image b1 p) as [x|]; [|discriminate].
  destruct (image b2 p) as [y|]; [|discriminate].
  destruct (Qlt_bool x 0) eqn:Ex; [discriminate|].
  destruct (Qlt_bool y 0) eqn:Ey; [discriminate|].
  simpl. intros E. injection E as <-.
  apply Qlt_bool_false in Ex. apply Qlt_bool_false in Ey.
  destruct (Qeq_dec (x + y) 0) as [Hzero|Hpos].
  - unfold Qdiv. rewrite Hzero. setoid_replace (/ 0) with 0 by reflexivity.
    setoid_replace ((x - y) * 0) with 0 by ring. split; discriminate.
  - assert (Hsum : 0 < x + y).
    { apply Qnot_le_lt. intros Hle. apply Hpos. lra. }
    split.
    + apply Qle_shift_div_l; [exact Hsum|]. lra.
    + apply Qle_shift_div_r; [exact Hsum|]. lra.
Qed.

Lemma index_is_normalized_difference {pixel : Type} (image : Image pixel)
    (indexName : string) :
  ~ In indexName ["Band8"; "AWEInsh"; "AWEIsh"; "SMBWI"; "WRI"] ->
  exists b1 b2,
    calculateWaterIndex image indexName = Img.normalizedDifference image b1 b2.
Proof.
  intros Hout. unfold calculateWaterIndex.
  rewrite (eqb_not_in indexName _ "Band8" Hout) by (simpl; tauto).
  destruct (String.eqb indexName "NDWI"); [eexists; eexists; reflexivity|].
  destruct (String.eqb indexName "MNDWI"); [eexists; eexists; reflexivity|].
  rewrite (eqb_not_in indexName _ "AWEInsh" Hout) by (simpl; tauto).
  rewrite (eqb_not_in indexName _ "AWEIsh" Hout) by (simpl; tauto).
  rewrite (eqb_not_in indexName _ "SMBWI" Hout) by (simpl; tauto).
  rewrite (eqb_not_in indexName _ "WRI" Hout) by (simpl; tauto).
  destruct (String.eqb indexName "NDWI2"); eexists; eexists; reflexivity.
Qed.

(** X9: the indices that [calculateWaterIndex] computes with
    [normalizedDifference] ('NDWI', 'MNDWI', 'NDWI2' and every name that
    falls to the [default] arm) lie between -1 and 1 at every valid pixel,
    the range of the threshold slider; a pixel with a negative reflectance
    in one of the two bands is masked. *)
Theorem normalized_difference_index_in_slider_range {pixel : Type}
    (image : Image pixel) (indexName : string) (p : pixel) (v : Q) :
  ~ In indexName ["Band8"; "AWEInsh"; "AWEIsh"; "SMBWI"; "WRI"] ->
  calculateWaterIndex image indexName p = Some v ->
  -1 <= v /\ v <= 1.
Proof.
  intros Hout Hv.
  destruct (index_is_normalized_difference image indexName Hout) as [b1 [b2 E]].
  rewrite E in Hv. exact (normalizedDifference_bounded image b1 b2 p v Hv).
Qed.

Lemma normalized_difference_index_in_slider_range_witness :
  calculateWaterIndex greenSwirImage "MNDWI" 1%Z = Some (-2000 # 4000) /\
  -1 <= -2000 # 4000 /\ -2000 # 4000 <= 1.
Proof.
  split; [reflexivity|].
  apply (normalized_difference_index_in_slider_range greenSwirImage "MNDWI" 1%Z).
  - simpl. intros H. repeat (destruct H as [H|H]; [discriminate H|]). exact H.
  - reflexivity.
Defined.

(** X10: with a custom threshold at the upper end of the slider (1 or more)
    and a normalized-difference index, the optical classifier of either
    version finds no water pixel; with a custom threshold below -1 it marks
    every valid pixel as water. *)
Theorem optical_custom_threshold_extremes {B : Backend} (st : State)
    (image : Image pixel) (indexName : string) :
  useCustomThreshold st = true ->
  ~ In indexName ["Band8"; "AWEInsh"; "AWEIsh"; "SMBWI"; "WRI"] ->
  exists mask,
    V110.detectWaterFromOptical st image indexName = Ok mask /\
    V200.detectWaterFromOptical st image indexName = Ok mask /\
    (1 <= waterThreshold st -> forall p, mask p = None \/ mask p = Some 0) /\
    (waterThreshold st < -1 -> forall p, mask p = None \/ mask p = Some 1).
Proof.
  intros Hcustom Hout.
  exists (Img.gt (calculateWaterIndex image indexName) (waterThreshold st)).
  assert (Hband8 : String.eqb indexName "Band8" = false)
    by (apply (eqb_not_in indexName _ _ Hout); simpl; tauto).
  unfold V110.detectWaterFromOptical, V200.detectWaterFromOptical.
  rewrite Hcustom, Hband8. split; [reflexivity|]. split; [reflexivity|].
  split; intros Ht p; unfold Img.gt, Img.map1;
    destruct (calculateWaterIndex image indexName p) as [v|] eqn:Ev;
    try (left; reflexivity); right; simpl;
    destruct (index_is_normalized_difference image indexName Hout) as [b1 [b2 Hnd]];
    rewrite Hnd in Ev;
    destruct (normalizedDifference_bounded image b1 b2 p v Ev) as [Hlow Hhigh].
  - destruct (Qlt_bool (waterThreshold st) v) eqn:E; [|reflexivity].
    exfalso. apply Qlt_bool_iff in E. lra.
  - destruct (Qlt_bool (waterThreshold st) v) eqn:E; [reflexivity|].
    exfalso. apply Qlt_bool_false in E. lra.
Qed.

Lemma optical_custom_threshold_extremes_witness :
  exists mask : Band Z,
    V110.detectWaterFromOptical sliderMaxState greenSwirImage "MNDWI" = Ok mask /\
    V200.detectWaterFromOptical sliderMaxState greenSwirImage "MNDWI" = Ok mask /\
    (1 <= waterThreshold sliderMaxState ->
     forall p, mask p = None \/ mask p = Some 0) /\
    (waterThreshold sliderMaxState < -1 ->
     forall p, mask p = None \/ mask p = Some 1).
Proof.
  apply (optical_custom_threshold_extremes (B := Ref.backend)
           sliderMaxState greenSwirImage "MNDWI").
  - reflexivity.
  - simpl. intros H. repeat (destruct H as [H|H]; [discriminate H|]). exact H.
Defined.

(** ** The processing scale *)

(** X11: in version 1.1.0 no arm of the [switch] of [getAdaptiveScale] ends
    in a [break], so [baseScale] is 10 for every method, 'landsat'
    included, and the two increments add up: the scale is 10 up to
    100 km2, 30 above 100 km2 and 60 above 1000 km2.  In version 2.0.0
    every arm returns, and 'landsat' gets 15. *)
Theorem adaptive_scale_by_version {B : Backend} (g : geometry) (method : string) :
  V110.baseScale method = Some 10 /\
  V110.getAdaptiveScale g method
  == (if Qlt_bool 1000 (EE.divide (area g) (1000 * 1000)) then 60
      else if Qlt_bool 100 (EE.divide (area g) (1000 * 1000)) then 30
      else 10) /\
  V200.getAdaptiveScale g method
  = Some (if String.eqb method "landsat" then 15 else 10).
Proof.
  split; [|split].
  - unfold V110.baseScale, switch. cbn [fromCase fromDefault].
    destruct (String.eqb "sentinel2" method); [reflexivity|].
    destruct (String.eqb "sentinel1" method); [reflexivity|].
    destruct (String.eqb "landsat" method); reflexivity.
  - unfold V110.getAdaptiveScale.
    set (a := EE.divide (area g) (1000 * 1000)).
    destruct (Qlt_bool 1000 a) eqn:Ehigh; destruct (Qlt_bool 100 a) eqn:Elow;
      try (vm_compute; reflexivity).
    exfalso. apply Qlt_bool_iff in Ehigh. apply Qlt_bool_false in Elow. lra.
  - unfold V200.getAdaptiveScale, switch. cbn [fromCase fromDefault].
    rewrite (String.eqb_sym method "landsat").
    destruct (String.eqb "sentinel2" method) eqn:E2.
    + apply String.eqb_eq in E2. subst method. reflexivity.
    + destruct (String.eqb "sentinel1" method) eqn:E1.
      * apply String.eqb_eq in E1. subst method. reflexivity.
      * destruct (String.eqb "landsat" method); reflexivity.
Qed.

(** ** The vectoriser *)

Lemma filter_none {A : Type} (f : A -> bool) (l : list A) :
  (forall a, In a l -> f a = false) -> filter f l = [].
Proof.
  induction l as [|a l IH]; intros H; simpl; [reflexivity|].
  rewrite (H a (or_introl eq_refl)). apply IH.
  intros b Hb. apply H. right. exact Hb.
Qed.

(** X12: the vectoriser of version 1.1.0 keeps a polygon only when its
    property 'area' exceeds 1e4, and nothing in the script sets that
    property: when the polygons of [reduceToVectors] carry no 'area' (its
    default reducer sets 'label' and 'count'), the shoreline is empty
    whatever the water mask is. *)
Theorem vectorizer_v110_needs_area_property {B : Backend} (st : State)
    (waterMask : Band pixel) (g : geometry) :
  (forall feat, In feat (V110.vectors st waterMask g) ->
                getProp (polygonProps feat) "area" = None) ->
  V110.vectorizeWaterMask st waterMask g = [].
Proof.
  intros Hnone. unfold V110.vectorizeWaterMask, V110.taggedLines.
  rewrite (filter_none (fun feat => propGt (polygonProps feat) "area" 10000)).
  - reflexivity.
  - intros feat Hin. unfold propGt. rewrite (Hnone feat Hin). reflexivity.
Qed.

Lemma vectorizer_v110_needs_area_property_witness :
  V110.vectors pondCleanupState pondMask [(0, 1 # 10)] <> [] /\
  V110.vectorizeWaterMask pondCleanupState pondMask [(0, 1 # 10)] = [].
Proof.
  split; [vm_compute; discriminate|].
  apply (vectorizer_v110_needs_area_property (B := Ref.backend)
           pondCleanupState pondMask [(0, 1 # 10)]).
  vm_compute. intros feat H.
  repeat (destruct H as [H|H]; [subst feat; reflexivity|]). destruct H.
Defined.

Lemma length_List_sequence (n : Z) :
  List.length (EE.List_sequence 0 (n - 1)) = Z.to_nat n.
Proof.
  unfold EE.List_sequence. rewrite length_map, length_seq. f_equal. lia.
Qed.

Lemma length_flat_map_constant {A C : Type} (f : A -> list C) (l : list A) (n : nat) :
  (forall a, List.length (f a) = n) ->
  List.length (flat_map f l) = (List.length l * n)%nat.
Proof.
  intros H. induction l as [|a l IH]; simpl; [reflexivity|].
  rewrite length_app, H, IH. reflexivity.
Qed.

(** X13: the vectoriser of version 1.1.0 cuts the bounds into columns and
    rows of tiles, and the number of columns (of rows) is the ceiling of the
    width (the height) divided by 0.2 as [ee.Number] computes it, in double
    precision.  Rounding can add a column: the bounds from 0.2 to 0.8 are
    exactly three tile sizes wide, the difference is computed as
    0.6000000000000001, the quotient exceeds 3, and there are 4 columns, of
    which the last starts at the right edge of the bounds. *)
Theorem tile_count_follows_computed_quotient :
  (forall (B : Backend) (g : geometry),
      List.length (V110.tiles g)
      = Nat.mul
          (Z.to_nat
             (Qceiling
                (Number_divide
                   (Number_subtract (fst (nth 2 (bounds g) (0, 0)))
                                    (fst (nth 0 (bounds g) (0, 0))))
                   (double (2 # 10)))))
          (Z.to_nat
             (Qceiling
                (Number_divide
                   (Number_subtract (snd (nth 2 (bounds g) (0, 0)))
                                    (snd (nth 0 (bounds g) (0, 0))))
                   (double (2 # 10)))))) /\
  (Double.round (8 # 10) - Double.round (2 # 10)) / Double.round (2 # 10) == 3 /\
  3 < Double.divide (Double.subtract (Double.round (8 # 10)) (Double.round (2 # 10)))
                    (Double.round (2 # 10)) /\
  List.length (V110.tiles (B := Ref.backend) threeTilesRegion) = (4 * 5)%nat /\
  map (fun tile : Ref.Region => map fst tile)
      (skipn 15 (V110.tiles (B := Ref.backend) threeTilesRegion))
  = repeat [Double.round (8 # 10)] 5.
Proof.
  split.
  - intros B g. unfold V110.tiles.
    rewrite (length_flat_map_constant _ _
               (Z.to_nat
                  (Qceiling
                     (Number_divide
                        (Number_subtract (snd (nth 2 (bounds g) (0, 0)))
                                         (snd (nth 0 (bounds g) (0, 0))))
                        (double (2 # 10)))))).
    + rewrite length_List_sequence. reflexivity.
    + intros a. rewrite length_map. apply length_List_sequence.
  - split; [vm_compute; reflexivity|].
    split; [vm_compute; reflexivity|].
    split; vm_compute; reflexivity.
Qed.

Lemma coastal_lines_iff {B : Backend} (margin : Q) (boundary : geometry)
    (polys : list PolygonFeature) (f : LineFeature) :
  In f (filter (fun l => propIsTrue (lineProps l) "isCoastal")
               (map (toShoreline margin boundary) polys)) <->
  exists feat,
    In feat polys /\
    intersects (outerRing feat) boundary margin = true /\
    f = mkLineFeature (outerRing feat) [("isCoastal", PBool true)].
Proof.
  rewrite filter_In, in_map_iff. split.
  - intros [[feat [Hf Hin]] Hcoastal]. exists feat. split; [exact Hin|].
    subst f. rewrite toShoreline_tag in Hcoastal. cbn [toShoreline setProp lineCoords]
      in Hcoastal.
    split; [exact Hcoastal|].
    unfold toShoreline, setProp. cbn [lineCoords lineProps]. rewrite Hcoastal.
    reflexivity.
  - intros [feat [Hin [Hcoastal Hf]]]. subst f. split.
    + exists feat. split; [|exact Hin].
      unfold toShoreline, setProp. cbn [lineCoords lineProps]. rewrite Hcoastal.
      reflexivity.
    + reflexivity.
Qed.

(** X14: what a shoreline feature is, version by version.  A feature of the
    result is the outer ring of a polygon of the vectorisation whose
    intersection test succeeded, with the single property
    [isCoastal = true]: the holes and the properties of the polygon are
    dropped.  Version 2.0.0 tests against the corridor with margin 0.5,
    version 1.0.1 against the geometry itself with margin 0.5 and on a mask
    that is not smoothed, vectorised at the scale of the selected method
    (15 for 'landsat', 10 otherwise), version 1.1.0 against its corridor with
    margin 2 and only for polygons whose 'area' exceeds 1e4. *)
Theorem shoreline_features_by_version {B : Backend} (st : State)
    (waterMask : Band pixel) (g : geometry) (f : LineFeature) :
  (In f (V200.vectorizeWaterMask st waterMask g) <->
   exists feat,
     In feat (reduceToVectors (V200.cleaned st waterMask) g 5 true) /\
     intersects (outerRing feat) (V200.aoiBoundary st g) (1 # 2) = true /\
     f = mkLineFeature (outerRing feat) [("isCoastal", PBool true)]) /\
  (In f (V101.vectorizeWaterMask st waterMask g) <->
   exists feat,
     In feat (reduceToVectors (removeSmall (waterBodySizeThreshold st) waterMask)
                              g (V101.getAdaptiveScale g (shorelineMethod st)) true) /\
     intersects (outerRing feat) g (1 # 2) = true /\
     f = mkLineFeature (outerRing feat) [("isCoastal", PBool true)]) /\
  V101.getAdaptiveScale g (shorelineMethod st)
  = (if match shorelineMethod st with
        | Some method => String.eqb method "landsat"
        | None => false
        end
     then 15 else 10) /\
  (In f (V110.vectorizeWaterMask st waterMask g) <->
   exists feat,
     In feat (V110.vectors st waterMask g) /\
     propGt (polygonProps feat) "area" 10000 = true /\
     intersects (outerRing feat) (V110.aoiBoundary st g) 2 = true /\
     f = mkLineFeature (outerRing feat) [("isCoastal", PBool true)]).
Proof.
  split; [|split; [|split]].
  - unfold V200.vectorizeWaterMask, V200.taggedLines, V200.polygons.
    apply coastal_lines_iff.
  - unfold V101.vectorizeWaterMask, removeSmall.
    apply coastal_lines_iff.
  - unfold V101.getAdaptiveScale. destruct (shorelineMethod st) as [method|];
      [|reflexivity].
    destruct (String.eqb method "sentinel2") eqn:E2.
    + apply String.eqb_eq in E2. subst method. reflexivity.
    + destruct (String.eqb method "sentinel1") eqn:E1.
      * apply String.eqb_eq in E1. subst method. reflexivity.
      * destruct (String.eqb method "landsat"); reflexivity.
  - unfold V110.vectorizeWaterMask, V110.taggedLines.
    rewrite coastal_lines_iff. split.
    + intros [feat [Hin [Hcoastal Hf]]]. apply filter_In in Hin.
      exists feat. tauto.
    + intros [feat [Hin [Harea [Hcoastal Hf]]]]. exists feat.
      split; [apply filter_In; tauto | tauto].
Qed.

Lemma mapNoNulls_total {A C : Type} (f : A -> option C) (g : A -> C) (keep : A -> bool)
    (l : list A) :
  (forall a, f a = if keep a then Some (g a) else None) ->
  V200.mapNoNulls f l
  = if forallb keep l then Ok (map g l)
    else Throw (EEException "Collection.map: the mapped function returned null").
Proof.
  intros Hf. induction l as [|a l IH]; simpl; [reflexivity|].
  rewrite Hf. destruct (keep a); simpl; [|reflexivity].
  rewrite IH. destruct (forallb keep l); reflexivity.
Qed.

(** X15: [processCoastalTile] of version 2.0.0, which no function calls,
    ends with an error as soon as one polygon has an outer ring of fewer
    than 3 vertices (the mapped function returns null for it); otherwise it
    returns, in order, the rings that intersect the boundary with margin
    1. *)
Theorem processCoastalTile_all_or_nothing {B : Backend}
    (polys : list PolygonFeature) (boundary : geometry) :
  V200.processCoastalTile polys boundary
  = if forallb (fun feat => (3 <=? List.length (outerRing feat))%nat) polys
    then Ok (filter (fun f => intersects (lineCoords f) boundary 1)
                    (map (toShoreline 1 boundary) polys))
    else Throw (EEException "Collection.map: the mapped function returned null").
Proof.
  unfold V200.processCoastalTile.
  rewrite (mapNoNulls_total (V200.coastalTileFeature boundary)
             (toShoreline 1 boundary)
             (fun feat => (3 <=? List.length (outerRing feat))%nat)).
  - destruct (forallb (fun feat => (3 <=? List.length (outerRing feat))%nat) polys);
      [|reflexivity].
    cbn [bind]. rewrite filter_tagged. reflexivity.
  - intros feat. unfold V200.coastalTileFeature.
    destruct (3 <=? List.length (outerRing feat))%nat eqn:E.
    + apply Nat.leb_le in E.
      assert (H : (2 <? Z.of_nat (List.length (outerRing feat)))%Z = true)
        by (apply Z.ltb_lt; lia).
      rewrite H. reflexivity.
    + apply Nat.leb_gt in E.
      assert (H : (2 <? Z.of_nat (List.length (outerRing feat)))%Z = false)
        by (apply Z.ltb_ge; lia).
      rewrite H. reflexivity.
Qed.

(** X16: the vectoriser of version 1.0.0 cleans the mask as version 2.0.0
    does under the settings 100 / 1 / 1, vectorises at scale 30 and returns
    the outer ring of every polygon, coastal or not, as a line without
    properties: it has no coastal filter. *)
Theorem vectorizer_v100_keeps_every_ring {B : Backend} (st : State)
    (waterMask : Band pixel) (g : geometry) :
  waterBodySizeThreshold st = 100 ->
  smoothingKernelSize st = 1 ->
  smoothingIterations st = 1 ->
  map lineCoords (V100.vectorizeWaterMask waterMask g)
  = map outerRing (reduceToVectors (V200.cleaned st waterMask) g 30 true) /\
  Forall (fun f => lineProps f = []) (V100.vectorizeWaterMask waterMask g).
Proof.
  intros Hsize Hkernel Hiter. unfold V100.vectorizeWaterMask, V200.cleaned.
  rewrite Hsize, Hkernel, Hiter. split.
  - rewrite map_map. reflexivity.
  - apply Forall_forall. intros f Hf. apply in_map_iff in Hf.
    destruct Hf as [feat [<- _]]. reflexivity.
Qed.

Lemma vectorizer_v100_keeps_every_ring_witness :
  map lineCoords (V100.vectorizeWaterMask (B := Ref.backend) pondMask pondRegion)
  = map outerRing
        (reduceToVectors (V200.cleaned literalSettingsState pondMask)
                         pondRegion 30 true) /\
  Forall (fun f => lineProps f = [])
         (V100.vectorizeWaterMask (B := Ref.backend) pondMask pondRegion).
Proof.
  apply (vectorizer_v100_keeps_every_ring (B := Ref.backend)
           literalSettingsState pondMask pondRegion); reflexivity.
Defined.

(** ** Results, layers and the state *)

(** X17: the three check boxes of the results panel address the layers of
    the map by position (0, 1, 2).  After [displayResults] for one of the
    three methods with a raw image in [state], the positions hold the raw
    image, the water mask and the shoreline, as the labels of the check
    boxes say.  Without a raw image, or for any other method name, the map
    has two layers: 'Satellite Imagery' then addresses the water mask,
    'Water Mask' the shoreline, and 'Shoreline' no layer. *)
Theorem checkboxes_address_layers_by_position {B : Backend} (method : string)
    (water : outcome (Band pixel)) (shoreline : outcome (list LineFeature))
    (st : State) (ui : Console) :
  let layers := mapLayers (snd (displayResults method water shoreline st ui)) in
  (rawImage st <> None /\ In method ["sentinel1"; "sentinel2"; "landsat"] ->
   List.length layers = 3%nat /\
   imageryCheck layers
   = Some (method ++ (if String.eqb method "sentinel1" then " Raw SAR (VV)"
                      else " True Color"))%string /\
   waterCheck layers = Some (method ++ " Water")%string /\
   shorelineCheck layers = Some (method ++ " Shoreline")%string) /\
  (rawImage st = None \/ ~ In method ["sentinel1"; "sentinel2"; "landsat"] ->
   imageryCheck layers = Some (method ++ " Water")%string /\
   waterCheck layers = Some (method ++ " Shoreline")%string /\
   shorelineCheck layers = None).
Proof.
  cbn zeta. unfold displayResults. cbn [snd mapLayers updateStatus]. split.
  - intros [Hraw Hmethod]. destruct (rawImage st) as [raw|]; [|congruence].
    simpl in Hmethod.
    destruct Hmethod as [<-|[<-|[<-|[]]]]; cbn;
      repeat split; reflexivity.
  - intros Hnone.
    assert (E : match rawImage st with
                | Some _ =>
                    if String.eqb method "sentinel1"
                    then [(method ++ " Raw SAR (VV)")%string]
                    else if String.eqb method "sentinel2"
                         then [(method ++ " True Color")%string]
                         else if String.eqb method "landsat"
                              then [(method ++ " True Color")%string]
                              else []
                | None => []
                end = []).
    { destruct (rawImage st) as [raw|]; [|reflexivity].
      destruct Hnone as [Hnone|Hnone]; [discriminate Hnone|].
      rewrite !(eqb_not_in method _ _ Hnone) by (simpl; tauto). reflexivity. }
    rewrite E. cbn. repeat split; reflexivity.
Qed.

(** X18: [processLocalImage] calls [displayResults] with three arguments.
    Whatever the image, the result is stored under [state.results.local],
    the layers of the map are removed, and the missing progress panel then
    raises a [TypeError]: the function returns false with a red status
    line, and the map shows no layer, where the same call with a progress
    panel would have published the water mask and the shoreline. *)
Theorem local_image_is_never_displayed {B : Backend} (imagePath : string)
    (waterMask : outcome (Band pixel)) (clippedShoreline : outcome (list LineFeature))
    (st : State) (ui : Console) :
  let out := V110.processLocalImage imagePath waterMask clippedShoreline st ui in
  let shown :=
    displayResults "local" (w <- waterMask ;; Ok (clip w (aoi st))) clippedShoreline
                   st ui in
  snd out = false /\
  fst (fst out) = fst shown /\
  mapLayers (snd (fst out)) = [] /\
  mapLayers (snd shown) = ["local Water"; "local Shoreline"] /\
  resultsPanelShown (snd (fst out)) = resultsPanelShown ui /\
  exists msg,
    statusPanel (snd (fst out))
    = [Label ("Error processing local image: " ++ msg)%string "red"].
Proof.
  cbn zeta. unfold V110.processLocalImage, V110.displayResultsWithoutPanel, displayResults.
  cbn [fst snd mapLayers statusPanel resultsPanelShown updateStatus message
       progressPanel].
  split; [reflexivity|]. split; [reflexivity|]. split; [reflexivity|].
  split; [destruct (rawImage st); reflexivity|]. split; [reflexivity|].
  eexists. reflexivity.
Qed.

(** X19: a classification that cannot be computed does not stop a run.  When
    scenes are found and the radar classifier ends with an error on the
    composite, [processSentinel1] of version 1.1.0 still stores a result,
    whose water mask and shoreline both carry that error, publishes the
    three layers, opens the results panel and reports
    'Completed processing sentinel1 imagery' in black. *)
Theorem classification_error_still_completes {B : Backend} (startDate endDate : date)
    (st : State) (ui : Console) (e : error) :
  let collection := sentinel1Scenes st startDate endDate in
  let composite :=
    if String.eqb (compositeMethod st) "Mean" then collectionMean collection
    else collectionMedian collection in
  let image := clipImage composite (buffer (aoi st) 500) in
  collection <> [] ->
  V110.detectWaterFromSAR (setRawImage st image) image = Throw e ->
  let out := V110.processSentinel1 startDate endDate st ui in
  results (fst out) "sentinel1" = Some (mkResult (Throw e) (Throw e)) /\
  rawImage (fst out) = Some image /\
  mapLayers (snd out)
  = ["sentinel1 Raw SAR (VV)"; "sentinel1 Water"; "sentinel1 Shoreline"] /\
  resultsPanelShown (snd out) = true /\
  statusPanel (snd out) = [Label "Completed processing sentinel1 imagery" "black"].
Proof.
  intros collection composite image Hscenes Hfail. cbn zeta.
  unfold V110.processSentinel1. fold collection.
  destruct (Nat.eqb (List.length collection) 0) eqn:Ecount.
  - apply Nat.eqb_eq in Ecount. apply length_zero_iff_nil in Ecount. contradiction.
  - fold composite. fold image. rewrite Hfail.
    unfold displayResults. cbn. repeat split; reflexivity.
Qed.

Lemma classification_error_still_completes_witness :
  results (fst (V110.processSentinel1 (B := Ref.backend) 0%Z 20%Z
                  (Ref.defaultState [(20, 30)]) Ref.emptyConsole)) "sentinel1"
  = Some (mkResult (Throw (EEException "Dictionary.get: the dictionary is null"))
                   (Throw (EEException "Dictionary.get: the dictionary is null"))) /\
  rawImage (fst (V110.processSentinel1 (B := Ref.backend) 0%Z 20%Z
                   (Ref.defaultState [(20, 30)]) Ref.emptyConsole))
  = Some (clipImage (B := Ref.backend) (Ref.composite [Ref.sarImage])
                    (Ref.bufferRegion [(20, 30)] 500)) /\
  mapLayers (snd (V110.processSentinel1 (B := Ref.backend) 0%Z 20%Z
                    (Ref.defaultState [(20, 30)]) Ref.emptyConsole))
  = ["sentinel1 Raw SAR (VV)"; "sentinel1 Water"; "sentinel1 Shoreline"] /\
  resultsPanelShown (snd (V110.processSentinel1 (B := Ref.backend) 0%Z 20%Z
                            (Ref.defaultState [(20, 30)]) Ref.emptyConsole)) = true /\
  statusPanel (snd (V110.processSentinel1 (B := Ref.backend) 0%Z 20%Z
                      (Ref.defaultState [(20, 30)]) Ref.emptyConsole))
  = [Label "Completed processing sentinel1 imagery" "black"].
Proof.
  apply (classification_error_still_completes (B := Ref.backend) 0%Z 20%Z
           (Ref.defaultState [(20, 30)]) Ref.emptyConsole
           (EEException "Dictionary.get: the dictionary is null")).
  - vm_compute. discriminate.
  - vm_compute. reflexivity.
Defined.

Lemma displayResults_settings {B : Backend} (method : string)
    (water : outcome (Band pixel)) (shoreline : outcome (list LineFeature))
    (st : State) (image : Image pixel) (ui : Console) (other : string) :
  other <> method ->
  let st' := fst (displayResults method water shoreline (setRawImage st image) ui) in
  settings st' = settings st /\ results st' other = results st other.
Proof.
  intros Hother. cbn. apply String.eqb_neq in Hother. rewrite Hother.
  split; reflexivity.
Qed.

(** X20: a run of [processSentinel1], [processSentinel2] or [processLandsat]
    of version 1.1.0, successful or not, leaves every setting of [state] and
    the results stored for the other methods as they were: it writes
    [state.rawImage] and its own entry of [state.results] only. *)
Theorem processing_keeps_settings_and_other_results {B : Backend}
    (startDate endDate : date) (st : State) (ui : Console) (other : string) :
  (other <> "sentinel1" ->
   settings (fst (V110.processSentinel1 startDate endDate st ui)) = settings st /\
   results (fst (V110.processSentinel1 startDate endDate st ui)) other
   = results st other) /\
  (other <> "sentinel2" ->
   settings (fst (V110.processSentinel2 startDate endDate st ui)) = settings st /\
   results (fst (V110.processSentinel2 startDate endDate st ui)) other
   = results st other) /\
  (other <> "landsat" ->
   settings (fst (V110.processLandsat startDate endDate st ui)) = settings st /\
   results (fst (V110.processLandsat startDate endDate st ui)) other
   = results st other).
Proof.
  split; [|split]; intros Hother.
  - unfold V110.processSentinel1.
    destruct (Nat.eqb (List.length (sentinel1Scenes st startDate endDate)) 0).
    + split; reflexivity.
    + apply displayResults_settings. exact Hother.
  - unfold V110.processSentinel2.
    destruct (Nat.eqb (List.length (sentinel2Scenes st startDate endDate)) 0).
    + split; reflexivity.
    + apply displayResults_settings. exact Hother.
  - unfold V110.processLandsat.
    destruct (Nat.eqb (List.length (landsatScenes st startDate endDate)) 0).
    + split; reflexivity.
    + apply displayResults_settings. exact Hother.
Qed.

Lemma processing_keeps_settings_and_other_results_witness :
  settings (fst (V110.processSentinel1 (B := Ref.backend) 0%Z 20%Z
                   (Ref.defaultState Ref.footprint) Ref.emptyConsole))
  = settings (Ref.defaultState Ref.footprint) /\
  results (fst (V110.processSentinel1 (B := Ref.backend) 0%Z 20%Z
                  (Ref.defaultState Ref.footprint) Ref.emptyConsole)) "landsat"
  = results (Ref.defaultState Ref.footprint) "landsat".
Proof.
  destruct (processing_keeps_settings_and_other_results (B := Ref.backend) 0%Z 20%Z
              (Ref.defaultState Ref.footprint) Ref.emptyConsole "landsat")
    as [Hs1 _].
  apply Hs1. discriminate.
Defined.

(** ** The cloud cover limit *)

Lemma cloud_cover_after_presses {B : Backend} (st : State) (n : nat) :
  cloudCover st <= 100 ->
  cloudCover (Nat.iter n increaseCloudCoverLimit st)
  == Qmin 100 (cloudCover st + 10 * inject_Z (Z.of_nat n)).
Proof.
  intros Hmax. induction n as [|n IH].
  - change (Nat.iter 0 increaseCloudCoverLimit st) with st.
    change (inject_Z (Z.of_nat 0)) with 0.
    destruct (Q.min_spec 100 (cloudCover st + 10 * 0)) as [[H E]|[H E]];
      rewrite E; lra.
  - rewrite Nat.iter_succ. unfold increaseCloudCoverLimit at 1. cbn [cloudCover].
    rewrite Nat2Z.inj_succ. unfold Z.succ. rewrite inject_Z_plus.
    change (inject_Z 1) with 1.
    set (c := cloudCover (Nat.iter n increaseCloudCoverLimit st)) in *.
    set (k := inject_Z (Z.of_nat n)) in *.
    destruct (Q.min_spec 100 (cloudCover st + 10 * k)) as [[H1 E1]|[H1 E1]];
      rewrite E1 in IH;
      destruct (Q.min_spec 100 (c + 10)) as [[H2 E2]|[H2 E2]]; rewrite E2;
      destruct (Q.min_spec 100 (cloudCover st + 10 * (k + 1))) as [[H3 E3]|[H3 E3]];
      rewrite E3; lra.
Qed.

(** X21: the button 'Increase Cloud Cover Limit' adds 10 to
    [state.cloudCover] and caps it at 100.  From a limit between 0 and 100,
    any number of presses keeps the limit within that range and never
    lowers it, ten presses reach 100, and the settings other than the limit
    are not touched. *)
Theorem cloud_cover_limit_saturates {B : Backend} (st : State) (n : nat) :
  0 <= cloudCover st -> cloudCover st <= 100 ->
  let pressed := Nat.iter n increaseCloudCoverLimit st in
  cloudCover st <= cloudCover pressed /\
  cloudCover pressed <= 100 /\
  ((10 <= n)%nat -> cloudCover pressed == 100) /\
  sentinel2Scenes pressed
  = (fun startDate endDate =>
       imageCollection "COPERNICUS/S2" (buffer (aoi st) 500) startDate endDate
         [propertyLt "CLOUDY_PIXEL_PERCENTAGE" (cloudCover pressed)]).
Proof.
  intros Hmin Hmax pressed.
  pose proof (cloud_cover_after_presses st n Hmax) as Hn. fold pressed in Hn.
  assert (Hk : 0 <= inject_Z (Z.of_nat n)).
  { change 0 with (inject_Z 0). rewrite <- Zle_Qle. lia. }
  destruct (Q.min_spec 100 (cloudCover st + 10 * inject_Z (Z.of_nat n)))
    as [[H E]|[H E]]; rewrite E in Hn.
  - split; [lra|]. split; [lra|]. split; [intros _; exact Hn|].
    assert (Haoi : aoi pressed = aoi st).
    { unfold pressed. clear. induction n as [|n IH]; [reflexivity|].
      rewrite Nat.iter_succ. exact IH. }
    unfold sentinel2Scenes. rewrite Haoi. reflexivity.
  - split; [lra|]. split; [lra|]. split.
    + intros Hten.
      assert (H10 : 10 <= inject_Z (Z.of_nat n)).
      { change 10 with (inject_Z 10). rewrite <- Zle_Qle. lia. }
      lra.
    + assert (Haoi : aoi pressed = aoi st).
      { unfold pressed. clear. induction n as [|n IH]; [reflexivity|].
      rewrite Nat.iter_succ. exact IH. }
      unfold sentinel2Scenes. rewrite Haoi. reflexivity.
Qed.

Lemma cloud_cover_limit_saturates_witness :
  cloudCover (Ref.defaultState Ref.footprint)
  <= cloudCover (Nat.iter 10 increaseCloudCoverLimit (Ref.defaultState Ref.footprint)) /\
  cloudCover (Nat.iter 10 increaseCloudCoverLimit (Ref.defaultState Ref.footprint))
  <= 100 /\
  ((10 <= 10)%nat ->
   cloudCover (Nat.iter 10 increaseCloudCoverLimit (Ref.defaultState Ref.footprint))
   == 100) /\
  sentinel2Scenes (Nat.iter 10 increaseCloudCoverLimit (Ref.defaultState Ref.footprint))
  = (fun startDate endDate =>
       imageCollection "COPERNICUS/S2"
         (buffer (aoi (Ref.defaultState Ref.footprint)) 500) startDate endDate
         [propertyLt "CLOUDY_PIXEL_PERCENTAGE"
            (cloudCover (Nat.iter 10 increaseCloudCoverLimit
                           (Ref.defaultState Ref.footprint)))]).
Proof.
  apply (cloud_cover_limit_saturates (B := Ref.backend)
           (Ref.defaultState Ref.footprint) 10); vm_compute; discriminate.
Defined.

(** ** The progressive display of the shoreline (version 2.0.0) *)

Lemma firstn_next_batch {A : Type} (l : list A) (a b : nat) :
  (a <= b)%nat -> firstn a l ++ firstn (b - a) (skipn a l) = firstn b l.
Proof.
  revert l b. induction a as [|a IH]; intros l b Hab.
  - simpl. rewrite Nat.sub_0_r. reflexivity.
  - destruct l as [|x l].
    + rewrite !firstn_nil. reflexivity.
    + destruct b as [|b]; [lia|]. simpl. f_equal. apply IH. lia.
Qed.

Lemma batchSizeFor_positive (count : nat) : (0 < V200.batchSizeFor count)%nat.
Proof.
  unfold V200.batchSizeFor.
  destruct (5000 <? count)%nat; destruct (1000 <? count)%nat; lia.
Qed.

(** The layer after batch [k + 1] has been handled, when it held the first
    [k] batches before. *)
Lemma loadBatch_layer (shoreline : list LineFeature) (batchSize k last : nat)
    (view : V200.Visualization) :
  (k * batchSize <= last)%nat ->
  V200.shorelineLayer view = Some (firstn (k * batchSize) shoreline) ->
  match V200.toList shoreline (last - k * batchSize) (k * batchSize) with
  | [] => V200.shorelineLayer view
  | _ :: _ =>
      if (k + 1 =? 1)%nat
      then Some (V200.toList shoreline (last - k * batchSize) (k * batchSize))
      else match V200.shorelineLayer view with
           | Some currentFeatures =>
               Some (currentFeatures
                     ++ V200.toList shoreline (last - k * batchSize) (k * batchSize))
           | None => None
           end
  end = Some (firstn last shoreline).
Proof.
  intros Hlast Hlayer.
  rewrite <- (firstn_next_batch shoreline (k * batchSize) last Hlast).
  unfold V200.toList. rewrite Hlayer.
  destruct (firstn (last - k * batchSize) (skipn (k * batchSize) shoreline))
    as [|x batch] eqn:E.
  - rewrite app_nil_r. reflexivity.
  - destruct (k + 1 =? 1)%nat eqn:Ek; [|reflexivity].
    apply Nat.eqb_eq in Ek. assert (k = 0%nat) by lia. subst k. reflexivity.
Qed.

(** The state after the call of [loadBatch] for batch [k + 1] and [timers]
    further callbacks, when the layer holds the first [k] batches. *)
Lemma loadBatch_prefix (shoreline : list LineFeature) (batchSize totalBatches : nat) :
  (0 < batchSize)%nat ->
  forall (timers k : nat) (view : V200.Visualization),
    (k * batchSize < List.length shoreline)%nat ->
    V200.shorelineLayer view = Some (firstn (k * batchSize) shoreline) ->
    let out :=
      V200.loadBatch timers shoreline (List.length shoreline) batchSize totalBatches
        (k * batchSize) (Nat.min ((k + 1) * batchSize) (List.length shoreline))
        (k + 1) view in
    V200.shorelineLayer out = Some (firstn ((k + timers + 1) * batchSize) shoreline) /\
    V200.complete out = (List.length shoreline <=? (k + timers + 1) * batchSize)%nat /\
    V200.loadingLabel out
    = if V200.complete out then "Shoreline visualization complete"
      else V200.batchLabel (k + timers + 1) totalBatches.
Proof.
  intros Hsize timers.
  induction timers as [|timers IH]; intros k view Hk Hlayer; cbn zeta;
    cbn [V200.loadBatch];
    rewrite (loadBatch_layer shoreline batchSize k _ view) by (exact Hlayer || nia);
    destruct (Nat.ltb_spec (k * batchSize + batchSize) (List.length shoreline))
      as [Hmore|Hlast];
    cbn [V200.shorelineLayer V200.complete V200.loadingLabel].
  - (* the next batch waits for its timer *)
    replace (k + 0 + 1)%nat with (k + 1)%nat by lia.
    rewrite Nat.min_l by nia. split; [reflexivity|]. split; [|reflexivity].
    symmetry. apply Nat.leb_gt. nia.
  - (* batch [k + 1] was the last one *)
    rewrite Nat.min_r by nia. rewrite firstn_all. split.
    + f_equal. symmetry. apply firstn_all2. nia.
    + split; [|reflexivity]. symmetry. apply Nat.leb_le. nia.
  - (* the timer fires: batch [k + 2] *)
    replace (k * batchSize + batchSize)%nat with ((k + 1) * batchSize)%nat by nia.
    replace (k * batchSize + 2 * batchSize)%nat with ((k + 1 + 1) * batchSize)%nat
      by nia.
    replace (k + S timers + 1)%nat with (k + 1 + timers + 1)%nat by lia.
    apply IH; [nia|].
    cbn [V200.shorelineLayer]. rewrite Nat.min_l by nia. reflexivity.
  - rewrite Nat.min_r by nia. rewrite firstn_all. split.
    + f_equal. symmetry. apply firstn_all2. nia.
    + split; [|reflexivity]. symmetry. apply Nat.leb_le. nia.
Qed.

(** X22: [progressiveShorelineVisualization] of version 2.0.0 shows the
    shoreline by prefixes.  For a collection that is not empty, after the
    first call of [loadBatch] and [timers] further callbacks the layer
    holds the first [(timers + 1) * batchSize] features in their order,
    nothing is lost or repeated at the batch borders, and the run is
    complete exactly when that count reaches the size of the collection;
    the layer then holds the whole collection. *)
Theorem progressive_visualization_shows_prefixes (timers : nat)
    (shoreline : list LineFeature) (method : string) :
  shoreline <> [] ->
  let count := List.length shoreline in
  let batchSize := V200.batchSizeFor count in
  let out := V200.progressiveShorelineVisualization timers shoreline method in
  V200.shorelineLayer out = Some (firstn ((timers + 1) * batchSize) shoreline) /\
  V200.complete out = (count <=? (timers + 1) * batchSize)%nat /\
  (V200.complete out = true ->
   V200.shorelineLayer out = Some shoreline /\
   V200.loadingLabel out = "Shoreline visualization complete").
Proof.
  intros Hsome count batchSize out.
  assert (Hcount : (0 < count)%nat).
  { unfold count. destruct shoreline; [contradiction|simpl; lia]. }
  pose proof (batchSizeFor_positive count) as Hsize. fold batchSize in Hsize.
  destruct (loadBatch_prefix shoreline batchSize
              (V200.totalBatchesFor count batchSize) Hsize timers 0
              (V200.mkVisualization (Some [])
                 (V200.batchLabel 0 (V200.totalBatchesFor count batchSize)) false))
    as [Hlayer [Hdone Hlabel]]; [simpl; exact Hcount | reflexivity |].
  assert (Eout : out
                 = V200.loadBatch timers shoreline count batchSize
                     (V200.totalBatchesFor count batchSize) (0 * batchSize)
                     (Nat.min ((0 + 1) * batchSize) count) (0 + 1)
                     (V200.mkVisualization (Some [])
                        (V200.batchLabel 0 (V200.totalBatchesFor count batchSize))
                        false)).
  { unfold out, V200.progressiveShorelineVisualization. fold count.
    destruct (count =? 0)%nat eqn:E; [apply Nat.eqb_eq in E; lia|].
    fold batchSize. simpl Nat.mul. rewrite Nat.add_0_r. reflexivity. }
  fold count in Hlayer, Hdone, Hlabel. rewrite <- Eout in Hlayer, Hdone, Hlabel.
  simpl Nat.add in Hlayer, Hdone, Hlabel.
  split; [exact Hlayer|]. split; [exact Hdone|].
  intros Hcomplete. split.
  - rewrite Hlayer. f_equal. apply firstn_all2.
    rewrite Hcomplete in Hdone. symmetry in Hdone. apply Nat.leb_le in Hdone.
    exact Hdone.
  - rewrite Hlabel, Hcomplete. reflexivity.
Qed.

Lemma progressive_visualization_shows_prefixes_witness :
  V200.shorelineLayer (V200.progressiveShorelineVisualization 1 longShoreline "sentinel2")
  = Some (firstn ((1 + 1) * V200.batchSizeFor (List.length longShoreline))
                 longShoreline) /\
  V200.complete (V200.progressiveShorelineVisualization 1 longShoreline "sentinel2")
  = (List.length longShoreline
     <=? (1 + 1) * V200.batchSizeFor (List.length longShoreline))%nat /\
  (V200.complete (V200.progressiveShorelineVisualization 1 longShoreline "sentinel2")
   = true ->
   V200.shorelineLayer
     (V200.progressiveShorelineVisualization 1 longShoreline "sentinel2")
   = Some longShoreline /\
   V200.loadingLabel
     (V200.progressiveShorelineVisualization 1 longShoreline "sentinel2")
   = "Shoreline visualization complete").
Proof.
  apply (progressive_visualization_shows_prefixes 1 longShoreline "sentinel2").
  vm_compute. discriminate.
Defined.

Lemma ceiling_quotient_le (count batchSize n : nat) :
  (0 < batchSize)%nat ->
  (V200.totalBatchesFor count batchSize <= n)%nat <-> (count <= n * batchSize)%nat.
Proof.
  intros Hsize. unfold V200.totalBatchesFor.
  set (x := inject_Z (Z.of_nat count) / inject_Z (Z.of_nat batchSize)).
  assert (Hb : 0 < inject_Z (Z.of_nat batchSize)).
  { change 0 with (inject_Z 0). rewrite <- Zlt_Qlt. lia. }
  assert (Hx : 0 <= x).
  { unfold x. apply Qle_shift_div_l; [exact Hb|].
    setoid_replace (0 * inject_Z (Z.of_nat batchSize)) with 0 by ring.
    change 0 with (inject_Z 0). rewrite <- Zle_Qle. lia. }
  assert (Hbound : x <= inject_Z (Z.of_nat n) <-> (count <= n * batchSize)%nat).
  { unfold x. split.
    - intros H.
      assert (H' : inject_Z (Z.of_nat count)
                   <= inject_Z (Z.of_nat n) * inject_Z (Z.of_nat batchSize)).
      { setoid_replace (inject_Z (Z.of_nat count))
          with (inject_Z (Z.of_nat count) / inject_Z (Z.of_nat batchSize)
                * inject_Z (Z.of_nat batchSize))
          by (field; intros E; rewrite E in Hb; exact (Qlt_irrefl 0 Hb)).
        apply Qmult_le_compat_r; [exact H | apply Qlt_le_weak; exact Hb]. }
      rewrite <- inject_Z_mult, <- Zle_Qle in H'. nia.
    - intros H. apply Qle_shift_div_r; [exact Hb|].
      rewrite <- inject_Z_mult, <- Zle_Qle. nia. }
  rewrite <- Hbound. split.
  - intros H. eapply Qle_trans; [apply Qle_ceiling|].
    rewrite <- Zle_Qle. lia.
  - intros H. apply Qceiling_resp_le in H. rewrite Qceiling_Z in H. lia.
Qed.

(** X23: the count of batches that the loading label announces,
    [Math.ceil(count / batchSize)], is the count of calls of [loadBatch] a
    run makes: the run is complete after [timers] callbacks exactly when
    [timers + 1] has reached that count, with batches of 100 features up to
    1000 features, of 200 up to 5000 and of 500 above. *)
Theorem progressive_visualization_takes_total_batches (timers : nat)
    (shoreline : list LineFeature) (method : string) :
  shoreline <> [] ->
  let count := List.length shoreline in
  let batchSize := V200.batchSizeFor count in
  (V200.complete (V200.progressiveShorelineVisualization timers shoreline method)
   = true <->
   (V200.totalBatchesFor count batchSize <= timers + 1)%nat) /\
  batchSize = (if (count <=? 1000)%nat then 100
               else if (count <=? 5000)%nat then 200 else 500)%nat.
Proof.
  intros Hsome count batchSize. split.
  - assert (Hcount : (0 < count)%nat).
    { unfold count. destruct shoreline; [contradiction|simpl; lia]. }
    pose proof (batchSizeFor_positive count) as Hsize. fold batchSize in Hsize.
    rewrite (ceiling_quotient_le count batchSize (timers + 1) Hsize).
    unfold V200.progressiveShorelineVisualization. fold count.
    destruct (count =? 0)%nat eqn:E; [apply Nat.eqb_eq in E; lia|].
    fold batchSize.
    destruct (loadBatch_prefix shoreline batchSize
                (V200.totalBatchesFor count batchSize) Hsize timers 0
                (V200.mkVisualization (Some [])
                   (V200.batchLabel 0 (V200.totalBatchesFor count batchSize)) false))
      as [_ [Hdone _]]; [simpl; exact Hcount | reflexivity |].
    fold count in Hdone. simpl Nat.mul in Hdone. simpl Nat.add in Hdone.
    rewrite Nat.add_0_r in Hdone. rewrite Hdone. apply Nat.leb_le.
  - unfold batchSize, V200.batchSizeFor.
    destruct (Nat.ltb_spec 5000 count); destruct (Nat.ltb_spec 1000 count);
      destruct (Nat.leb_spec count 1000); destruct (Nat.leb_spec count 5000);
      try reflexivity; lia.
Qed.

Lemma progressive_visualization_takes_total_batches_witness :
  (V200.complete (V200.progressiveShorelineVisualization 2 longShoreline "sentinel2")
   = true <->
   (V200.totalBatchesFor (List.length longShoreline)
      (V200.batchSizeFor (List.length longShoreline)) <= 2 + 1)%nat) /\
  V200.batchSizeFor (List.length longShoreline)
  = (if (List.length longShoreline <=? 1000)%nat then 100
     else if (List.length longShoreline <=? 5000)%nat then 200 else 500)%nat.
Proof.
  apply (progressive_visualization_takes_total_batches 2 longShoreline "sentinel2").
  vm_compute. discriminate.
Defined.

(** ** The slope module *)

(** X24: the button 'Calculate Slope' never computes a slope.  Its handler
    calls [calculateCoastalSlope], whose first statement reports progress
    through the function it was given; that function opens the results page
    at once, and the results page reads [state.slopeImage], which is still
    null.  So whenever [state.slopeImage] is null, the handler ends with a
    [TypeError]; no slope image, coastal zone or map layer has been set, so
    that the next press fails alike; and the panel is left with labels only,
    without a button.  With a DEM selected, the panel shows the header of
    the results and 'Calculating statistics...', and the one message logged
    is the announcement of the calculation. *)
Theorem calculate_slope_never_computes (st : Slope.State) (ui : Slope.Screen) :
  Slope.slopeImage st = None ->
  (exists msg, snd (Slope.onCalculateSlope st ui) = Some (TypeError msg)) /\
  Slope.slopeImage (fst (fst (Slope.onCalculateSlope st ui))) = None /\
  Slope.slopeCalculated (fst (fst (Slope.onCalculateSlope st ui)))
  = Slope.slopeCalculated st /\
  Slope.coastalZone (fst (fst (Slope.onCalculateSlope st ui))) = Slope.coastalZone st /\
  Slope.layers (snd (fst (Slope.onCalculateSlope st ui))) = Slope.layers ui /\
  (forall w, In w (Slope.contentPanel (snd (fst (Slope.onCalculateSlope st ui)))) ->
             exists text color, w = Label text color) /\
  (forall dem, Slope.selectedDEM st = Some dem ->
     Slope.onCalculateSlope st ui
     = (Slope.mkState (Some dem) (Slope.bufferDistance st) (Slope.slopeCalculated st)
                      None (Slope.coastalZone st) 3,
        Slope.mkScreen
          [Label (ICONS_results ++ " Slope Analysis Results")%string "";
           Label "Calculating statistics..." "#2196F3"]
          (Slope.statusLog ui
           ++ [(("Calculating coastal slope using " ++ Slope.label dem ++ "...")%string,
                false)])
          (Slope.layers ui),
        Some (TypeError "Cannot read properties of null (reading 'reduceRegion')"))).
Proof.
  intros Hnull.
  unfold Slope.onCalculateSlope, Slope.calculateCoastalSlope.
  destruct (Slope.selectedDEM st) as [dem|] eqn:Edem.
  - unfold Slope.statusCallback, Slope.showResultsPage. cbn. rewrite Hnull. cbn.
    repeat split; try reflexivity.
    + eexists. reflexivity.
    + intros w [<-|[<-|[]]]; eexists; eexists; reflexivity.
    + intros dem' Hdem. injection Hdem as <-. rewrite Edem. reflexivity.
  - cbn. repeat split; try reflexivity; try exact Hnull.
    + eexists. reflexivity.
    + intros w [<-|[<-|[]]]; eexists; eexists; reflexivity.
    + intros dem Hdem. discriminate Hdem.
Qed.

(** After the selection of the first elevation model, in the state in which
    the module opens. *)
Lemma calculate_slope_never_computes_witness :
  (exists msg,
      snd (Slope.onCalculateSlope
             (Slope.onSelectDEM (nth 0 Slope.demSources (Slope.mkDEM "" "" "" "" 0))
                                Slope.initialState)
             slopeScreen)
      = Some (TypeError msg)) /\
  Slope.slopeImage
    (fst (fst (Slope.onCalculateSlope
                 (Slope.onSelectDEM (nth 0 Slope.demSources (Slope.mkDEM "" "" "" "" 0))
                                    Slope.initialState)
                 slopeScreen))) = None /\
  Slope.layers
    (snd (fst (Slope.onCalculateSlope
                 (Slope.onSelectDEM (nth 0 Slope.demSources (Slope.mkDEM "" "" "" "" 0))
                                    Slope.initialState)
                 slopeScreen))) = ["Shoreline"].
Proof.
  destruct (calculate_slope_never_computes
              (Slope.onSelectDEM (nth 0 Slope.demSources (Slope.mkDEM "" "" "" "" 0))
                                 Slope.initialState)
              slopeScreen)
    as [Hraised [Himage [_ [_ [Hlayers _]]]]].
  - reflexivity.
  - split; [exact Hraised|]. split; [exact Himage | exact Hlayers].
Defined.

(** X25: [getSlopeVulnerabilityCategory] is monotone: of two slopes the
    steeper one never gets the more vulnerable rating; the five classes
    are cut at 0.5, 1, 2 and 5 degrees, each bound belonging to the class
    above it. *)
Theorem slope_rating_is_monotone (s1 s2 : Q) :
  s1 <= s2 ->
  (severity (Slope.getSlopeVulnerabilityCategory (Some s2))
   <= severity (Slope.getSlopeVulnerabilityCategory (Some s1)))%nat /\
  severity (Slope.getSlopeVulnerabilityCategory (Some s1))
  = (if Qlt_bool s1 (1 # 2) then 4 else if Qlt_bool s1 1 then 3
     else if Qlt_bool s1 2 then 2 else if Qlt_bool s1 5 then 1 else 0)%nat.
Proof.
  intros Hle. unfold Slope.getSlopeVulnerabilityCategory, Slope.lessThan. split.
  - destruct (Qlt_bool s1 (1 # 2)) eqn:A1; destruct (Qlt_bool s1 1) eqn:B1;
      destruct (Qlt_bool s1 2) eqn:C1; destruct (Qlt_bool s1 5) eqn:D1;
      destruct (Qlt_bool s2 (1 # 2)) eqn:A2; destruct (Qlt_bool s2 1) eqn:B2;
      destruct (Qlt_bool s2 2) eqn:C2; destruct (Qlt_bool s2 5) eqn:D2;
      cbn; try lia; exfalso;
      repeat match goal with
             | H : Qlt_bool _ _ = true |- _ => apply Qlt_bool_iff in H
             | H : Qlt_bool _ _ = false |- _ => apply Qlt_bool_false in H
             end; lra.
  - destruct (Qlt_bool s1 (1 # 2)); [reflexivity|].
    destruct (Qlt_bool s1 1); [reflexivity|].
    destruct (Qlt_bool s1 2); [reflexivity|].
    destruct (Qlt_bool s1 5); reflexivity.
Qed.

Lemma slope_rating_is_monotone_witness :
  (severity (Slope.getSlopeVulnerabilityCategory (Some 3%Q))
   <= severity (Slope.getSlopeVulnerabilityCategory (Some (1 # 2))))%nat /\
  severity (Slope.getSlopeVulnerabilityCategory (Some (1 # 2)))
  = (if Qlt_bool (1 # 2) (1 # 2) then 4 else if Qlt_bool (1 # 2) 1 then 3
     else if Qlt_bool (1 # 2) 2 then 2 else if Qlt_bool (1 # 2) 5 then 1 else 0)%nat.
Proof.
  apply (slope_rating_is_monotone (1 # 2) 3). vm_compute. discriminate.
Defined.

(** ** The Landsat classifier *)

(** X28: the Landsat classifier of version 1.1.0 marks a pixel as water
    exactly when its four bands are valid and
    [4 * (GREEN - SWIR1) - (0.25 * NIR + 2.75 * SWIR2)] exceeds the Otsu
    threshold, keeps the other pixels with four valid bands as 0 and masks
    the rest.  The threshold comes from the footprint of the image at scale
    15, so the mask depends on no field of [state]: neither on the area of
    interest nor on the custom threshold. *)
Theorem landsat_water_rule_v110 {B : Backend} (st : State) (image : Image pixel)
    (t : Q) :
  otsu (reduceRegion_histogram
          (Img.map4 AWEInsh_expr (Img.select image "SR_B3") (Img.select image "SR_B6")
                    (Img.select image "SR_B5") (Img.select image "SR_B7"))
          (imageGeometry image) 15 (10 ^ 13)) = Ok t ->
  exists mask,
    (forall st', V110.detectWaterFromLandsat st' image = Ok mask) /\
    forall p,
      (mask p = Some 1 <->
       exists g s1 n s2,
         image "SR_B3" p = Some g /\ image "SR_B6" p = Some s1 /\
         image "SR_B5" p = Some n /\ image "SR_B7" p = Some s2 /\
         t < 4 * (g - s1) - ((1 # 4) * n + (11 # 4) * s2)) /\
      (mask p = None <->
       image "SR_B3" p = None \/ image "SR_B6" p = None \/
       image "SR_B5" p = None \/ image "SR_B7" p = None).
Proof.
  intros Ht. eexists. split.
  - intros st'. unfold V110.detectWaterFromLandsat. rewrite Ht. reflexivity.
  - intros p. cbv [Img.gt Img.map1 Img.map4 Img.select option_map AWEInsh_expr].
    destruct (image "SR_B3" p) as [g|]; [|split; split;
      [discriminate | intros [g [s1 [n [s2 [H _]]]]]; discriminate H
       | auto | reflexivity]].
    destruct (image "SR_B6" p) as [s1|]; [|split; split;
      [discriminate | intros [g' [s1 [n [s2 [_ [H _]]]]]]; discriminate H
       | auto | reflexivity]].
    destruct (image "SR_B5" p) as [n|]; [|split; split;
      [discriminate | intros [g' [s1' [n [s2 [_ [_ [H _]]]]]]]; discriminate H
       | auto | reflexivity]].
    destruct (image "SR_B7" p) as [s2|]; [|split; split;
      [discriminate | intros [g' [s1' [n' [s2 [_ [_ [_ [H _]]]]]]]]; discriminate H
       | auto | reflexivity]].
    destruct (Qlt_bool t (4 * (g - s1) - ((1 # 4) * n + (11 # 4) * s2))) eqn:E;
      split; split.
    + intros _. exists g, s1, n, s2. repeat split. apply Qlt_bool_iff. exact E.
    + reflexivity.
    + discriminate.
    + intros [H|[H|[H|H]]]; discriminate H.
    + discriminate.
    + intros [g' [s1' [n' [s2' [Hg [Hs1 [Hn [Hs2 Hlt]]]]]]]].
      injection Hg as <-. injection Hs1 as <-. injection Hn as <-. injection Hs2 as <-.
      apply Qlt_bool_iff in Hlt. congruence.
    + discriminate.
    + intros [H|[H|[H|H]]]; discriminate H.
Qed.

Lemma landsat_water_rule_v110_witness :
  exists mask : Band Z,
    (forall st', V110.detectWaterFromLandsat (B := Ref.backend) st' landsatImage
                 = Ok mask) /\
    forall p,
      (mask p = Some 1 <->
       exists g s1 n s2,
         landsatImage "SR_B3" p = Some g /\ landsatImage "SR_B6" p = Some s1 /\
         landsatImage "SR_B5" p = Some n /\ landsatImage "SR_B7" p = Some s2 /\
         -784 # 16 < 4 * (g - s1) - ((1 # 4) * n + (11 # 4) * s2)) /\
      (mask p = None <->
       landsatImage "SR_B3" p = None \/ landsatImage "SR_B6" p = None \/
       landsatImage "SR_B5" p = None \/ landsatImage "SR_B7" p = None).
Proof.
  apply (landsat_water_rule_v110 (B := Ref.backend)
           (Ref.defaultState Ref.footprint) landsatImage (-784 # 16)).
  vm_compute. reflexivity.
Defined.

(** ** The custom threshold *)

Lemma truth_is_one (b : bool) : truth b == 1 -> b = true.
Proof. destruct b; [reflexivity|]. intros H. discriminate H. Qed.

Lemma water_above {pixel : Type} (index : Band pixel) (t : Q) (p : pixel) :
  isWater (Ok (Img.gt index t)) p <-> exists v, index p = Some v /\ t < v.
Proof.
  unfold isWater, Img.gt, Img.map1. split.
  - intros [m [Hm [w [Hp Hw]]]]. injection Hm as <-.
    destruct (index p) as [v|]; [|discriminate Hp].
    simpl in Hp. injection Hp as <-. exists v. split; [reflexivity|].
    apply Qlt_bool_iff. apply truth_is_one. exact Hw.
  - intros [v [Hv Hlt]]. eexists. split; [reflexivity|].
    cbv beta. rewrite Hv. simpl. exists 1. apply Qlt_bool_iff in Hlt. rewrite Hlt.
    split; reflexivity.
Qed.

Lemma water_below {pixel : Type} (index : Band pixel) (t : Q) (p : pixel) :
  isWater (Ok (Img.lt index t)) p <-> exists v, index p = Some v /\ v < t.
Proof.
  unfold isWater, Img.lt, Img.map1. split.
  - intros [m [Hm [w [Hp Hw]]]]. injection Hm as <-.
    destruct (index p) as [v|]; [|discriminate Hp].
    simpl in Hp. injection Hp as <-. exists v. split; [reflexivity|].
    apply Qlt_bool_iff. apply truth_is_one. exact Hw.
  - intros [v [Hv Hlt]]. eexists. split; [reflexivity|].
    cbv beta. rewrite Hv. simpl. exists 1. apply Qlt_bool_iff in Hlt. rewrite Hlt.
    split; reflexivity.
Qed.

(** X29: how the water set follows the custom threshold.  In version 1.1.0
    raising [state.waterThreshold] never adds a water pixel, for any index.
    In version 2.0.0 this holds for every index but 'Band8', for which
    raising the threshold never removes a water pixel. *)
Theorem optical_custom_threshold_monotone {B : Backend} (st : State)
    (image : Image pixel) (indexName : string) (low high : Q) (p : pixel) :
  useCustomThreshold st = true ->
  low <= high ->
  (isWater (V110.detectWaterFromOptical (withThreshold st high) image indexName) p ->
   isWater (V110.detectWaterFromOptical (withThreshold st low) image indexName) p) /\
  (indexName <> "Band8" ->
   isWater (V200.detectWaterFromOptical (withThreshold st high) image indexName) p ->
   isWater (V200.detectWaterFromOptical (withThreshold st low) image indexName) p) /\
  (indexName = "Band8" ->
   isWater (V200.detectWaterFromOptical (withThreshold st low) image indexName) p ->
   isWater (V200.detectWaterFromOptical (withThreshold st high) image indexName) p).
Proof.
  intros Hcustom Hle.
  unfold V110.detectWaterFromOptical, V200.detectWaterFromOptical.
  cbn [useCustomThreshold waterThreshold withThreshold]. rewrite Hcustom.
  split; [|split].
  - rewrite !water_above. intros [v [Hv Hlt]]. exists v. split; [exact Hv|]. lra.
  - intros Hname. apply String.eqb_neq in Hname. rewrite Hname.
    rewrite !water_above. intros [v [Hv Hlt]]. exists v. split; [exact Hv|]. lra.
  - intros Hname. apply String.eqb_eq in Hname. rewrite Hname.
    rewrite !water_below. intros [v [Hv Hlt]]. exists v. split; [exact Hv|]. lra.
Qed.

Lemma optical_custom_threshold_monotone_witness :
  (isWater (V110.detectWaterFromOptical
              (withThreshold customThresholdState (25 # 100)) nirImage "Band8") 1%Z ->
   isWater (V110.detectWaterFromOptical
              (withThreshold customThresholdState (2 # 10)) nirImage "Band8") 1%Z) /\
  ("Band8" <> "Band8" ->
   isWater (V200.detectWaterFromOptical
              (withThreshold customThresholdState (25 # 100)) nirImage "Band8") 1%Z ->
   isWater (V200.detectWaterFromOptical
              (withThreshold customThresholdState (2 # 10)) nirImage "Band8") 1%Z) /\
  ("Band8" = "Band8" ->
   isWater (V200.detectWaterFromOptical
              (withThreshold customThresholdState (2 # 10)) nirImage "Band8") 1%Z ->
   isWater (V200.detectWaterFromOptical
              (withThreshold customThresholdState (25 # 100)) nirImage "Band8") 1%Z).
Proof.
  apply (optical_custom_threshold_monotone (B := Ref.backend)
           customThresholdState nirImage "Band8" (2 # 10) (25 # 100) 1%Z).
  - reflexivity.
  - vm_compute. discriminate.
Defined.

(** X30: where versions 1.1.0 and 2.0.0 of the optical classifier part.  They
    return the same mask, or the same error, unless a custom threshold is
    used with the index 'Band8'; in that case both succeed and, at every
    pixel whose value differs from the threshold, one holds 1 exactly where
    the other holds 0. *)
Theorem optical_versions_part_at_custom_band8 {B : Backend} (st : State)
    (image : Image pixel) (indexName : string) :
  (useCustomThreshold st = false \/ indexName <> "Band8" ->
   V200.detectWaterFromOptical st image indexName
   = V110.detectWaterFromOptical st image indexName) /\
  (useCustomThreshold st = true /\ indexName = "Band8" ->
   exists old new,
     V110.detectWaterFromOptical st image indexName = Ok old /\
     V200.detectWaterFromOptical st image indexName = Ok new /\
     forall p v, image "B8" p = Some v -> ~ v == waterThreshold st ->
                 (old p = Some 1 <-> new p = Some 0) /\
                 (old p = Some 0 <-> new p = Some 1)).
Proof.
  unfold V110.detectWaterFromOptical, V200.detectWaterFromOptical. split.
  - intros [Hauto|Hname].
    + rewrite Hauto. reflexivity.
    + apply String.eqb_neq in Hname. rewrite Hname.
      destruct (useCustomThreshold st); reflexivity.
  - intros [Hcustom Hname]. subst indexName. rewrite Hcustom.
    change (String.eqb "Band8" "Band8") with true. cbv iota.
    eexists. eexists. split; [reflexivity|]. split; [reflexivity|].
    intros p v Hv Hneq.
    change (calculateWaterIndex image "Band8") with (Img.select image "B8").
    unfold Img.gt, Img.lt, Img.map1, Img.select. rewrite Hv. simpl.
    destruct (Qlt_bool (waterThreshold st) v) eqn:Eabove;
      destruct (Qlt_bool v (waterThreshold st)) eqn:Ebelow; simpl.
    + exfalso. apply Qlt_bool_iff in Eabove. apply Qlt_bool_iff in Ebelow. lra.
    + split; split; intros H; first [reflexivity | discriminate H].
    + split; split; intros H; first [reflexivity | discriminate H].
    + exfalso. apply Qlt_bool_false in Eabove. apply Qlt_bool_false in Ebelow.
      apply Hneq. lra.
Qed.

Lemma optical_versions_part_at_custom_band8_witness :
  exists old new : Band Z,
    V110.detectWaterFromOptical customThresholdState nirImage "Band8" = Ok old /\
    V200.detectWaterFromOptical customThresholdState nirImage "Band8" = Ok new /\
    forall p v, nirImage "B8" p = Some v -> ~ v == waterThreshold customThresholdState ->
                (old p = Some 1 <-> new p = Some 0) /\
                (old p = Some 0 <-> new p = Some 1).
Proof.
  destruct (optical_versions_part_at_custom_band8 (B := Ref.backend)
              customThresholdState nirImage "Band8") as [_ Hcustom].
  apply Hcustom. split; reflexivity.
Defined.
